(** * watchr: the recursive file watcher of [source/index.js]

    A shallow embedding of the [Watcher] class and proofs about its stat
    comparator, registry, state machine, close cascade and listener
    pipeline.

    Conventions of the embedding.
    - JavaScript objects live in stores and are named by their index: stat
      objects in a store of property lists, [Watcher] instances in a store
      of records.  A mutation updates the store entry, so aliases see it.
    - A method that takes a completion callback [next] returns what it
      passes to [next]; callbacks of the file system ([stat], [exists],
      [readdir], [scandir]) are run where the call is made, with the answer
      of the environment [Env].  The catch-up timer of [listener] stays
      pending in the watcher until [fireTimeout] runs it.
    - A thrown exception is the result [Throw]; recursion through the
      watcher tree is bounded by fuel and running out is [OutOfFuel]. *)

From Stdlib Require Import ZArith Lia List Ascii String Bool.
From Stdlib Require Import DecimalString DecimalZ.
From stdpp Require Import base option list strings gmap.

Open Scope string_scope.
Open Scope Z_scope.

(* ===================================================================== *)
(** * JavaScript values, objects and the stat store *)
(* ===================================================================== *)

(** The values a property of a stat object holds: JSON primitives and
    [Date] objects ([None] is the invalid date). *)
Inductive value :=
| VNull
| VBool (b : bool)
| VNum (n : Z)
| VStr (s : string)
| VDate (t : option Z).

(** An object is its own enumerable properties in insertion order. *)
Abbreviation object := (list (string * value)).

Abbreviation loc := nat.
Abbreviation heap := (list object).

(** What a variable such as [old], [current] or [watchr.stat] holds. *)
Inductive ref :=
| RNull
| RUndefined
| RObj (l : loc).

Inductive error :=
| Error (msg : string)
| TypeError (msg : string).

(** Results of running code on a state [S]. *)
Inductive Res (S A : Type) :=
| Ok (a : A) (s : S)
| Throw (e : error) (s : S)
| OutOfFuel (s : S).
Arguments Ok {S A} a s.
Arguments Throw {S A} e s.
Arguments OutOfFuel {S A} s.

Definition M (S A : Type) := S -> Res S A.

Definition ret {S A} (a : A) : M S A := fun s => Ok a s.
Definition bind {S A B} (m : M S A) (k : A -> M S B) : M S B :=
  fun s => match m s with
           | Ok a s' => k a s'
           | Throw e s' => Throw e s'
           | OutOfFuel s' => OutOfFuel s'
           end.
Definition throw {S A} (e : error) : M S A := fun s => Throw e s.
Definition get {S} : M S S := fun s => Ok s s.
Definition put {S} (s : S) : M S unit := fun _ => Ok tt s.
Definition modify {S} (f : S -> S) : M S unit := fun s => Ok tt (f s).
Definition when {S} (b : bool) (m : M S unit) : M S unit :=
  if b then m else ret tt.

Declare Scope js_scope.
Delimit Scope js_scope with js.
Notation "x <- m ;; k" := (bind m (fun x => k))
  (at level 100, m at next level, right associativity) : js_scope.
Notation "m ;;; k" := (bind m (fun _ => k))
  (at level 100, right associativity) : js_scope.
Open Scope js_scope.

Definition final_state {S A} (r : Res S A) : S :=
  match r with Ok _ s | Throw _ s | OutOfFuel s => s end.

(** Run [m] on a component of the state. *)
Definition zoom {S T A} (proj : S -> T) (upd : T -> S -> S) (m : M T A) : M S A :=
  fun s => match m (proj s) with
           | Ok a t => Ok a (upd t s)
           | Throw e t => Throw e (upd t s)
           | OutOfFuel t => OutOfFuel (upd t s)
           end.

(** ** Property access *)

Fixpoint getProp (o : object) (k : string) : option value :=
  match o with
  | [] => None
  | (k', v) :: o' => if String.eqb k' k then Some v else getProp o' k
  end.

(** [delete o[k]] *)
Fixpoint deleteProp (o : object) (k : string) : object :=
  match o with
  | [] => []
  | (k', v) :: o' => if String.eqb k' k then deleteProp o' k else (k', v) :: deleteProp o' k
  end.

(** [x != null] on an optional property value ([None] is [undefined]). *)
Definition notNullish (v : option value) : bool :=
  match v with
  | None | Some VNull => false
  | Some _ => true
  end.

Definition hasRef (r : ref) : bool :=
  match r with RObj _ => true | _ => false end.

(** ** The environment: JavaScript built-ins and the file system *)

(** Options of the ignore oracle ([ignorefs]). *)
Record IgnoreOpts := {
  ignorePaths : option (list string);
  ignoreHiddenFiles : bool;
  ignoreCommonPatterns : bool;
  ignoreCustomPatterns : option string
}.

Record Env := {
  (** [Date.prototype.toISOString], on the time value in milliseconds *)
  toISOString : Z -> string;
  (** [Date.prototype.toString] *)
  dateToString : Z -> string;
  (** [fs.exists] *)
  fs_exists : string -> bool;
  (** [fs.stat] and [fs.lstat]: an error or the properties of the [Stats] *)
  fs_stat : string -> error + object;
  fs_lstat : string -> error + object;
  (** [fs.readdir] *)
  fs_readdir : string -> error + list string;
  (** [scandirectory] without recursion: the (full path, relative path) of
      the entries it visits *)
  scandir : string -> IgnoreOpts -> error + list (string * string);
  (** is [fs.watch] / [fs.watchFile] defined, and does the call throw *)
  fs_has_watch : bool;
  fs_watch_throws : string -> option error;
  fs_has_watchFile : bool;
  fs_watchFile_throws : string -> option error;
  (** [ignorefs.isIgnoredPath] *)
  ignorefs_isIgnoredPath : string -> IgnoreOpts -> bool;
  (** [path.join] *)
  path_join : string -> string -> string
}.

(** ** JSON.stringify on flat objects *)

Definition dquote : ascii := "034"%char.
Definition backslash : ascii := "\"%char.

Definition hexDigit (n : N) : ascii :=
  match n with
  | 0%N => "0" | 1%N => "1" | 2%N => "2" | 3%N => "3" | 4%N => "4"
  | 5%N => "5" | 6%N => "6" | 7%N => "7" | 8%N => "8" | 9%N => "9"
  | 10%N => "a" | 11%N => "b" | 12%N => "c" | 13%N => "d" | 14%N => "e"
  | _ => "f"
  end%char.

(** The escape of one character in a JSON string literal. *)
Definition escapeChar (c : ascii) : string :=
  let n := N_of_ascii c in
  if Ascii.eqb c dquote then String backslash (String dquote EmptyString)
  else if Ascii.eqb c backslash then String backslash (String backslash EmptyString)
  else if N.eqb n 8 then String backslash "b"
  else if N.eqb n 12 then String backslash "f"
  else if N.eqb n 10 then String backslash "n"
  else if N.eqb n 13 then String backslash "r"
  else if N.eqb n 9 then String backslash "t"
  else if N.ltb n 32 then
    String backslash
      (String "u" (String "0" (String "0"
        (String (hexDigit (N.div n 16)) (String (hexDigit (N.modulo n 16)) EmptyString)))))
  else String c EmptyString.

Fixpoint escape (s : string) : string :=
  match s with
  | EmptyString => EmptyString
  | String c s' => escapeChar c ++ escape s'
  end.

Definition quote (s : string) : string :=
  String dquote (escape s ++ String dquote EmptyString).

(** Integers print in decimal. *)
Definition numberToString (n : Z) : string :=
  NilZero.string_of_int (Z.to_int n).

Section Stringify.
Variable env : Env.

(** The JSON text of a value; a [Date] goes through its [toJSON]. *)
Definition stringifyValue (v : value) : string :=
  match v with
  | VNull => "null"
  | VBool true => "true"
  | VBool false => "false"
  | VNum n => numberToString n
  | VStr s => quote s
  | VDate (Some t) => quote (toISOString env t)
  | VDate None => "null"
  end.

Definition stringifyProp (p : string * value) : string :=
  quote (fst p) ++ ":" ++ stringifyValue (snd p).

Fixpoint stringifyProps (o : object) : string :=
  match o with
  | [] => ""
  | [p] => stringifyProp p
  | p :: o' => stringifyProp p ++ "," ++ stringifyProps o'
  end.

(** [JSON.stringify(o)] *)
Definition stringify (o : object) : string :=
  "{" ++ stringifyProps o ++ "}".

(** What [JSON.parse(JSON.stringify(v))] gives back for a value. *)
Definition jsonValue (v : value) : value :=
  match v with
  | VDate (Some t) => VStr (toISOString env t)
  | VDate None => VNull
  | _ => v
  end.

Definition jsonObject (o : object) : object :=
  map (fun p => (fst p, jsonValue (snd p))) o.

(** ** Operations on the stat store *)

Definition readObj (l : loc) : M heap object :=
  fun h => match h !! l with
           | Some o => Ok o h
           | None => Throw (TypeError "dangling reference") h
           end.

Definition writeObj (l : loc) (o : object) : M heap unit :=
  modify (fun h => <[l:=o]> h).

Definition allocObj (o : object) : M heap loc :=
  fun h => Ok (length h) (h ++ [o])%list.

(** [extendr.dereferenceJSON(x)]: a fresh copy made through JSON. *)
Definition dereferenceJSON (l : loc) : M heap loc :=
  o <- readObj l ;; allocObj (jsonObject o).

(** [if ( x.k != null )  delete x.k] *)
Definition deleteIfPresent (l : loc) (k : string) : M heap unit :=
  o <- readObj l ;;
  when (notNullish (getProp o k)) (writeObj l (deleteProp o k)).

(** [JSON.stringify(x)] of a stored object *)
Definition JSON_stringify (l : loc) : M heap string :=
  o <- readObj l ;; ret (stringify o).

(** [Watcher.statChanged (old, current)] *)
Definition statChanged (old current : ref) : M heap bool :=
  let hasOld := hasRef old in
  let hasCurrent := hasRef current in
  if negb (Bool.eqb hasOld hasCurrent) then ret true
  else
    match old, current with
    | RObj lold, RObj lcurrent =>
        old' <- dereferenceJSON lold ;;
        current' <- dereferenceJSON lcurrent ;;
        deleteIfPresent old' "atime" ;;;
        deleteIfPresent old' "ctime" ;;;
        deleteIfPresent current' "atime" ;;;
        deleteIfPresent current' "ctime" ;;;
        so <- JSON_stringify old' ;;
        sc <- JSON_stringify current' ;;
        if negb (String.eqb so sc) then ret true else ret false
    | _, _ => ret false
    end.
End Stringify.

(** Modelled from the spec: the type of a stat snapshot is not declared in the
    source, which receives it from [fs.stat].  The record has the fields the
    specification lists for a snapshot ([size], [mtime], [birthtime], [ino],
    [mode], [atime], [ctime]) and the other data properties of Node's
    [fs.Stats], in the order that object lists them.  Times are [Date]s,
    held by their time value in milliseconds.  The kind of the path is not
    a property: the source asks [isDirectory()], which reads the file-type
    bits of [mode]. *)
Record Stats := {
  st_dev : Z; st_mode : Z; st_nlink : Z; st_uid : Z; st_gid : Z; st_rdev : Z;
  st_blksize : Z; st_ino : Z; st_size : Z; st_blocks : Z;
  st_atime : Z; st_mtime : Z; st_ctime : Z; st_birthtime : Z
}.

(** The own properties of the [fs.Stats] that [fs.stat] gave before
    Node 8.1. *)
Definition statsObject (s : Stats) : object :=
  [ ("dev", VNum (st_dev s)); ("mode", VNum (st_mode s));
    ("nlink", VNum (st_nlink s)); ("uid", VNum (st_uid s));
    ("gid", VNum (st_gid s)); ("rdev", VNum (st_rdev s));
    ("blksize", VNum (st_blksize s)); ("ino", VNum (st_ino s));
    ("size", VNum (st_size s)); ("blocks", VNum (st_blocks s));
    ("atime", VDate (Some (st_atime s))); ("mtime", VDate (Some (st_mtime s)));
    ("ctime", VDate (Some (st_ctime s)));
    ("birthtime", VDate (Some (st_birthtime s))) ].

(** The own properties of the [fs.Stats] of Node 8.1 and later: each time
    is there twice, as a number of milliseconds and as a [Date]. *)
Definition statsObjectMs (s : Stats) : object :=
  [ ("dev", VNum (st_dev s)); ("mode", VNum (st_mode s));
    ("nlink", VNum (st_nlink s)); ("uid", VNum (st_uid s));
    ("gid", VNum (st_gid s)); ("rdev", VNum (st_rdev s));
    ("blksize", VNum (st_blksize s)); ("ino", VNum (st_ino s));
    ("size", VNum (st_size s)); ("blocks", VNum (st_blocks s));
    ("atimeMs", VNum (st_atime s)); ("mtimeMs", VNum (st_mtime s));
    ("ctimeMs", VNum (st_ctime s)); ("birthtimeMs", VNum (st_birthtime s));
    ("atime", VDate (Some (st_atime s))); ("mtime", VDate (Some (st_mtime s)));
    ("ctime", VDate (Some (st_ctime s)));
    ("birthtime", VDate (Some (st_birthtime s))) ].

(** The file-type bits of a mode ([S_IFMT]) and the kinds they encode. *)
Inductive Kind := KFile | KDirectory | KSymlink | KOther.

Definition S_IFMT : Z := 61440.

Definition kindOfMode (mode : Z) : Kind :=
  let t := Z.land mode S_IFMT in
  if Z.eqb t 32768 then KFile
  else if Z.eqb t 16384 then KDirectory
  else if Z.eqb t 40960 then KSymlink
  else KOther.

Definition st_kind (s : Stats) : Kind := kindOfMode (st_mode s).

(** Two snapshots agree on every field other than [atime] and [ctime]. *)
Definition sameButAccess (a b : Stats) : Prop :=
  st_dev a = st_dev b /\ st_mode a = st_mode b /\ st_nlink a = st_nlink b /\
  st_uid a = st_uid b /\ st_gid a = st_gid b /\ st_rdev a = st_rdev b /\
  st_blksize a = st_blksize b /\ st_ino a = st_ino b /\ st_size a = st_size b /\
  st_blocks a = st_blocks b /\ st_mtime a = st_mtime b /\
  st_birthtime a = st_birthtime b.

(* ===================================================================== *)
(** * The watcher world *)
(* ===================================================================== *)

(** [this.state]: the constructor's comment lists the valid states. *)
Inductive State := pending | active | closed | deleted.

(** A slot of [this.children]: a watcher or the reservation [false]. *)
Inductive child :=
| Reserved
| Child (w : nat).

(** The listeners the class itself attaches (the closures of
    [Watcher.watch] and [watchChild]), and listeners of the caller, which
    are opaque. *)
Inductive handler :=
| HRegistry (path : string)
| HChildClose (parent : nat) (relativePath : string)
| HChildLog (parent : nat)
| HChildChange (parent : nat) (relativePath fullPath : string)
| HUser (tag : nat).

(** The events of a watcher with their arguments; the extra arguments of a
    [log] call (stats, birth times) are left out. *)
Inductive event :=
| ELog (level message : string)
| EChange (changeType fullPath : string) (currentStat previousStat : ref)
| EClose (reason : option string)
| EWatching (err : option error)
| EError (err : error).

Definition eventName (e : event) : string :=
  match e with
  | ELog _ _ => "log"
  | EChange _ _ _ _ => "change"
  | EClose _ => "close"
  | EWatching _ => "watching"
  | EError _ => "error"
  end.

(** A callback given to [tasks.done] of a listener batch: the default
    [next] of [listener], which emits [error] on the watcher, or the
    [complete] of the task with which a parent forwarded the detection. *)
Inductive completion :=
| DoneEmitError (w : nat)
| DoneForward (group : nat).

(** [this.listenerTasks]: what the closures of the task group captured
    when the first notification of the window arrived. *)
Record Batch := {
  b_previousStat : ref;
  b_method : option string;
  b_done : list completion
}.

(** The running group [check what has changed] of a batch: the forward
    tasks still to complete and the callbacks owed at the end. *)
Record Group := {
  g_pending : nat;
  g_finished : bool;
  g_done : list completion
}.

Record Config := {
  cfg_path : option string;
  interval : Z;
  persistent : bool;
  catchupDelay : Z;
  preferredMethods : list string;
  followLinks : bool;
  cfg_ignore : IgnoreOpts
}.

(** The options object given to [Watcher.watch] and [setConfig]; [None] is
    an absent key. *)
Record Opts := {
  o_path : string;
  o_stat : ref;
  o_once : list (string * list handler);
  o_on : list (string * list handler);
  o_interval : option Z;
  o_persistent : option bool;
  o_catchupDelay : option Z;
  o_preferredMethods : option (list string);
  o_followLinks : option bool;
  o_ignore : option IgnoreOpts
}.

Record Watcher := {
  path : option string;
  stat : ref;
  fswatcher : option nat;
  children : list (string * child);
  state : State;
  method : option string;
  listenerTasks : option Batch;
  listenerTimeout : option Z;
  config : Config;
  (** the listener table of the [EventEmitter]: event, once?, listener *)
  listeners : list (string * bool * handler)
}.

Record World := {
  (** stat objects *)
  stats : heap;
  (** [Watcher.watchers] *)
  watchers : gmap string (option nat);
  (** the [Watcher] instances *)
  nodes : list Watcher;
  (** running task groups *)
  groups : list Group;
  (** the handles [fs.watch] returned: the path, and is it still open *)
  handles : list (string * bool);
  (** the listeners [fs.watchFile] holds, by path *)
  polls : list string;
  (** every event emitted so far, oldest first, with its emitter *)
  trace : list (nat * event)
}.

Definition W := M World.

(** ** The constructor *)

Definition defaultIgnore : IgnoreOpts :=
  {| ignorePaths := None; ignoreHiddenFiles := false;
     ignoreCommonPatterns := true; ignoreCustomPatterns := None |}.

Definition defaultConfig : Config :=
  {| cfg_path := None; interval := 5007; persistent := true;
     catchupDelay := 2 * 1000; preferredMethods := ["watch"; "watchFile"];
     followLinks := true; cfg_ignore := defaultIgnore |}.

Definition newWatcher : Watcher :=
  {| path := None; stat := RNull; fswatcher := None; children := [];
     state := pending; method := None; listenerTasks := None;
     listenerTimeout := None; config := defaultConfig; listeners := [] |}.

Definition emptyWorld : World :=
  {| stats := []; watchers := ∅; nodes := []; groups := []; handles := [];
     polls := []; trace := [] |}.

(** ** Field updates *)

Definition set_path v (x : Watcher) : Watcher :=
  {| path := v; stat := stat x; fswatcher := fswatcher x; children := children x;
     state := state x; method := method x; listenerTasks := listenerTasks x;
     listenerTimeout := listenerTimeout x; config := config x; listeners := listeners x |}.
Definition set_stat v (x : Watcher) : Watcher :=
  {| path := path x; stat := v; fswatcher := fswatcher x; children := children x;
     state := state x; method := method x; listenerTasks := listenerTasks x;
     listenerTimeout := listenerTimeout x; config := config x; listeners := listeners x |}.
Definition set_fswatcher v (x : Watcher) : Watcher :=
  {| path := path x; stat := stat x; fswatcher := v; children := children x;
     state := state x; method := method x; listenerTasks := listenerTasks x;
     listenerTimeout := listenerTimeout x; config := config x; listeners := listeners x |}.
Definition set_children v (x : Watcher) : Watcher :=
  {| path := path x; stat := stat x; fswatcher := fswatcher x; children := v;
     state := state x; method := method x; listenerTasks := listenerTasks x;
     listenerTimeout := listenerTimeout x; config := config x; listeners := listeners x |}.
Definition set_state v (x : Watcher) : Watcher :=
  {| path := path x; stat := stat x; fswatcher := fswatcher x; children := children x;
     state := v; method := method x; listenerTasks := listenerTasks x;
     listenerTimeout := listenerTimeout x; config := config x; listeners := listeners x |}.
Definition set_method v (x : Watcher) : Watcher :=
  {| path := path x; stat := stat x; fswatcher := fswatcher x; children := children x;
     state := state x; method := v; listenerTasks := listenerTasks x;
     listenerTimeout := listenerTimeout x; config := config x; listeners := listeners x |}.
Definition set_listenerTasks v (x : Watcher) : Watcher :=
  {| path := path x; stat := stat x; fswatcher := fswatcher x; children := children x;
     state := state x; method := method x; listenerTasks := v;
     listenerTimeout := listenerTimeout x; config := config x; listeners := listeners x |}.
Definition set_listenerTimeout v (x : Watcher) : Watcher :=
  {| path := path x; stat := stat x; fswatcher := fswatcher x; children := children x;
     state := state x; method := method x; listenerTasks := listenerTasks x;
     listenerTimeout := v; config := config x; listeners := listeners x |}.
Definition set_config v (x : Watcher) : Watcher :=
  {| path := path x; stat := stat x; fswatcher := fswatcher x; children := children x;
     state := state x; method := method x; listenerTasks := listenerTasks x;
     listenerTimeout := listenerTimeout x; config := v; listeners := listeners x |}.
Definition set_listeners v (x : Watcher) : Watcher :=
  {| path := path x; stat := stat x; fswatcher := fswatcher x; children := children x;
     state := state x; method := method x; listenerTasks := listenerTasks x;
     listenerTimeout := listenerTimeout x; config := config x; listeners := v |}.

Definition set_stats v (s : World) : World :=
  {| stats := v; watchers := watchers s; nodes := nodes s; groups := groups s;
     handles := handles s; polls := polls s; trace := trace s |}.
Definition set_watchers v (s : World) : World :=
  {| stats := stats s; watchers := v; nodes := nodes s; groups := groups s;
     handles := handles s; polls := polls s; trace := trace s |}.
Definition set_nodes v (s : World) : World :=
  {| stats := stats s; watchers := watchers s; nodes := v; groups := groups s;
     handles := handles s; polls := polls s; trace := trace s |}.
Definition set_groups v (s : World) : World :=
  {| stats := stats s; watchers := watchers s; nodes := nodes s; groups := v;
     handles := handles s; polls := polls s; trace := trace s |}.
Definition set_handles v (s : World) : World :=
  {| stats := stats s; watchers := watchers s; nodes := nodes s; groups := groups s;
     handles := v; polls := polls s; trace := trace s |}.
Definition set_polls v (s : World) : World :=
  {| stats := stats s; watchers := watchers s; nodes := nodes s; groups := groups s;
     handles := handles s; polls := v; trace := trace s |}.
Definition set_trace v (s : World) : World :=
  {| stats := stats s; watchers := watchers s; nodes := nodes s; groups := groups s;
     handles := handles s; polls := polls s; trace := v |}.

(** ** Access to a watcher of the store *)

Definition getW (w : nat) : W Watcher :=
  fun s => match nodes s !! w with
           | Some x => Ok x s
           | None => Throw (TypeError "dangling watcher") s
           end.

Definition updW (w : nat) (f : Watcher -> Watcher) : W unit :=
  modify (fun s => set_nodes (alter f w (nodes s)) s).

Definition onStats {A} (m : M heap A) : W A := zoom stats set_stats m.

(** The string a template literal prints for [watchr.path]. *)
Definition pathString (x : Watcher) : string :=
  match path x with Some p => p | None => "null" end.

(** ** [this.children] as a JavaScript object *)

Fixpoint lookupChild (cs : list (string * child)) (k : string) : option child :=
  match cs with
  | [] => None
  | (k', c) :: cs' => if String.eqb k' k then Some c else lookupChild cs' k
  end.

(** [children[k] = c]: an existing key keeps its place. *)
Fixpoint assignChild (cs : list (string * child)) (k : string) (c : child)
  : list (string * child) :=
  match cs with
  | [] => [(k, c)]
  | (k', c') :: cs' =>
      if String.eqb k' k then (k', c) :: cs' else (k', c') :: assignChild cs' k c
  end.

(** [delete children[k]] *)
Fixpoint deleteChild (cs : list (string * child)) (k : string) : list (string * child) :=
  match cs with
  | [] => []
  | (k', c') :: cs' =>
      if String.eqb k' k then deleteChild cs' k else (k', c') :: deleteChild cs' k
  end.

(** The property key a child value turns into when it is used as one:
    [String(false)] and [String(watcher)]. *)
Definition childAsKey (c : child) : string :=
  match c with
  | Reserved => "false"
  | Child _ => "[object Object]"
  end.

(** Truthiness of [children[k]]: [undefined] and [false] are falsy. *)
Definition truthyChild (c : option child) : option nat :=
  match c with
  | Some (Child w) => Some w
  | _ => None
  end.

(** [String(err)] for an error object. *)
Definition errorToString (e : error) : string :=
  match e with
  | Error m => "Error: " ++ m
  | TypeError m => "TypeError: " ++ m
  end.

(** [String(array)]: the elements joined by commas. *)
Fixpoint joinComma (l : list string) : string :=
  match l with
  | [] => ""
  | [s] => s
  | s :: l' => s ++ "," ++ joinComma l'
  end.

(** [`${err}`] where [err] may be [undefined] or [null]. *)
Definition optErrorToString (e : option error) : string :=
  match e with
  | Some e => errorToString e
  | None => "undefined"
  end.

(* ===================================================================== *)
(** * The methods of [Watcher] *)
(* ===================================================================== *)

(** The calls that can reach each other through the watcher tree; [exec]
    below ties the knot with fuel. *)
Inductive call : Type -> Type :=
| CEmit (w : nat) (e : event) : call unit
| CClose (w : nat) (reason : option string) : call unit
| CCloseChild (w : nat) (fileRelativePath : string) (reason : option string) : call unit
| CWatch (w : nat) (reset : bool) : call (option error)
| CWatchChild (w : nat) (fullPath relativePath : string) : call (option error * nat)
| CStaticWatch (opts : Opts) : call (nat * option error)
| CListener (w : nat) (optsMethod : option string) (next : option completion) : call unit
| CFireTimeout (w : nat) : call unit
| CComplete (d : completion) (err : option error) : call unit.

Fixpoint forEach {S A} (l : list A) (f : A -> M S unit) : M S unit :=
  match l with
  | [] => ret tt
  | a :: l' => f a ;;; forEach l' f
  end.

(** [emitter.removeListener(eventName, listener)]: the most recently added
    instance goes.  The closures of [Watcher.watch] and [watchChild] are
    new functions at every call, so only a listener of the caller can be
    found in the table. *)
Fixpoint removeFirst (ev : string) (tag : nat) (ls : list (string * bool * handler))
  : list (string * bool * handler) :=
  match ls with
  | [] => []
  | (ev', once, HUser tag') :: ls' =>
      if String.eqb ev' ev && Nat.eqb tag' tag then ls'
      else (ev', once, HUser tag') :: removeFirst ev tag ls'
  | l :: ls' => l :: removeFirst ev tag ls'
  end.

Definition removeListener (ev : string) (h : handler) (ls : list (string * bool * handler))
  : list (string * bool * handler) :=
  match h with
  | HUser tag => rev (removeFirst ev tag (rev ls))
  | _ => ls
  end.

(** [extendr.extend(config, opts)] on the keys of the configuration. *)
Definition extendConfig (c : Config) (o : Opts) : Config :=
  {| cfg_path := Some (o_path o);
     interval := default (interval c) (o_interval o);
     persistent := default (persistent c) (o_persistent o);
     catchupDelay := default (catchupDelay c) (o_catchupDelay o);
     preferredMethods := default (preferredMethods c) (o_preferredMethods o);
     followLinks := default (followLinks c) (o_followLinks o);
     cfg_ignore := default (cfg_ignore c) (o_ignore o) |}.

(** [stat.isDirectory()] on the properties of a stat object. *)
Definition objectIsDirectory (o : object) : option bool :=
  match getProp o "mode" with
  | Some (VNum m) =>
      Some (match kindOfMode m with KDirectory => true | _ => false end)
  | _ => None
  end.

(** [array.indexOf(x) !== -1] *)
Definition includes (l : list string) (x : string) : bool :=
  existsb (String.eqb x) l.

Definition stringNe (a b : string) : bool := negb (String.eqb a b).

Definition isActive (s : State) : bool :=
  match s with active => true | _ => false end.

(** [getIgnoredOptions (opts = {})]: without options of the call, the
    options of the configuration. *)
Definition getIgnoredOptions (x : Watcher) : IgnoreOpts := cfg_ignore (config x).

(** The [EventEmitter] on an event nobody listens to: an [error] event is
    thrown, its argument being the exception; any other event is dropped. *)
Definition unhandled (e : event) (x : Watcher) : option error :=
  match e with
  | EError err =>
      if existsb (fun l : string * bool * handler => String.eqb (fst (fst l)) "error")
                 (listeners x)
      then None else Some err
  | _ => None
  end.

Section Methods.
Variable env : Env.
Variable rec : forall A, call A -> W A.

(** [log (...args)] *)
Definition log (w : nat) (level message : string) : W unit :=
  rec _ (CEmit w (ELog level message)).

(** The body of a listener of the class. *)
Definition runHandler (h : handler) (e : event) : W unit :=
  match h with
  | HRegistry p =>
      (* me.watchers[opts.path] = null *)
      modify (fun s => set_watchers (<[p := None]> (watchers s)) s)
  | HChildClose parent relativePath =>
      (* delete watchr.children[opts.relativePath] *)
      updW parent (fun x => set_children (deleteChild (children x) relativePath) x)
  | HChildLog parent =>
      rec _ (CEmit parent e)
  | HChildChange parent relativePath fullPath =>
      match e with
      | EChange changeType p _ _ =>
          when (String.eqb changeType "delete" && String.eqb p fullPath)
               (rec _ (CCloseChild parent relativePath (Some "deleted"))) ;;;
          rec _ (CEmit parent e)
      | _ => ret tt
      end
  | HUser _ => ret tt
  end.

(** [emitter.emit(eventName, ...args)]: an [error] event for which no
    listener is registered is thrown by the [EventEmitter].  Otherwise the
    event joins the trace, the [once] listeners of the event leave the
    table, and the listeners registered for it run in the order they were
    added. *)
Definition emit (w : nat) (e : event) : W unit :=
  x <- getW w ;;
  match unhandled e x with
  | Some err => throw err
  | None =>
      modify (fun s => set_trace (trace s ++ [(w, e)])%list s) ;;;
      let mine := fun l : string * bool * handler => String.eqb (fst (fst l)) (eventName e) in
      updW w (fun x => set_listeners
                (List.filter (fun l => negb (mine l && snd (fst l))) (listeners x)) x) ;;;
      forEach (List.filter mine (listeners x)) (fun l => runHandler (snd l) e)
  end.

(** [addListener] of [setConfig] *)
Definition addListener (w : nat) (eventName : string) (listener : handler) (mode : string)
  : W unit :=
  updW w (fun x => set_listeners (removeListener eventName listener (listeners x)) x) ;;;
  (if String.eqb mode "on" then
     updW w (fun x => set_listeners (listeners x ++ [(eventName, false, listener)])%list x)
   else if String.eqb mode "once" then
     updW w (fun x => set_listeners (listeners x ++ [(eventName, true, listener)])%list x)
   else throw (Error "unknown listen mode")) ;;;
  x <- getW w ;;
  log w "debug" ("added listener: " ++ mode ++ " " ++ eventName ++ " for " ++ pathString x).

Definition addMap (w : nat) (map : list (string * list handler)) (mode : string) : W unit :=
  forEach map (fun entry =>
    forEach (snd entry) (fun listener => addListener w (fst entry) listener mode)).

(** [setConfig (opts)] *)
Definition setConfig (w : nat) (opts : Opts) : W unit :=
  updW w (fun x => set_config (extendConfig (config x) opts) x) ;;;
  updW w (fun x => set_path (cfg_path (config x)) x) ;;;
  when (hasRef (o_stat opts)) (updW w (set_stat (o_stat opts))) ;;;
  addMap w (o_once opts) "once" ;;;
  addMap w (o_on opts) "on".

(** [isIgnoredPath (path, opts)], called without [opts] throughout *)
Definition isIgnoredPath (w : nat) (p : string) : W bool :=
  x <- getW w ;;
  let ignore := ignorefs_isIgnoredPath env p (getIgnoredOptions x) in
  log w "debug" ("ignore: " ++ p ++ " " ++ (if ignore then "yes" else "no")) ;;;
  ret ignore.

(** [getStat (opts, next)]: what [next] receives.  The callback of
    [fs.stat] runs where the call is made, so a call is run to its end
    before the next one starts; two calls of [watch] that overlap while the
    stat is awaited are not among the runs of the embedding. *)
Definition getStat (w : nat) (reset : bool) : W (error + ref) :=
  x <- getW w ;;
  if hasRef (stat x) && negb reset then ret (inr (stat x))
  else
    match (if followLinks (config x) then fs_stat env else fs_lstat env) (pathString x) with
    | inl err => ret (inl err)
    | inr o =>
        l <- onStats (allocObj o) ;;
        updW w (set_stat (RObj l)) ;;;
        ret (inr (RObj l))
    end.

(** [isDirectory ()] *)
Definition isDirectory (w : nat) : W bool :=
  x <- getW w ;;
  match stat x with
  | RObj l =>
      o <- onStats (readObj l) ;;
      match objectIsDirectory o with
      | Some b => ret b
      | None => throw (TypeError "this.stat.isDirectory is not a function")
      end
  | _ => throw (TypeError "Cannot read property 'isDirectory' of null")
  end.

(** [stat.birthtime.toString()] *)
Definition birthtimeString (r : ref) : W string :=
  match r with
  | RObj l =>
      o <- onStats (readObj l) ;;
      match getProp o "birthtime" with
      | Some (VDate (Some t)) => ret (dateToString env t)
      | Some (VDate None) => ret "Invalid Date"
      | Some (VStr s) => ret s
      | Some (VNum n) => ret (numberToString n)
      | Some (VBool b) => ret (if b then "true" else "false")
      | Some VNull => throw (TypeError "Cannot read property 'toString' of null")
      | None => throw (TypeError "Cannot read property 'toString' of undefined")
      end
  | _ => throw (TypeError "Cannot read property 'birthtime' of null")
  end.

(** [closeChild (fileRelativePath, reason)].  The test [if ( watchr )] is on
    the parent, which is always there, so a reservation reaches
    [watcher.close] as [false]. *)
Definition closeChild (w : nat) (fileRelativePath : string) (reason : option string)
  : W unit :=
  x <- getW w ;;
  match lookupChild (children x) fileRelativePath with
  | Some (Child watcher) => rec _ (CClose watcher reason)
  | Some Reserved => throw (TypeError "watcher.close is not a function")
  | None => ret tt
  end.

(** [close (reason)].  [eachr] calls back with (value, key), as the other
    loops over [watchr.children] in this file use it; the one parameter of
    the callback here is therefore the child, and [closeChild] receives it
    where it expects the relative path. *)
Definition close (w : nat) (reason : option string) : W unit :=
  x <- getW w ;;
  if negb (isActive (state x)) then ret tt
  else
    log w "debug" ("close: " ++ pathString x) ;;;
    forEach (children x) (fun entry =>
      x' <- getW w ;;
      match lookupChild (children x') (fst entry) with
      | Some childRelativePath =>
          rec _ (CCloseChild w (childAsKey childRelativePath) reason)
      | None => ret tt
      end) ;;;
    x <- getW w ;;
    when (match method x with Some m => String.eqb m "watchFile" | None => false end)
         (modify (fun s => set_polls
                    (List.filter (fun p => stringNe p (pathString x)) (polls s)) s)) ;;;
    match fswatcher x with
    | Some h =>
        modify (fun s => set_handles
                  (alter (fun hd => (fst hd, false)) h (handles s)) s) ;;;
        updW w (set_fswatcher None)
    | None => ret tt
    end ;;;
    match reason with
    | Some "deleted" =>
        updW w (set_state deleted) ;;;
        x <- getW w ;;
        rec _ (CEmit w (EChange "delete" (pathString x) RNull (stat x)))
    | Some "failure" =>
        updW w (set_state closed) ;;;
        x <- getW w ;;
        log w "warn" ("Failed to watch the path " ++ pathString x)
    | _ =>
        updW w (set_state closed)
    end ;;;
    rec _ (CEmit w (EClose reason)).

(** [watchMethod (method, next)]: the error [next] receives *)
Definition watchMethod (w : nat) (method : string) : W (option error) :=
  x <- getW w ;;
  if String.eqb method "watch" then
    if negb (fs_has_watch env) then
      ret (Some (Error
        "watch method is not supported on this environment, fs.watch does not exist"))
    else
      match fs_watch_throws env (pathString x) with
      | Some err => ret (Some err)
      | None =>
          s <- get ;;
          modify (fun s => set_handles (handles s ++ [(pathString x, true)])%list s) ;;;
          updW w (set_fswatcher (Some (length (handles s)))) ;;;
          ret None
      end
  else if String.eqb method "watchFile" then
    if negb (fs_has_watchFile env) then
      ret (Some (Error
        "watchFile method is not supported on this environment, fs.watchFile does not exist"))
    else
      match fs_watchFile_throws env (pathString x) with
      | Some err => ret (Some err)
      | None =>
          modify (fun s => set_polls (polls s ++ [pathString x])%list s) ;;;
          ret None
      end
  else ret (Some (Error "unknown watch method")).

(** [watchSelf (opts, next)], with [opts.preferredMethods] and [opts.errors]
    as arguments: the error [next] receives *)
Fixpoint watchSelf (w : nat) (preferredMethods : list string) (errors : list error)
  : W (option error) :=
  match preferredMethods with
  | method :: rest =>
      err <- watchMethod w method ;;
      match err with
      | Some err =>
          (* try again with the next preferred method *)
          watchSelf w rest (errors ++ [err])%list
      | None =>
          updW w (set_method (Some method)) ;;;
          updW w (set_state active) ;;;
          ret None
      end
  | [] =>
      ret (Some (Error ("no watch methods left to try, failures are: "
                        ++ joinComma (map errorToString errors))))
  end.

(** The entries of a [scandir]: its [action] on each, one at a time, up to
    the first error. *)
Fixpoint scanEntries (w : nat) (entries : list (string * string)) : W (option error) :=
  match entries with
  | [] => ret None
  | (fullPath, relativePath) :: rest =>
      x <- getW w ;;
      if negb (isActive (state x)) then scanEntries w rest
      else
        r <- rec _ (CWatchChild w fullPath relativePath) ;;
        match fst r with
        | Some err => ret (Some err)
        | None => scanEntries w rest
        end
  end.

(** [watchChildren (opts, next)]: the error [next] receives *)
Definition watchChildren (w : nat) : W (option error) :=
  d <- isDirectory w ;;
  if d then
    x <- getW w ;;
    match scandir env (pathString x) (cfg_ignore (config x)) with
    | inl err => ret (Some err)
    | inr entries => scanEntries w entries
    end
  else ret None.

(** [watch (opts, next)].  The source registers [next] with
    [once('watching', next)], and every path of the method ends by emitting
    [watching], so [next] runs then, after the listeners registered before
    it, with the error that event carries.  Here the method returns that
    error and its caller goes on with it; the [watching] listeners of the
    table are those of the caller of the library. *)
Definition watch (w : nat) (reset : bool) : W (option error) :=
  x <- getW w ;;
  if isActive (state x) && negb reset then
    rec _ (CEmit w (EWatching None)) ;;; ret None
  else
    rec _ (CClose w None) ;;;
    log w "debug" ("watch init: " ++ pathString x) ;;;
    r <- getStat w false ;;
    match r with
    | inl err => rec _ (CEmit w (EWatching (Some err))) ;;; ret (Some err)
    | inr _ =>
        x <- getW w ;;
        err <- watchSelf w (preferredMethods (config x)) [] ;;
        match err with
        | Some err => rec _ (CEmit w (EWatching (Some err))) ;;; ret (Some err)
        | None =>
            err <- watchChildren w ;;
            when (bool_decide (is_Some err)) (rec _ (CClose w (Some "child failure"))) ;;;
            x <- getW w ;;
            log w "debug" ("watch done: " ++ pathString x ++ " " ++ optErrorToString err) ;;;
            rec _ (CEmit w (EWatching err)) ;;;
            ret err
        end
    end.

(** [Watcher.watch (opts, next)]: the watcher it returns, and the error
    [next] receives *)
Definition Watcher_watch (opts : Opts) : W (nat * option error) :=
  s <- get ;;
  match watchers s !! o_path opts with
  | Some (Some watcher) =>
      setConfig watcher opts ;;;
      err <- rec _ (CWatch watcher false) ;;
      ret (watcher, err)
  | _ =>
      let watcher := length (nodes s) in
      modify (fun s => set_watchers (<[o_path opts := Some watcher]> (watchers s))
                         (set_nodes (nodes s ++ [newWatcher])%list s)) ;;;
      setConfig watcher opts ;;;
      updW watcher (fun x => set_listeners
                      (listeners x ++ [("close", true, HRegistry (o_path opts))])%list x) ;;;
      err <- rec _ (CWatch watcher false) ;;
      ret (watcher, err)
  end.

(** [watchChild (opts, next)]: what [next] receives *)
Definition watchChild (w : nat) (fullPath relativePath : string) : W (option error * nat) :=
  x <- getW w ;;
  match truthyChild (lookupChild (children x) relativePath) with
  | Some c => ret (None, c)
  | None =>
      let config := config x in
      r <- rec _ (CStaticWatch
             {| o_path := fullPath;
                o_stat := RUndefined;
                o_once := [("close", [HChildClose w relativePath])];
                o_on := [("log", [HChildLog w]);
                         ("change", [HChildChange w relativePath fullPath])];
                o_interval := Some (interval config);
                o_persistent := Some (persistent config);
                o_catchupDelay := Some (catchupDelay config);
                o_preferredMethods := Some (preferredMethods config);
                o_followLinks := Some (followLinks config);
                o_ignore := Some (cfg_ignore config) |}) ;;
      updW w (fun x => set_children (assignChild (children x) relativePath (Child (fst r))) x) ;;;
      ret (snd r, fst r)
  end.
End Methods.

(* ===================================================================== *)
(** * The listener pipeline *)
(* ===================================================================== *)

Section Listener.
Variable env : Env.
Variable rec : forall A, call A -> W A.

(** Call every callback given to [tasks.done] with the outcome. *)
Definition finish (done : list completion) (err : option error) : W unit :=
  forEach done (fun d => rec _ (CComplete d err)).

(** Start the group [check what has changed] with [n] tasks. *)
Definition newGroup (n : nat) (done : list completion) : W nat :=
  s <- get ;;
  modify (fun s => set_groups
            (groups s ++ [{| g_pending := n; g_finished := false; g_done := done |}])%list s) ;;;
  ret (length (groups s)).

(** The [complete] of a task of a group: the first error ends the group
    with that error, the last task to complete ends it without one. *)
Definition taskDone (g : nat) (err : option error) : W unit :=
  s <- get ;;
  match groups s !! g with
  | None => throw (TypeError "dangling task group")
  | Some G =>
      if g_finished G then ret tt
      else
        match err with
        | Some _ =>
            modify (fun s => set_groups
                      (<[g := {| g_pending := g_pending G; g_finished := true;
                                 g_done := g_done G |}]> (groups s)) s) ;;;
            finish (g_done G) err
        | None =>
            let n := Nat.pred (g_pending G) in
            modify (fun s => set_groups
                      (<[g := {| g_pending := n; g_finished := Nat.eqb n 0;
                                 g_done := g_done G |}]> (groups s)) s) ;;;
            if Nat.eqb n 0 then finish (g_done G) None else ret tt
        end
  end.

(** A callback of [tasks.done]. *)
Definition complete (d : completion) (err : option error) : W unit :=
  match d with
  | DoneEmitError w =>
      match err with
      | Some e => rec _ (CEmit w (EError e))
      | None => ret tt
      end
  | DoneForward g => taskDone g err
  end.

(** [listener (opts, next)]: a raw notification.  The timer is restarted
    and the caller joins the pending batch or opens one. *)
Definition listener (w : nat) (optsMethod : option string) (next : option completion)
  : W unit :=
  x <- getW w ;;
  let method := match optsMethod with Some m => Some m | None => method x end in
  let next := default (DoneEmitError w) next in
  let previousStat := stat x in
  log rec w "debug" ("watch fired on: " ++ pathString x) ;;;
  x <- getW w ;;
  updW w (set_listenerTimeout (Some (catchupDelay (config x)))) ;;;
  match listenerTasks x with
  | Some b =>
      updW w (set_listenerTasks
                (Some {| b_previousStat := b_previousStat b; b_method := b_method b;
                         b_done := (b_done b ++ [next])%list |}))
  | None =>
      updW w (set_listenerTasks
                (Some {| b_previousStat := previousStat; b_method := method;
                         b_done := [next] |}))
  end.

(** The children the first loop of the directory branch forwards to. *)
Definition forwardTargets (cs : list (string * child)) (newFileRelativePaths : list string)
  : list (string * nat) :=
  flat_map (fun entry =>
              if includes newFileRelativePaths (fst entry) then
                match snd entry with
                | Child c => [(fst entry, c)]
                | Reserved => []
                end
              else []) cs.

(** [Find deleted files] *)
Definition deletionScan (w : nat) (newFileRelativePaths : list string) : W unit :=
  x <- getW w ;;
  forEach (children x) (fun entry =>
    let childFileRelativePath := fst entry in
    x' <- getW w ;;
    match lookupChild (children x') childFileRelativePath with
    | None => ret tt
    | Some _ =>
        if includes newFileRelativePaths childFileRelativePath then ret tt
        else
          let childFileFullPath := path_join env (pathString x') childFileRelativePath in
          ignored <- isIgnoredPath env rec w childFileFullPath ;;
          if ignored then
            log rec w "debug" ("watch ignored delete: " ++ childFileFullPath
                               ++ " via: " ++ pathString x')
          else
            log rec w "debug" ("watch determined delete: " ++ childFileFullPath
                               ++ " via: " ++ pathString x') ;;;
            rec _ (CCloseChild w childFileRelativePath (Some "deleted"))
    end).

(** [Find new files]: the slots it reserves, and the tasks it adds *)
Fixpoint creationScan (w : nat) (newFileRelativePaths : list string)
  : W (list (string * string)) :=
  match newFileRelativePaths with
  | [] => ret []
  | childFileRelativePath :: rest =>
      x <- getW w ;;
      match lookupChild (children x) childFileRelativePath with
      | Some _ => creationScan w rest
      | None =>
          updW w (fun x => set_children
                    (assignChild (children x) childFileRelativePath Reserved) x) ;;;
          let childFileFullPath := path_join env (pathString x) childFileRelativePath in
          ignored <- isIgnoredPath env rec w childFileFullPath ;;
          if ignored then
            log rec w "debug" ("watch ignored create: " ++ childFileFullPath
                               ++ " via: " ++ pathString x) ;;;
            creationScan w rest
          else
            tasks <- creationScan w rest ;;
            ret ((childFileFullPath, childFileRelativePath) :: tasks)
      end
  end.

(** The group [check what has changed] *)
Definition checkWhatHasChanged (w : nat) (b : Batch) (currentStat : ref) : W unit :=
  d <- isDirectory w ;;
  x <- getW w ;;
  if negb d then
    log rec w "debug" ("watch determined update: " ++ pathString x) ;;;
    rec _ (CEmit w (EChange "update" (pathString x) currentStat (b_previousStat b))) ;;;
    finish (b_done b) None
  else
    match fs_readdir env (pathString x) with
    | inl err => finish (b_done b) (Some err)
    | inr newFileRelativePaths =>
        let forwards :=
          if match b_method b with Some m => String.eqb m "watch" | None => false end
          then forwardTargets (children x) newFileRelativePaths else [] in
        deletionScan w newFileRelativePaths ;;;
        creates <- creationScan w newFileRelativePaths ;;
        match forwards, creates with
        | [], [] => finish (b_done b) None
        | _, _ =>
            g <- newGroup (length forwards + length creates) (b_done b) ;;
            forEach forwards (fun t =>
              log rec w "debug" ("Forwarding extensive change detection to child: "
                                 ++ fst t ++ " via: " ++ pathString x) ;;;
              rec _ (CListener (snd t) None (Some (DoneForward g)))) ;;;
            forEach creates (fun t =>
              log rec w "debug" ("watch determined create: " ++ fst t
                                 ++ " via: " ++ pathString x) ;;;
              r <- rec _ (CWatchChild w (fst t) (snd t)) ;;
              match fst r with
              | Some err => taskDone g (Some err)
              | None =>
                  c <- getW (snd r) ;;
                  rec _ (CEmit w (EChange "create" (fst t) (stat c) RNull)) ;;;
                  taskDone g None
              end)
        end
    end.

(** The tasks of a batch, run when its timer fires. *)
Definition runBatch (w : nat) (b : Batch) : W unit :=
  (* check if the file still exists *)
  x <- getW w ;;
  log rec w "debug" ("watch evaluating on: " ++ pathString x) ;;;
  if negb (fs_exists env (pathString x)) then
    log rec w "debug" ("watch determined delete: " ++ pathString x) ;;;
    rec _ (CClose w (Some "deleted")) ;;;
    updW w (set_stat RNull) ;;;
    finish (b_done b) None
  else
    r <- getStat env w true ;;
    match r with
    | inl err => finish (b_done b) (Some err)
    | inr currentStat =>
        x <- getW w ;;
        bnew <- birthtimeString env (stat x) ;;
        bold <- birthtimeString env (b_previousStat b) ;;
        err <- (if stringNe bnew bold then
                  log rec w "debug" ("watch determined replaced: " ++ pathString x) ;;;
                  rec _ (CWatch w true)
                else ret None) ;;
        match err with
        | Some err => finish (b_done b) (Some err)
        | None =>
            (* check if the file has changed *)
            changed <- onStats (statChanged env (b_previousStat b) currentStat) ;;
            if negb changed then
              log rec w "debug" ("watch determined same: " ++ pathString x) ;;;
              finish (b_done b) None
            else checkWhatHasChanged w b currentStat
        end
    end.

(** The callback of [setTimeout] in [listener]. *)
Definition fireTimeout (w : nat) : W unit :=
  x <- getW w ;;
  match listenerTimeout x with
  | None => ret tt
  | Some _ =>
      let listenerTasks := listenerTasks x in
      updW w (set_listenerTasks None) ;;;
      updW w (set_listenerTimeout None) ;;;
      match listenerTasks with
      | Some b => runBatch w b
      | None => throw (TypeError "Cannot read property 'run' of null")
      end
  end.

Definition dispatch (A : Type) (c : call A) : W A :=
  match c in call T return W T with
  | CEmit w e => emit rec w e
  | CClose w reason => close rec w reason
  | CCloseChild w fileRelativePath reason => closeChild rec w fileRelativePath reason
  | CWatch w reset => watch env rec w reset
  | CWatchChild w fullPath relativePath => watchChild rec w fullPath relativePath
  | CStaticWatch opts => Watcher_watch rec opts
  | CListener w optsMethod next => listener w optsMethod next
  | CFireTimeout w => fireTimeout w
  | CComplete d err => complete d err
  end.
End Listener.

(** Running a call with bounded depth of nested calls. *)
Fixpoint exec (env : Env) (fuel : nat) (A : Type) (c : call A) : W A :=
  match fuel with
  | O => fun s => OutOfFuel s
  | S n => dispatch env (exec env n) A c
  end.
Arguments exec env fuel {A} c.

(* ===================================================================== *)
(** * Definitions used by the statements and their proofs *)
(* ===================================================================== *)

(** ** Scanning JSON text *)

Fixpoint allChars (P : ascii -> bool) (s : string) : bool :=
  match s with
  | EmptyString => true
  | String c s' => P c && allChars P s'
  end.

(** The characters a printed integer is made of. *)
Definition isNumChar (c : ascii) : bool :=
  Ascii.eqb c "-" || (N.leb 48 (N_of_ascii c) && N.leb (N_of_ascii c) 57).

(** What follows a value inside an object. *)
Definition isTerminator (c : ascii) : bool :=
  Ascii.eqb c "," || Ascii.eqb c "}".

Fixpoint isPrefix (a b : string) : bool :=
  match a, b with
  | EmptyString, _ => true
  | String x a', String y b' => Ascii.eqb x y && isPrefix a' b'
  | String _ _, EmptyString => false
  end.

Definition allAscii : list ascii := map (fun n => ascii_of_nat n) (seq 0 256).

Definition escapeCompatible (c1 c2 : ascii) : bool :=
  implb (isPrefix (escapeChar c1) (escapeChar c2)) (Ascii.eqb c1 c2).

Definition headIsNot (a : ascii) (s : string) : bool :=
  match s with
  | EmptyString => false
  | String x _ => negb (Ascii.eqb x a)
  end.

(** Values that are their own JSON image. *)
Definition isJson (v : value) : bool :=
  match v with VDate _ => false | _ => true end.

(** ** What [statChanged] compares *)

(** [if ( o.k != null )  delete o.k] as a function of the object. *)
Definition dropIfSet (k : string) (o : object) : object :=
  if notNullish (getProp o k) then deleteProp o k else o.

(** The copy of a stat object whose JSON text is compared. *)
Definition comparedObject (env : Env) (o : object) : object :=
  dropIfSet "ctime" (dropIfSet "atime" (jsonObject env o)).

(** The variable [r] holds the snapshot [s] in the store [h]; [None] is
    [null] or [undefined]. *)
Definition holds (h : heap) (r : ref) (s : option Stats) : Prop :=
  match r, s with
  | RObj l, Some s => h !! l = Some (statsObject s)
  | RNull, None | RUndefined, None => True
  | _, _ => False
  end.

(** The comparator of the specification: creation or deletion, or a
    difference in a field other than [atime] and [ctime]. *)
Definition changedSpec (a b : option Stats) : Prop :=
  match a, b with
  | None, None => False
  | Some a, Some b => ~ sameButAccess a b
  | _, _ => True
  end.

(** [m], run on any store that extends [h], leaves an extension of [h],
    and a value it returns satisfies [Q]. *)
Definition extends {A} (h : heap) (Q : A -> Prop) (m : M heap A) : Prop :=
  forall f, match m (h ++ f)%list with
            | Ok a s => Q a /\ exists f', s = (h ++ f')%list
            | Throw _ s | OutOfFuel s => exists f', s = (h ++ f')%list
            end.

(** ** Observing a run *)

(** What a call returned, if it returned. *)
Definition returned {S A} (r : Res S A) : option A :=
  match r with Ok a _ => Some a | _ => None end.

(** What a call threw, if it threw. *)
Definition thrown {S A} (r : Res S A) : option error :=
  match r with Throw e _ => Some e | _ => None end.

(** The state of a watcher of a world. *)
Definition stateOf (s : World) (w : nat) : option State := state <$> nodes s !! w.

(** The events emitted after the first [n] of the trace. *)
Definition eventsSince (n : nat) (s : World) : list (nat * event) := drop n (trace s).

Definition isLog (e : event) : bool :=
  match e with ELog _ _ => true | _ => false end.

Definition isChange (e : event) : bool :=
  match e with EChange _ _ _ _ => true | _ => false end.

Definition isWatching (e : event) : bool :=
  match e with EWatching _ => true | _ => false end.

(** A change event of type [update]. *)
Definition isUpdate (e : event) : bool :=
  match e with EChange t _ _ _ => String.eqb t "update" | _ => false end.

(** The fields of a watcher other than its children and its listener
    table. *)
Definition core (x : Watcher) :=
  (path x, stat x, fswatcher x, state x, method x, listenerTasks x,
   listenerTimeout x, config x).

(** What emitting an event that is not a [change] can do to a world: the
    event, bubbled to some watchers, joins the trace; no watcher changes
    outside its children and listener table, and the stat store, the task
    groups and the bindings stay. *)
Record quietStep (e : event) (s s' : World) : Prop := {
  qs_core : map core (nodes s') = map core (nodes s);
  qs_stats : stats s' = stats s;
  qs_groups : groups s' = groups s;
  qs_handles : handles s' = handles s;
  qs_polls : polls s' = polls s;
  qs_trace : exists ws, trace s' = (trace s ++ map (fun w => (w, e)) ws)%list
}.

(** Every final state of [m] is related to the initial one. *)
Definition preserves {A} (R : World -> World -> Prop) (m : W A) : Prop :=
  forall s, R s (final_state (m s)).

(** The error [watchMethod] passes on for a method and a path, [None] when
    the bind succeeds. *)
Definition bindError (env : Env) (p method : string) : option error :=
  if String.eqb method "watch" then
    if negb (fs_has_watch env) then
      Some (Error "watch method is not supported on this environment, fs.watch does not exist")
    else fs_watch_throws env p
  else if String.eqb method "watchFile" then
    if negb (fs_has_watchFile env) then
      Some (Error
        "watchFile method is not supported on this environment, fs.watchFile does not exist")
    else fs_watchFile_throws env p
  else Some (Error "unknown watch method").

(** No watcher was constructed, no backend bound or released and no state
    changed between two worlds. *)
Definition sameWatchers (s s' : World) : Prop :=
  length (nodes s') = length (nodes s) /\ handles s' = handles s /\
  polls s' = polls s /\ map state (nodes s') = map state (nodes s).

(** ** Example file systems and worlds *)

Definition fileStats (atime ctime mtime size : Z) : Stats :=
  {| st_dev := 1; st_mode := 33188; st_nlink := 1; st_uid := 0; st_gid := 0;
     st_rdev := 0; st_blksize := 4096; st_ino := 7; st_size := size; st_blocks := 8;
     st_atime := atime; st_mtime := mtime; st_ctime := ctime; st_birthtime := 5 |}.

Definition dirStats (mtime : Z) : Stats :=
  {| st_dev := 1; st_mode := 16877; st_nlink := 2; st_uid := 0; st_gid := 0;
     st_rdev := 0; st_blksize := 4096; st_ino := 3; st_size := 64; st_blocks := 0;
     st_atime := mtime; st_mtime := mtime; st_ctime := mtime; st_birthtime := 1 |}.

(** An environment from its file system.  [toISOString] prints a date to
    the millisecond and [toString] to the second: here as the time value,
    and as its whole seconds. *)
Definition mkEnv (exists_ : string -> bool) (stat_ : string -> error + object)
    (list_ : string -> error + list string)
    (watchThrows watchFileThrows : string -> option error)
    (ignored : string -> bool) : Env :=
  {| toISOString := numberToString;
     dateToString := fun t => numberToString (t / 1000);
     fs_exists := exists_; fs_stat := stat_; fs_lstat := stat_;
     fs_readdir := list_;
     scandir := fun p _ =>
       match list_ p with
       | inl err => inl err
       | inr names => inr (map (fun n => (p ++ "/" ++ n, n)) names)
       end;
     fs_has_watch := true; fs_watch_throws := watchThrows;
     fs_has_watchFile := true; fs_watchFile_throws := watchFileThrows;
     ignorefs_isIgnoredPath := fun p _ => ignored p;
     path_join := fun a b => a ++ "/" ++ b |}.

(** The options of a caller who gives the path only. *)
Definition userOpts (p : string) : Opts :=
  {| o_path := p; o_stat := RUndefined; o_once := []; o_on := [];
     o_interval := None; o_persistent := None; o_catchupDelay := None;
     o_preferredMethods := None; o_followLinks := None; o_ignore := None |}.

Definition ENOENT : error := Error "ENOENT".

(** A file [/f] with the given stat. *)
Definition envFile (s : Stats) : Env :=
  mkEnv (fun _ => true) (fun _ => inr (statsObject s)) (fun _ => inl (Error "ENOTDIR"))
        (fun _ => None) (fun _ => None) (fun _ => false).

(** A directory [/d] holding the file [a]. *)
Definition envDir : Env :=
  mkEnv (fun _ => true)
        (fun p => if String.eqb p "/d" then inr (statsObject (dirStats 1))
                  else if String.eqb p "/d/a" then inr (statsObject (fileStats 1 1 1 10))
                  else inl ENOENT)
        (fun p => if String.eqb p "/d" then inr ["a"] else inl (Error "ENOTDIR"))
        (fun _ => None) (fun _ => None) (fun _ => false).

(** The directory [/d] holding [a], a link to nowhere. *)
Definition envBroken : Env :=
  mkEnv (fun _ => true)
        (fun p => if String.eqb p "/d" then inr (statsObject (dirStats 1)) else inl ENOENT)
        (fun p => if String.eqb p "/d" then inr ["a"] else inl (Error "ENOTDIR"))
        (fun _ => None) (fun _ => None) (fun _ => false).

(** Nothing is left at any path. *)
Definition envGone : Env :=
  mkEnv (fun _ => false) (fun _ => inl ENOENT) (fun _ => inl ENOENT)
        (fun _ => None) (fun _ => None) (fun _ => false).

(** A file [/f] on a file system that refuses both ways of watching. *)
Definition envNoBind : Env :=
  mkEnv (fun _ => true) (fun _ => inr (statsObject (fileStats 1 1 1 10)))
        (fun _ => inl (Error "ENOTDIR"))
        (fun _ => Some (Error "EMFILE")) (fun _ => Some (Error "ENOSYS")) (fun _ => false).

(** The directory [/d], first empty, then holding [x], which the ignore
    oracle excludes. *)
Definition envEmptyDir : Env :=
  mkEnv (fun _ => true)
        (fun p => if String.eqb p "/d" then inr (statsObject (dirStats 1)) else inl ENOENT)
        (fun p => if String.eqb p "/d" then inr [] else inl (Error "ENOTDIR"))
        (fun _ => None) (fun _ => None) (fun _ => false).

Definition envIgnoredChild : Env :=
  mkEnv (fun _ => true)
        (fun p => if String.eqb p "/d" then inr (statsObject (dirStats 2))
                  else inr (statsObject (fileStats 2 2 2 0)))
        (fun p => if String.eqb p "/d" then inr ["x"] else inl (Error "ENOTDIR"))
        (fun _ => None) (fun _ => None) (fun p => String.eqb p "/d/x").

Definition fuel0 : nat := 20.

(** The world after a call, whatever its outcome. *)
Definition after {A} (env : Env) (c : call A) (s : World) : World :=
  final_state (exec env fuel0 c s).

(** [/f] watched. *)
Definition worldFile : World :=
  after (envFile (fileStats 1 1 1 10)) (CStaticWatch (userOpts "/f")) emptyWorld.

(** [/f] watched, a raw notification received, its timer pending. *)
Definition worldFileNotified : World :=
  after (envFile (fileStats 1 1 1 10)) (CListener 0%nat (Some "watch") None) worldFile.

(** ... and then closed by the caller. *)
Definition worldFileClosed : World :=
  after (envFile (fileStats 1 1 1 10)) (CClose 0%nat None) worldFileNotified.

(** [/d] and its child [a] watched. *)
Definition worldDir : World :=
  after envDir (CStaticWatch (userOpts "/d")) emptyWorld.

Definition worldDirNotified : World :=
  after envDir (CListener 0%nat (Some "watch") None) worldDir.

(** [/d] watched while empty; then [x] appears, is reserved by the
    creation scan and skipped as ignored. *)
Definition worldReserved : World :=
  after envIgnoredChild (CFireTimeout 0%nat)
    (after envIgnoredChild (CListener 0%nat (Some "watch") None)
       (after envEmptyDir (CStaticWatch (userOpts "/d")) emptyWorld)).

(** Two worlds have the same trace. *)
Definition sameTrace (s s' : World) : Prop := trace s' = trace s.

(** The trace of [s'] is the trace of [s] followed by log events. *)
Definition logsOnly (s s' : World) : Prop :=
  exists evs, trace s' = (trace s ++ evs)%list /\
              Forall (fun ev => isLog (snd ev) = true /\ isUpdate (snd ev) = false) evs.

(** The listeners of [x] for the event [ev] are all listeners of the caller. *)
Definition callerOnly (ev : string) (x : Watcher) : Prop :=
  Forall (fun l : string * bool * handler =>
            String.eqb (fst (fst l)) ev = true -> exists tag, snd l = HUser tag)
         (listeners x).

(** The directory [/d] after [x] has gone, with an ignore oracle that no
    longer excludes it. *)
Definition envUnignored : Env :=
  mkEnv (fun _ => true)
        (fun p => if String.eqb p "/d" then inr (statsObject (dirStats 3)) else inl ENOENT)
        (fun p => if String.eqb p "/d" then inr [] else inl (Error "ENOTDIR"))
        (fun _ => None) (fun _ => None) (fun _ => false).


(** ** Definitions for the further properties *)

(** A state that never turns active or pending unless it was. *)
Definition windsDownState (a b : State) : Prop :=
  (b = active -> a = active) /\ (b = pending -> a = pending).

Definition windsDownNode (x x' : Watcher) : Prop :=
  path x' = path x /\ stat x' = stat x /\ method x' = method x /\ config x' = config x /\
  listenerTasks x' = listenerTasks x /\ listenerTimeout x' = listenerTimeout x /\
  windsDownState (state x) (state x') /\
  (fswatcher x' = fswatcher x \/ fswatcher x' = None).

Definition windsDownHandle (h h' : string * bool) : Prop :=
  fst h' = fst h /\ (snd h' = true -> snd h = true).

Definition windsDown (s s' : World) : Prop :=
  Forall2 windsDownNode (nodes s) (nodes s') /\
  stats s' = stats s /\ groups s' = groups s /\
  Forall2 windsDownHandle (handles s) (handles s') /\
  (length (polls s') <= length (polls s))%nat /\
  (exists evs, trace s' = (trace s ++ evs)%list).

(** The number of backends bound in a world: open or closed handles of
    [fs.watch] and listeners of [fs.watchFile]. *)
Definition bindings (s : World) : nat := (length (handles s) + length (polls s))%nat.

(** The batch a notification leaves pending on the watcher [x]. *)
Definition batchAfter (w : nat) (x : Watcher) (optsMethod : option string)
    (next : option completion) : Batch :=
  match listenerTasks x with
  | Some b =>
      {| b_previousStat := b_previousStat b; b_method := b_method b;
         b_done := (b_done b ++ [default (DoneEmitError w) next])%list |}
  | None =>
      {| b_previousStat := stat x;
         b_method := match optsMethod with Some m => Some m | None => method x end;
         b_done := [default (DoneEmitError w) next] |}
  end.

(** The listener table once the [once] listeners of an event have left. *)
Definition withoutOnce (ev : string) (ls : list (string * bool * handler))
  : list (string * bool * handler) :=
  List.filter (fun l => negb (String.eqb (fst (fst l)) ev && snd (fst l))) ls.

(** The caller listens to [ev] on [x] with [on]: a listener that stays in
    the table when the event is emitted. *)
Definition listensTo (ev : string) (x : Watcher) : Prop :=
  existsb (fun l : string * bool * handler =>
             String.eqb (fst (fst l)) ev && negb (snd (fst l))) (listeners x) = true.

(** The world after [w] emitted [e] to listeners of the caller only. *)
Definition emitted (w : nat) (e : event) (s : World) : World :=
  set_nodes (alter (fun x => set_listeners (withoutOnce (eventName e) (listeners x)) x)
                   w (nodes s))
            (set_trace (trace s ++ [(w, e)])%list s).

(** Every callback of the batch is the default one of some watcher. *)
Definition defaultCallbacks (done : list completion) : Prop :=
  Forall (fun d => exists w', d = DoneEmitError w') done.

(** [reason === r] *)
Definition reasonIs (reason : option string) (r : string) : bool :=
  match reason with Some r' => String.eqb r' r | None => false end.

(** The [close] listeners of [x] are the registry's listener for the path
    [p], which is among them, and listeners of the caller. *)
Definition registeredAs (p : string) (x : Watcher) : Prop :=
  Forall (fun l : string * bool * handler =>
            String.eqb (fst (fst l)) "close" = true ->
            snd l = HRegistry p \/ exists tag, snd l = HUser tag) (listeners x) /\
  Exists (fun l => String.eqb (fst (fst l)) "close" = true /\ snd l = HRegistry p)
         (listeners x).

(** The events of [close (reason)] on a watcher without children. *)
Definition closeEvents (w : nat) (x : Watcher) (reason : option string)
  : list (nat * event) :=
  ((w, ELog "debug" ("close: " ++ pathString x))
   :: (if reasonIs reason "deleted"
       then [(w, EChange "delete" (pathString x) RNull (stat x))]
       else if reasonIs reason "failure"
            then [(w, ELog "warn" ("Failed to watch the path " ++ pathString x))]
            else [])
   ++ [(w, EClose reason)])%list.

(** The world once the method [m] is bound for the watcher [w]. *)
Definition boundBy (w : nat) (m : string) (x : Watcher) (s : World) : World :=
  if String.eqb m "watch" then
    set_nodes (alter (set_fswatcher (Some (length (handles s)))) w (nodes s))
              (set_handles (handles s ++ [(pathString x, true)])%list s)
  else set_polls (polls s ++ [pathString x])%list s.

(** The listener table [watchChild] and the factory give the watcher of the
    child [rel] of [p], whose path is [full]. *)
Definition childListeners (p : nat) (rel full : string) : list (string * bool * handler) :=
  [("close", true, HChildClose p rel);
   ("log", false, HChildLog p);
   ("change", false, HChildChange p rel full);
   ("close", true, HRegistry full)].


(** A variable holds [null], [undefined] or an object of the store. *)
Definition liveRef (h : heap) (r : ref) : Prop :=
  match r with RObj l => is_Some (h !! l) | _ => True end.

(** The JSON text [statChanged] compares for a variable; [None] for [null]
    and [undefined]. *)
Definition comparedText (env : Env) (h : heap) (r : ref) : option string :=
  match r with
  | RObj l => (fun o => stringify env (comparedObject env o)) <$> h !! l
  | _ => None
  end.

(** The [log] listeners of [x] are the one with which [watchChild] bubbles
    the logs of a child to [p]. *)
Definition logsBubbleTo (p : nat) (x : Watcher) : Prop :=
  List.filter (fun l : string * bool * handler => String.eqb (fst (fst l)) "log")
              (listeners x) = [("log", false, HChildLog p)].






(** A file [/f] on a file system where [fs.watch] fails and [fs.watchFile]
    works. *)
Definition envPollOnly : Env :=
  mkEnv (fun _ => true) (fun _ => inr (statsObject (fileStats 1 1 1 10)))
        (fun _ => inl (Error "ENOTDIR"))
        (fun _ => Some (Error "EMFILE")) (fun _ => None) (fun _ => false).


(** A watcher for [/d] whose activation failed at the stat: it is
    registered and still pending. *)
Definition worldUnreachable : World :=
  after envGone (CStaticWatch (userOpts "/d")) emptyWorld.


(** No child is stored under the keys a child value turns into when it is
    used as a property key. *)
Definition plainNames (cs : list (string * child)) : Prop :=
  lookupChild cs "[object Object]" = None /\ lookupChild cs "false" = None.

(** What [close] leaves of the bindings of the watcher [x]. *)
Definition releasedHandles (x : Watcher) (s : World) : list (string * bool) :=
  match fswatcher x with
  | Some h => alter (fun hd => (fst hd, false)) h (handles s)
  | None => handles s
  end.

Definition releasedPolls (x : Watcher) (s : World) : list string :=
  if match method x with Some m => String.eqb m "watchFile" | None => false end
  then List.filter (fun q => stringNe q (pathString x)) (polls s)
  else polls s.

(** Another file at [/f]: a new inode, born seconds later. *)
Definition otherFileStats : Stats :=
  {| st_dev := 1; st_mode := 33188; st_nlink := 1; st_uid := 0; st_gid := 0;
     st_rdev := 0; st_blksize := 4096; st_ino := 8; st_size := 10; st_blocks := 8;
     st_atime := 9000; st_mtime := 9000; st_ctime := 9000; st_birthtime := 9000 |}.

(** The group [g] once one of its tasks has completed without error. *)
Definition taskCounted (g : nat) (G : Group) (gs : list Group) : list Group :=
  <[g := {| g_pending := Nat.pred (g_pending G);
            g_finished := Nat.eqb (Nat.pred (g_pending G)) 0;
            g_done := g_done G |}]> gs.

(** The directory [/d] and its file [a], after [a] was written to. *)
Definition envChildTouched : Env :=
  mkEnv (fun _ => true)
        (fun p => if String.eqb p "/d" then inr (statsObject (dirStats 2))
                  else inr (statsObject (fileStats 9 9 2 20)))
        (fun p => if String.eqb p "/d" then inr ["a"] else inl (Error "ENOTDIR"))
        (fun _ => None) (fun _ => None) (fun _ => false).

(** The directory [/d] with a new modification time, its file [a] as it
    was. *)
Definition envDirTouched : Env :=
  mkEnv (fun _ => true)
        (fun p => if String.eqb p "/d" then inr (statsObject (dirStats 2))
                  else inr (statsObject (fileStats 1 1 1 10)))
        (fun p => if String.eqb p "/d" then inr ["a"] else inl (Error "ENOTDIR"))
        (fun _ => None) (fun _ => None) (fun _ => false).

(** [/d] and [a] watched, a raw notification received by [a]. *)
Definition worldChildNotified : World :=
  after envDir (CListener 1%nat (Some "watch") None) worldDir.

(** [/d] and [a] watched, the batch of [/d] run: the detection is
    forwarded to [a]. *)
Definition worldForwarded : World :=
  after envDirTouched (CFireTimeout 0%nat) worldDirNotified.

(** The directory [/d], touched, when it can no longer be listed. *)
Definition envUnlistable : Env :=
  mkEnv (fun _ => true)
        (fun p => if String.eqb p "/d" then inr (statsObject (dirStats 2))
                  else inr (statsObject (fileStats 1 1 1 10)))
        (fun _ => inl (Error "EACCES"))
        (fun _ => None) (fun _ => None) (fun _ => false).




(** The directory [/d] after [a] has gone, with an ignore oracle that
    excludes [a]. *)
Definition envIgnoredGone : Env :=
  mkEnv (fun _ => true)
        (fun p => if String.eqb p "/d" then inr (statsObject (dirStats 3)) else inl ENOENT)
        (fun p => if String.eqb p "/d" then inr [] else inl (Error "ENOTDIR"))
        (fun _ => None) (fun _ => None) (fun p => String.eqb p "/d/a").


(** The stat object [getStat] leaves in [watchr.stat] when it is called
    without [reset]: the cached one, or else the one the file system
    gives. *)
Definition statObject (env : Env) (s : World) (x : Watcher) : option object :=
  match stat x with
  | RObj l => stats s !! l
  | _ =>
      match (if followLinks (config x) then fs_stat env else fs_lstat env) (pathString x) with
      | inr o => Some o
      | inl _ => None
      end
  end.

(** [/f] on the file system that refuses both ways of watching: the
    watcher of the factory call is still pending. *)
Definition worldFilePending : World :=
  after envNoBind (CStaticWatch (userOpts "/f")) emptyWorld.

(** [/f] watched, a raw notification received, and the batch run after
    another file was put at the path. *)
Definition worldFileReplaced : World :=
  after (envFile otherFileStats) (CFireTimeout 0%nat) worldFileNotified.

(** The file [/f] with the given stat, as Node 8.1 and later report it. *)
Definition envFileMs (s : Stats) : Env :=
  mkEnv (fun _ => true) (fun _ => inr (statsObjectMs s)) (fun _ => inl (Error "ENOTDIR"))
        (fun _ => None) (fun _ => None) (fun _ => false).

(** [/f] watched there, and a raw notification received. *)
Definition worldFileMs : World :=
  after (envFileMs (fileStats 1 1 1 10)) (CStaticWatch (userOpts "/f")) emptyWorld.

Definition worldFileMsNotified : World :=
  after (envFileMs (fileStats 1 1 1 10)) (CListener 0%nat (Some "watch") None) worldFileMs.

(** The directory [/d], modified at [mtime], and its file [a], as Node 8.1
    and later report them. *)
Definition envDirMs (mtime : Z) : Env :=
  mkEnv (fun _ => true)
        (fun p => if String.eqb p "/d" then inr (statsObjectMs (dirStats mtime))
                  else if String.eqb p "/d/a" then inr (statsObjectMs (fileStats 1 1 1 10))
                  else inl ENOENT)
        (fun p => if String.eqb p "/d" then inr ["a"] else inl (Error "ENOTDIR"))
        (fun _ => None) (fun _ => None) (fun _ => false).

(** [/d] and [a] watched there, the batch of [/d] run after [/d] was
    modified: the detection is forwarded to [a]. *)
Definition worldForwardedMs : World :=
  after (envDirMs 2) (CFireTimeout 0%nat)
    (after (envDirMs 1) (CListener 0%nat (Some "watch") None)
       (after (envDirMs 1) (CStaticWatch (userOpts "/d")) emptyWorld)).

(** The options of a caller who gives the path and listens to [error]. *)
Definition listeningOpts (p : string) : Opts :=
  {| o_path := p; o_stat := RUndefined; o_once := []; o_on := [("error", [HUser 1])];
     o_interval := None; o_persistent := None; o_catchupDelay := None;
     o_preferredMethods := None; o_followLinks := None; o_ignore := None |}.

(** [/f] watched by a caller who listens to [error], a raw notification
    received, its timer pending. *)
Definition worldFileHeard : World :=
  after (envFile (fileStats 1 1 1 10)) (CListener 0%nat (Some "watch") None)
    (after (envFile (fileStats 1 1 1 10)) (CStaticWatch (listeningOpts "/f")) emptyWorld).

(** The same for [/d] and its child [a], and for [/d] watched while
    empty. *)
Definition worldDirHeard : World :=
  after envDir (CListener 0%nat (Some "watch") None)
    (after envDir (CStaticWatch (listeningOpts "/d")) emptyWorld).


(* ===================================================================== *)
(** * The stat comparator *)
(* ===================================================================== *)

Lemma append_cons (c : ascii) (s t : string) : String c s ++ t = String c (s ++ t).
Proof. reflexivity. Qed.

Lemma append_nil (t : string) : "" ++ t = t.
Proof. reflexivity. Qed.

Lemma append_cancel (p s1 s2 : string) : p ++ s1 = p ++ s2 -> s1 = s2.
Proof. apply (inj (String.append p)). Qed.

Lemma append_assoc (a b c : string) : (a ++ b) ++ c = a ++ (b ++ c).
Proof.
  induction a as [|x a IH]; [done|].
  rewrite !append_cons. by rewrite IH.
Qed.

Lemma uint_chars d : allChars isNumChar (NilEmpty.string_of_uint d) = true.
Proof. induction d; simpl; auto. Qed.

Lemma numberToString_chars n : allChars isNumChar (numberToString n) = true.
Proof.
  unfold numberToString. destruct (Z.to_int n) as [d|d]; simpl.
  - destruct d; try apply (uint_chars (Decimal.D0 d)); try reflexivity; simpl; apply uint_chars.
  - destruct d; simpl; try reflexivity; apply uint_chars.
Qed.

Lemma to_int_not_nil n : Z.to_int n <> Decimal.Pos Decimal.Nil /\ Z.to_int n <> Decimal.Neg Decimal.Nil.
Proof.
  split; intros H; pose proof (DecimalZ.of_to n) as E; rewrite H in E; simpl in E; subst n; discriminate H.
Qed.

Lemma numberToString_inj a b : numberToString a = numberToString b -> a = b.
Proof.
  unfold numberToString. intros H.
  apply DecimalZ.to_int_inj.
  destruct (to_int_not_nil a), (to_int_not_nil b).
  assert (Some (Z.to_int a) = Some (Z.to_int b)) as [= E]; [|done].
  rewrite <- (NilZero.isi (Z.to_int a)), <- (NilZero.isi (Z.to_int b)) by done.
  by rewrite H.
Qed.

Lemma numberToString_nonempty n : exists c r, numberToString n = String c r.
Proof.
  unfold numberToString. destruct (Z.to_int n) as [d|d]; simpl.
  - destruct d; simpl; eauto.
  - eauto.
Qed.

Lemma append_eq_prefix (w1 w2 s1 s2 : string) :
  w1 ++ s1 = w2 ++ s2 -> isPrefix w1 w2 = true \/ isPrefix w2 w1 = true.
Proof.
  revert w2. induction w1 as [|x w1 IH]; intros [|y w2]; simpl; auto.
  rewrite !append_cons. intros [= -> H].
  rewrite Ascii.eqb_refl. simpl. eauto.
Qed.

Lemma allAscii_complete (c : ascii) : existsb (Ascii.eqb c) allAscii = true.
Proof. destruct c as [[] [] [] [] [] [] [] []]; vm_compute; reflexivity. Qed.

Lemma forallb_allAscii (P : ascii -> bool) (c : ascii) :
  forallb P allAscii = true -> P c = true.
Proof.
  intros H. rewrite forallb_forall in H. apply H.
  pose proof (allAscii_complete c) as E. apply existsb_exists in E as (x & Hin & Hx).
  apply Ascii.eqb_eq in Hx. by subst.
Qed.

Lemma escapeChar_prefix_code (c1 c2 : ascii) :
  isPrefix (escapeChar c1) (escapeChar c2) = true -> c1 = c2.
Proof.
  assert (forallb (fun a => forallb (escapeCompatible a) allAscii) allAscii = true) as H
    by (vm_compute; reflexivity).
  apply (forallb_allAscii _ c1) in H. apply (forallb_allAscii _ c2) in H.
  unfold escapeCompatible in H. intros E. rewrite E in H. simpl in H.
  by apply Ascii.eqb_eq.
Qed.

Lemma escapeChar_inj (c1 c2 : ascii) (s1 s2 : string) :
  escapeChar c1 ++ s1 = escapeChar c2 ++ s2 -> c1 = c2 /\ s1 = s2.
Proof.
  intros H. assert (c1 = c2) as ->.
  { destruct (append_eq_prefix _ _ _ _ H) as [E|E];
      apply escapeChar_prefix_code in E; done. }
  split; [done|]. by apply append_cancel in H.
Qed.

Lemma escapeChar_head (c : ascii) : headIsNot dquote (escapeChar c) = true.
Proof.
  apply (forallb_allAscii (fun c => headIsNot dquote (escapeChar c)) c).
  vm_compute; reflexivity.
Qed.

Lemma escape_cons (c : ascii) (s : string) : escape (String c s) = escapeChar c ++ escape s.
Proof. reflexivity. Qed.

Lemma escape_terminated (s1 s2 r1 r2 : string) :
  escape s1 ++ String dquote r1 = escape s2 ++ String dquote r2 -> s1 = s2 /\ r1 = r2.
Proof.
  revert s2. induction s1 as [|c1 s1 IH]; intros [|c2 s2].
  - rewrite !append_nil. by intros [= ->].
  - rewrite escape_cons, append_assoc. simpl escape. rewrite append_nil.
    pose proof (escapeChar_head c2) as Hh. destruct (escapeChar c2) as [|x e]; [done|].
    rewrite append_cons. intros [= E _]. simpl in Hh.
    apply negb_true_iff, Ascii.eqb_neq in Hh. congruence.
  - rewrite escape_cons, append_assoc. simpl escape. rewrite append_nil.
    pose proof (escapeChar_head c1) as Hh. destruct (escapeChar c1) as [|x e]; [done|].
    rewrite append_cons. intros [= E _]. simpl in Hh.
    apply negb_true_iff, Ascii.eqb_neq in Hh. congruence.
  - rewrite !escape_cons, !append_assoc. intros H.
    apply escapeChar_inj in H as [-> H]. apply IH in H as [-> ->]. done.
Qed.

Lemma quote_terminated (s1 s2 r1 r2 : string) :
  quote s1 ++ r1 = quote s2 ++ r2 -> s1 = s2 /\ r1 = r2.
Proof.
  unfold quote. rewrite !append_cons, !append_assoc, !append_cons, !append_nil.
  intros [= H]. by apply escape_terminated.
Qed.

Lemma number_terminated (d1 d2 : string) (c1 c2 : ascii) (r1 r2 : string) :
  allChars isNumChar d1 = true -> allChars isNumChar d2 = true ->
  isNumChar c1 = false -> isNumChar c2 = false ->
  d1 ++ String c1 r1 = d2 ++ String c2 r2 -> d1 = d2 /\ String c1 r1 = String c2 r2.
Proof.
  revert d2. induction d1 as [|x d1 IH]; intros [|y d2]; simpl; intros H1 H2 N1 N2.
  - by rewrite !append_nil.
  - rewrite append_nil, append_cons. intros [= -> _].
    apply andb_true_iff in H2 as [H2 _]. congruence.
  - rewrite append_nil, append_cons. intros [= -> _].
    apply andb_true_iff in H1 as [H1 _]. congruence.
  - rewrite !append_cons. intros [= -> H].
    apply andb_true_iff in H1 as [_ H1]. apply andb_true_iff in H2 as [_ H2].
    destruct (IH d2 H1 H2 N1 N2 H) as [-> ?]. done.
Qed.

Lemma numberToString_head n :
  exists a r, numberToString n = String a r /\ isNumChar a = true.
Proof.
  destruct (numberToString_nonempty n) as (a & r & E).
  pose proof (numberToString_chars n) as H. rewrite E in H. simpl in H.
  apply andb_true_iff in H as [H _]. eauto.
Qed.

Lemma terminator_not_num c : isTerminator c = true -> isNumChar c = false.
Proof.
  unfold isTerminator. intros [->%Ascii.eqb_eq | ->%Ascii.eqb_eq]%orb_true_iff; reflexivity.
Qed.

Lemma stringifyValue_terminated env v1 v2 c1 c2 r1 r2 :
  isJson v1 = true -> isJson v2 = true ->
  isTerminator c1 = true -> isTerminator c2 = true ->
  stringifyValue env v1 ++ String c1 r1 = stringifyValue env v2 ++ String c2 r2 ->
  v1 = v2 /\ String c1 r1 = String c2 r2.
Proof.
  intros J1 J2 T1 T2.
  pose proof (terminator_not_num _ T1) as N1. pose proof (terminator_not_num _ T2) as N2.
  destruct v1 as [|[]|n1|s1|]; try discriminate J1;
  destruct v2 as [|[]|n2|s2|]; try discriminate J2; simpl stringifyValue;
    try (destruct (numberToString_head n1) as (a1 & q1 & E1 & A1));
    try (destruct (numberToString_head n2) as (a2 & q2 & E2 & A2));
    try (rewrite ?E1, ?E2, ?append_cons, ?append_nil; intros [= ?]; subst;
         first [ done | discriminate A1 | discriminate A2 ]);
    try (unfold quote; rewrite ?E1, ?E2, ?append_cons, ?append_nil; intros [= ? ?]; subst;
         first [ discriminate A1 | discriminate A2 ]).
  - intros H. apply number_terminated in H as [H ?]; auto using numberToString_chars.
    apply numberToString_inj in H. by subst.
  - intros H. apply quote_terminated in H as [-> ?]. done.
Qed.

Lemma stringifyProps_cons2 env p q o :
  stringifyProps env (p :: q :: o) = stringifyProp env p ++ "," ++ stringifyProps env (q :: o).
Proof. reflexivity. Qed.

Lemma stringifyProps_terminated env (o1 o2 : object) (r1 r2 : string) :
  map fst o1 = map fst o2 ->
  forallb (fun p => isJson (snd p)) o1 = true ->
  forallb (fun p => isJson (snd p)) o2 = true ->
  stringifyProps env o1 ++ String "}" r1 = stringifyProps env o2 ++ String "}" r2 ->
  o1 = o2 /\ r1 = r2.
Proof.
  revert o2. induction o1 as [|[k v1] o1 IH]; intros [|[k2 v2] o2]; try discriminate.
  - simpl. rewrite !append_nil. by intros _ _ _ [= ->].
  - simpl map. intros [= <- Hk] [J1 A1]%andb_true_iff [J2 A2]%andb_true_iff. simpl in J1, J2.
    destruct o1 as [|p1 o1], o2 as [|p2 o2]; try discriminate Hk.
    + simpl stringifyProps. unfold stringifyProp. simpl fst; simpl snd.
      rewrite !append_assoc. intros H. apply append_cancel in H.
      rewrite !append_cons, !append_nil in H. injection H as H.
      apply stringifyValue_terminated in H as [-> [= ->]]; done.
    + rewrite !stringifyProps_cons2. unfold stringifyProp at 1 2. simpl fst; simpl snd.
      rewrite !append_assoc. intros H. apply append_cancel in H.
      rewrite !append_cons, !append_nil in H. injection H as H.
      apply stringifyValue_terminated in H as [-> [= H]]; [|done..].
      apply (IH (p2 :: o2)) in H as [-> ->]; done.
Qed.

Lemma stringify_inj env (o1 o2 : object) :
  map fst o1 = map fst o2 ->
  forallb (fun p => isJson (snd p)) o1 = true ->
  forallb (fun p => isJson (snd p)) o2 = true ->
  stringify env o1 = stringify env o2 -> o1 = o2.
Proof.
  intros Hk J1 J2. unfold stringify. rewrite !append_cons, !append_nil. intros [= H].
  apply stringifyProps_terminated in H as [-> _]; done.
Qed.

Lemma bind_Ok {S A B} (m : M S A) (k : A -> M S B) s a s' :
  m s = Ok a s' -> bind m k s = k a s'.
Proof. unfold bind. by intros ->. Qed.

Lemma lookup_app_plus {A} (h l : list A) (i : nat) :
  (h ++ l)%list !! (length h + i)%nat = l !! i.
Proof. rewrite lookup_app_r by lia. f_equal. lia. Qed.

Lemma readObj_Ok (h : heap) l o : h !! l = Some o -> readObj l h = Ok o h.
Proof. unfold readObj. by intros ->. Qed.

Lemma deleteIfPresent_Ok (h : heap) l k o :
  h !! l = Some o -> deleteIfPresent l k h = Ok tt (<[l := dropIfSet k o]> h).
Proof.
  intros H. unfold deleteIfPresent. rewrite (bind_Ok _ _ _ _ _ (readObj_Ok _ _ _ H)).
  unfold dropIfSet, when. destruct (notNullish (getProp o k)).
  - reflexivity.
  - unfold ret. by rewrite list_insert_id.
Qed.

Lemma dereferenceJSON_Ok env (h : heap) l o :
  h !! l = Some o -> dereferenceJSON env l h = Ok (length h) (h ++ [jsonObject env o])%list.
Proof.
  intros H. unfold dereferenceJSON. by rewrite (bind_Ok _ _ _ _ _ (readObj_Ok _ _ _ H)).
Qed.

Lemma statChanged_objects env (h : heap) lo lc oo oc :
  h !! lo = Some oo -> h !! lc = Some oc ->
  statChanged env (RObj lo) (RObj lc) h =
    Ok (negb (String.eqb (stringify env (comparedObject env oo))
                         (stringify env (comparedObject env oc))))
       (h ++ [comparedObject env oo; comparedObject env oc])%list.
Proof.
  intros Ho Hc. unfold statChanged. cbn [hasRef Bool.eqb negb].
  rewrite (bind_Ok _ _ _ _ _ (dereferenceJSON_Ok env _ _ _ Ho)).
  assert ((h ++ [jsonObject env oo])%list !! lc = Some oc) as Hc'
    by (apply lookup_app_l_Some; done).
  rewrite (bind_Ok _ _ _ _ _ (dereferenceJSON_Ok env _ _ _ Hc')).
  rewrite length_app. simpl length. rewrite <- app_assoc. simpl app.
  set (jo := jsonObject env oo). set (jc := jsonObject env oc).
  assert (length h = (length h + 0)%nat) as E0 by lia.
  rewrite E0, <- !Nat.add_assoc. clear E0.
  erewrite (bind_Ok (deleteIfPresent _ "atime")).
  2: { apply deleteIfPresent_Ok. by rewrite lookup_app_plus. }
  rewrite insert_app_r. simpl insert.
  erewrite (bind_Ok (deleteIfPresent _ "ctime")).
  2: { apply deleteIfPresent_Ok. by rewrite lookup_app_plus. }
  rewrite insert_app_r. simpl insert.
  erewrite (bind_Ok (deleteIfPresent _ "atime")).
  2: { apply deleteIfPresent_Ok. by rewrite lookup_app_plus. }
  rewrite insert_app_r. simpl insert.
  erewrite (bind_Ok (deleteIfPresent _ "ctime")).
  2: { apply deleteIfPresent_Ok. by rewrite lookup_app_plus. }
  rewrite insert_app_r. simpl insert.
  unfold JSON_stringify.
  erewrite (bind_Ok (bind (readObj _) _)).
  2: { erewrite bind_Ok; [reflexivity|]. apply readObj_Ok. by rewrite lookup_app_plus. }
  erewrite (bind_Ok (bind (readObj _) _)).
  2: { erewrite bind_Ok; [reflexivity|]. apply readObj_Ok. by rewrite lookup_app_plus. }
  fold (comparedObject env oo). fold (comparedObject env oc).
  by destruct (String.eqb _ _).
Qed.

Lemma comparedObject_stats env s :
  comparedObject env (statsObject s) =
  [ ("dev", VNum (st_dev s)); ("mode", VNum (st_mode s));
    ("nlink", VNum (st_nlink s)); ("uid", VNum (st_uid s));
    ("gid", VNum (st_gid s)); ("rdev", VNum (st_rdev s));
    ("blksize", VNum (st_blksize s)); ("ino", VNum (st_ino s));
    ("size", VNum (st_size s)); ("blocks", VNum (st_blocks s));
    ("mtime", VStr (toISOString env (st_mtime s)));
    ("birthtime", VStr (toISOString env (st_birthtime s))) ].
Proof. reflexivity. Qed.

Lemma compared_same env a b :
  (forall x y, toISOString env x = toISOString env y -> x = y) ->
  stringify env (comparedObject env (statsObject a)) =
  stringify env (comparedObject env (statsObject b)) <-> sameButAccess a b.
Proof.
  intros Hinj. rewrite !comparedObject_stats. split.
  - intros H. apply stringify_inj in H; [|reflexivity..].
    injection H as ? ? ? ? ? ? ? ? ? ? Hm Hb.
    apply Hinj in Hm, Hb. unfold sameButAccess. tauto.
  - intros (?&?&?&?&?&?&?&?&?&?&?&?). congruence.
Qed.

(** On the [Stats] that Node gave before 8.1, which hold each time once:
    [statChanged(old, current)] is true when exactly one of the two is
    null, false when both are, and otherwise true exactly when the two
    snapshots differ in a field other than [atime] and [ctime] (among them
    [mtime], [size], [ino] and [mode], hence the kind, which is read from
    [mode]). *)
Lemma statChanged_spec env (h : heap) old current so sc :
  (forall x y, toISOString env x = toISOString env y -> x = y) ->
  holds h old so -> holds h current sc ->
  exists changed h', statChanged env old current h = Ok changed h' /\
                     (changed = true <-> changedSpec so sc).
Proof.
  intros Hinj Ho Hc.
  destruct old as [| |lo], so as [a|]; try done;
    destruct current as [| |lc], sc as [b|]; try done; simpl in Ho, Hc;
    try (exists true, h; split; [reflexivity | simpl; tauto]);
    try (exists false, h; split; [reflexivity | simpl; split; [discriminate | tauto]]).
  eexists _, _. split; [apply (statChanged_objects env h lo lc _ _ Ho Hc)|].
  simpl changedSpec. rewrite <- (compared_same env a b Hinj).
  rewrite negb_true_iff. rewrite <- String.eqb_neq. done.
Qed.

Lemma comparedObject_statsMs env s :
  comparedObject env (statsObjectMs s) =
  [ ("dev", VNum (st_dev s)); ("mode", VNum (st_mode s));
    ("nlink", VNum (st_nlink s)); ("uid", VNum (st_uid s));
    ("gid", VNum (st_gid s)); ("rdev", VNum (st_rdev s));
    ("blksize", VNum (st_blksize s)); ("ino", VNum (st_ino s));
    ("size", VNum (st_size s)); ("blocks", VNum (st_blocks s));
    ("atimeMs", VNum (st_atime s)); ("mtimeMs", VNum (st_mtime s));
    ("ctimeMs", VNum (st_ctime s)); ("birthtimeMs", VNum (st_birthtime s));
    ("mtime", VStr (toISOString env (st_mtime s)));
    ("birthtime", VStr (toISOString env (st_birthtime s))) ].
Proof. reflexivity. Qed.

(** On the [Stats] of Node 8.1 and later [statChanged] answers false on
    equal snapshots only: the deleted [atime] and [ctime] are still
    compared, as [atimeMs] and [ctimeMs]. *)
Lemma statChanged_ms env (h : heap) lo lc a b :
  h !! lo = Some (statsObjectMs a) -> h !! lc = Some (statsObjectMs b) ->
  exists changed h', statChanged env (RObj lo) (RObj lc) h = Ok changed h' /\
                     (changed = false <-> a = b).
Proof.
  intros Ho Hc. eexists _, _. split; [apply (statChanged_objects env h lo lc _ _ Ho Hc)|].
  rewrite negb_false_iff, String.eqb_eq, !comparedObject_statsMs. split.
  - intros H. apply stringify_inj in H; [|reflexivity..].
    injection H as ? ? ? ? ? ? ? ? ? ? ? ? ? ? _ _.
    destruct a, b; simpl in *; congruence.
  - by intros ->.
Qed.

(** C1: two snapshots of one file as Node 8.1 and later give them, equal in
    every field but the access time, and two equal in every field but the
    change time: [statChanged] answers true on both pairs.  On the same
    snapshots without the properties [atimeMs] and [ctimeMs] it answers
    false. *)
Theorem access_time_counts_as_change :
  sameButAccess (fileStats 1 1 1 10) (fileStats 9 1 1 10) /\
  sameButAccess (fileStats 1 1 1 10) (fileStats 1 9 1 10) /\
  returned (statChanged (envFileMs (fileStats 1 1 1 10)) (RObj 0) (RObj 1)
              [statsObjectMs (fileStats 1 1 1 10); statsObjectMs (fileStats 9 1 1 10)])
    = Some true /\
  returned (statChanged (envFileMs (fileStats 1 1 1 10)) (RObj 0) (RObj 1)
              [statsObjectMs (fileStats 1 1 1 10); statsObjectMs (fileStats 1 9 1 10)])
    = Some true /\
  returned (statChanged (envFileMs (fileStats 1 1 1 10)) (RObj 0) (RObj 1)
              [statsObject (fileStats 1 1 1 10); statsObject (fileStats 9 9 1 10)])
    = Some false.
Proof. unfold sameButAccess. split_and!; vm_compute; reflexivity. Qed.

(** A change of kind is a change of [mode], so it is among the differences
    the comparator reports. *)
Lemma kind_change_detected (a b : Stats) : st_kind a <> st_kind b -> ~ sameButAccess a b.
Proof.
  intros Hk (_ & Hm & _). apply Hk. unfold st_kind. by rewrite Hm.
Qed.

(** ** [statChanged] works on copies *)

Lemma extends_ret {A} (h : heap) (Q : A -> Prop) a : Q a -> extends h Q (ret a).
Proof. intros HQ f. simpl. eauto. Qed.

Lemma extends_bind {A B} (h : heap) (Q : A -> Prop) (R : B -> Prop) m k :
  extends h Q m -> (forall a, Q a -> extends h R (k a)) -> extends h R (bind m k).
Proof.
  intros Hm Hk f. unfold bind. specialize (Hm f).
  destruct (m (h ++ f)%list) as [a s|e s|s]; [|done..].
  destruct Hm as (HQ & f' & ->). apply (Hk a HQ f').
Qed.

Lemma extends_weaken {A} (h : heap) (Q R : A -> Prop) m :
  (forall a, Q a -> R a) -> extends h Q m -> extends h R m.
Proof.
  intros HQR Hm f. specialize (Hm f). destruct (m (h ++ f)%list) as [a s|e s|s]; [|done..].
  destruct Hm as [HQ Hf]. auto.
Qed.

Lemma extends_readObj (h : heap) l : extends h (fun _ => True) (readObj l).
Proof. intros f. unfold readObj. destruct ((h ++ f)%list !! l); eauto. Qed.

Lemma extends_allocObj (h : heap) o : extends h (fun l => length h <= l)%nat (allocObj o).
Proof.
  intros f. unfold allocObj. split.
  - rewrite length_app. lia.
  - exists (f ++ [o])%list. by rewrite app_assoc.
Qed.

Lemma extends_writeObj (h : heap) l o :
  (length h <= l)%nat -> extends h (fun _ => True) (writeObj l o).
Proof.
  intros Hl f. unfold writeObj, modify. split; [done|].
  exists (<[(l - length h)%nat := o]> f). by rewrite insert_app_r_alt.
Qed.

Lemma extends_dereferenceJSON env (h : heap) l :
  extends h (fun l' => length h <= l')%nat (dereferenceJSON env l).
Proof.
  unfold dereferenceJSON. eapply extends_bind; [apply extends_readObj|].
  intros o _. apply extends_allocObj.
Qed.

Lemma extends_deleteIfPresent (h : heap) l k :
  (length h <= l)%nat -> extends h (fun _ => True) (deleteIfPresent l k).
Proof.
  intros Hl. unfold deleteIfPresent. eapply extends_bind; [apply extends_readObj|].
  intros o _. unfold when. destruct (notNullish _).
  - by apply extends_writeObj.
  - by apply extends_ret.
Qed.

Lemma extends_JSON_stringify env (h : heap) l :
  extends h (fun _ => True) (JSON_stringify env l).
Proof.
  unfold JSON_stringify. eapply extends_bind; [apply extends_readObj|].
  intros o _. by apply extends_ret.
Qed.

Lemma extends_statChanged env (h : heap) old current :
  extends h (fun _ => True) (statChanged env old current).
Proof.
  unfold statChanged.
  destruct (negb (eqb (hasRef old) (hasRef current))); [by apply extends_ret|].
  destruct old as [| |lo]; try by apply extends_ret.
  destruct current as [| |lc]; try by apply extends_ret.
  eapply extends_bind; [apply extends_dereferenceJSON|]. intros old' Ho.
  eapply extends_bind; [apply extends_dereferenceJSON|]. intros current' Hc.
  repeat (eapply extends_bind; [by apply extends_deleteIfPresent|]; intros _ _).
  eapply extends_bind; [apply extends_JSON_stringify|]. intros so _.
  eapply extends_bind; [apply extends_JSON_stringify|]. intros sc _.
  destruct (negb _); by apply extends_ret.
Qed.

Lemma statChanged_keeps_objects env old current (h : heap) l o :
  h !! l = Some o -> final_state (statChanged env old current h) !! l = Some o.
Proof.
  intros H. pose proof (extends_statChanged env h old current []) as E.
  rewrite app_nil_r in E.
  destruct (statChanged env old current h) as [a s|e s|s]; simpl;
    [destruct E as [_ [fresh ->]]|destruct E as [fresh ->]..];
    by apply lookup_app_l_Some.
Qed.

(** C10: [statChanged] leaves its arguments as they were.  Whatever the two
    arguments and the store, the store after the call is the store before
    it followed by the copies [dereferenceJSON] made: every object that
    existed, [old] and [current] among them, still has all its properties,
    [atime] and [ctime] included. *)
Theorem statChanged_pure env old current (h : heap) :
  exists fresh, final_state (statChanged env old current h) = (h ++ fresh)%list.
Proof.
  destruct old as [| |lo], current as [| |lc];
    try (exists []; rewrite app_nil_r; reflexivity).
  pose proof (extends_statChanged env h (RObj lo) (RObj lc) []) as E.
  rewrite app_nil_r in E.
  destruct (statChanged env (RObj lo) (RObj lc) h) as [changed h'|e h'|h']; simpl.
  - by destruct E as [_ E].
  - exact E.
  - exact E.
Qed.

(* ===================================================================== *)
(** * Events *)
(* ===================================================================== *)

(** ** Relating the final state of a run to its initial state *)

Lemma final_bind {S A B} (m : M S A) (k : A -> M S B) s :
  final_state (bind m k s) =
  match m s with
  | Ok a s' => final_state (k a s')
  | Throw _ s' | OutOfFuel s' => s'
  end.
Proof. unfold bind. by destruct (m s). Qed.

Section Preserves.
Context (R : World -> World -> Prop) `{!PreOrder R}.

Lemma preserves_ret {A} (a : A) : preserves R (ret a).
Proof. intros s. simpl. reflexivity. Qed.

Lemma preserves_throw {A} e : preserves R (@throw World A e).
Proof. intros s. simpl. reflexivity. Qed.

Lemma preserves_get : preserves R get.
Proof. intros s. simpl. reflexivity. Qed.

Lemma preserves_getW w : preserves R (getW w).
Proof. intros s. unfold getW. destruct (nodes s !! w); simpl; reflexivity. Qed.

Lemma preserves_modify f : (forall s, R s (f s)) -> preserves R (modify f).
Proof. intros H s. apply H. Qed.

Lemma preserves_bind {A B} (m : W A) (k : A -> W B) :
  preserves R m -> (forall a, preserves R (k a)) -> preserves R (bind m k).
Proof.
  intros Hm Hk s. rewrite final_bind. specialize (Hm s).
  destruct (m s) as [a s'|e s'|s']; simpl in *; [|done..].
  etrans; [exact Hm|]. apply Hk.
Qed.

Lemma preserves_when b (m : W unit) : preserves R m -> preserves R (when b m).
Proof. intros H. destruct b; [done|]. apply preserves_ret. Qed.

Lemma preserves_forEach {A} (l : list A) (f : A -> W unit) :
  (forall a, preserves R (f a)) -> preserves R (forEach l f).
Proof.
  intros H. induction l as [|a l IH]; simpl.
  - apply preserves_ret.
  - apply preserves_bind; [apply H|]. intros _. apply IH.
Qed.
End Preserves.

Lemma map_alter_same {A B} (g : A -> B) (f : A -> A) (w : nat) (l : list A) :
  (forall x, g (f x) = g x) -> map g (alter f w l) = map g l.
Proof.
  intros H. revert w. induction l as [|a l IH]; intros [|w]; simpl; [done..| |].
  - f_equal. apply H.
  - f_equal. apply IH.
Qed.

Global Instance quietStep_preorder e : PreOrder (quietStep e).
Proof.
  split.
  - intros s. split; try done. exists []. by rewrite app_nil_r.
  - intros s1 s2 s3 [C1 S1 G1 H1 P1 [ws1 T1]] [C2 S2 G2 H2 P2 [ws2 T2]].
    split; try congruence.
    exists (ws1 ++ ws2)%list. rewrite T2, T1, map_app, app_assoc. done.
Qed.

Lemma quietStep_nodes e s f :
  (forall x, core (f x) = core x) ->
  forall w, quietStep e s (set_nodes (alter f w (nodes s)) s).
Proof.
  intros H w. split; simpl; try done.
  - by apply map_alter_same.
  - exists []. by rewrite app_nil_r.
Qed.

Lemma emit_quiet env fuel w e :
  isChange e = false -> preserves (quietStep e) (exec env fuel (CEmit w e)).
Proof.
  intros He. revert w. induction fuel as [|n IH]; intros w.
  { intros s. simpl. reflexivity. }
  change (exec env (S n) (CEmit w e)) with (emit (@exec env n) w e).
  unfold emit. apply preserves_bind; [apply _|apply preserves_getW; apply _|]. intros x.
  destruct (unhandled e x); [apply preserves_throw; apply _|].
  apply preserves_bind; [apply _| |].
  { apply preserves_modify. intros s. split; simpl; try done. by exists [w]. }
  intros _. apply preserves_bind; [apply _| |].
  { apply preserves_modify. intros s. by apply quietStep_nodes. }
  intros _. apply preserves_forEach; [apply _|]. intros [[ev once] h]. simpl snd.
  destruct h as [p|parent rel|parent|parent rel full|tag]; simpl.
  - apply preserves_modify. intros s. split; simpl; try done.
    exists []. by rewrite app_nil_r.
  - apply preserves_modify. intros s. by apply quietStep_nodes.
  - apply IH.
  - destruct e; try discriminate He; apply preserves_ret; apply _.
  - apply preserves_ret; apply _.
Qed.

(** ** Completions without an error emit nothing *)

Global Instance sameTrace_preorder : PreOrder sameTrace.
Proof. split; unfold sameTrace; [done|congruence]. Qed.

Lemma complete_silent env fuel d :
  preserves sameTrace (exec env fuel (CComplete d None)).
Proof.
  revert d. induction fuel as [|n IH]; intros d.
  { intros s. reflexivity. }
  change (exec env (S n) (CComplete d None)) with (complete (@exec env n) d None).
  destruct d as [w|g]; simpl.
  { apply preserves_ret; apply _. }
  unfold taskDone. apply preserves_bind; [apply _|apply preserves_get; apply _|]. intros s0.
  destruct (groups s0 !! g) as [G|]; [|apply preserves_throw; apply _].
  destruct (g_finished G); [apply preserves_ret; apply _|].
  apply preserves_bind; [apply _|by apply preserves_modify|]. intros _.
  destruct (Nat.eqb _ _); [|apply preserves_ret; apply _].
  apply preserves_forEach; [apply _|]. intros d. apply IH.
Qed.

Lemma finish_silent env fuel done :
  preserves sameTrace (finish (@exec env fuel) done None).
Proof. apply preserves_forEach; [apply _|]. intros d. apply complete_silent. Qed.

(* ===================================================================== *)
(** * The change check of the listener *)
(* ===================================================================== *)

Lemma compared_of_same env a b :
  sameButAccess a b ->
  comparedObject env (statsObject a) = comparedObject env (statsObject b).
Proof.
  intros (?&?&?&?&?&?&?&?&?&?&?&?). rewrite !comparedObject_stats. congruence.
Qed.

Lemma getW_Ok (s : World) w x : nodes s !! w = Some x -> getW w s = Ok x s.
Proof. unfold getW. by intros ->. Qed.

Lemma onStats_Ok {A} (m : M heap A) (s : World) a h' :
  m (stats s) = Ok a h' -> onStats m s = Ok a (set_stats h' s).
Proof. unfold onStats, zoom. by intros ->. Qed.

Lemma logsOnly_refl s : logsOnly s s.
Proof. exists []. by rewrite app_nil_r. Qed.

Lemma logsOnly_quiet s s1 s2 level message :
  logsOnly s s1 -> quietStep (ELog level message) s1 s2 -> logsOnly s s2.
Proof.
  intros (evs & T & F) [_ _ _ _ _ [ws T2]].
  exists (evs ++ map (fun w => (w, ELog level message)) ws)%list. split.
  - by rewrite T2, T, app_assoc.
  - apply Forall_app. split; [done|]. apply Forall_forall. intros ev Hin.
    apply list_elem_of_In, in_map_iff in Hin as (w & <- & _). done.
Qed.

Lemma logsOnly_sameTrace s s1 s2 : logsOnly s s1 -> trace s2 = trace s1 -> logsOnly s s2.
Proof. intros (evs & T & F) E. exists evs. by rewrite E. Qed.

Lemma quiet_lookup e s s' w x :
  quietStep e s s' -> nodes s !! w = Some x ->
  exists x', nodes s' !! w = Some x' /\ core x' = core x.
Proof.
  intros [C _ _ _ _ _] H.
  assert (map core (nodes s') !! w = Some (core x)) as H'.
  { rewrite C. by rewrite list_lookup_fmap, H. }
  rewrite list_lookup_fmap in H'. destruct (nodes s' !! w) as [x'|]; simpl in H';
    [|discriminate]. apply (inj Some) in H'. eauto.
Qed.

Lemma core_path x x' : core x' = core x -> pathString x' = pathString x.
Proof. unfold core, pathString. by intros [= -> _ _ _ _ _ _ _]. Qed.

Lemma log_step env n w level message (s0 : World) (k : unit -> W unit) s :
  logsOnly s0 s ->
  (forall s', quietStep (ELog level message) s s' -> logsOnly s0 (final_state (k tt s'))) ->
  logsOnly s0 (final_state (bind (log (@exec env n) w level message) k s)).
Proof.
  intros L Hk. rewrite final_bind. unfold log.
  pose proof (emit_quiet env n w (ELog level message) eq_refl s) as Q.
  destruct (exec env n (CEmit w (ELog level message)) s) as [[] s'|e s'|s']; simpl in Q.
  - by apply Hk.
  - by eapply logsOnly_quiet.
  - by eapply logsOnly_quiet.
Qed.

Lemma set_stats_id (s : World) : set_stats (stats s) s = s.
Proof. by destruct s. Qed.

Lemma getStat_reset_Ok env (s : World) w x o :
  nodes s !! w = Some x ->
  (if followLinks (config x) then fs_stat env else fs_lstat env) (pathString x) = inr o ->
  getStat env w true s =
    Ok (inr (RObj (length (stats s))))
       (set_nodes (alter (set_stat (RObj (length (stats s)))) w (nodes s))
                  (set_stats (stats s ++ [o])%list s)).
Proof.
  intros Hw Hst. unfold getStat. rewrite (bind_Ok _ _ _ _ _ (getW_Ok _ _ _ Hw)).
  rewrite andb_false_r, Hst. reflexivity.
Qed.

Lemma birthtimeString_Ok env (s : World) l st :
  stats s !! l = Some (statsObject st) ->
  birthtimeString env (RObj l) s = Ok (dateToString env (st_birthtime st)) s.
Proof.
  intros H. unfold birthtimeString.
  rewrite (bind_Ok _ _ _ _ _ (onStats_Ok _ _ _ _ (readObj_Ok _ _ _ H))).
  by rewrite set_stats_id.
Qed.

Lemma birthtimeString_date env (s : World) l o t :
  stats s !! l = Some o -> getProp o "birthtime" = Some (VDate (Some t)) ->
  birthtimeString env (RObj l) s = Ok (dateToString env t) s.
Proof.
  intros H Hb. unfold birthtimeString.
  rewrite (bind_Ok _ _ _ _ _ (onStats_Ok _ _ _ _ (readObj_Ok _ _ _ H))).
  by rewrite set_stats_id, Hb.
Qed.

Lemma stringNe_refl a : stringNe a a = false.
Proof. unfold stringNe. by rewrite String.eqb_refl. Qed.

Lemma statChanged_same env (h : heap) lp l sp sc :
  h !! lp = Some (statsObject sp) -> h !! l = Some (statsObject sc) ->
  sameButAccess sp sc ->
  exists fresh, statChanged env (RObj lp) (RObj l) h = Ok false (h ++ fresh)%list.
Proof.
  intros Hp Hl Hsame. rewrite (statChanged_objects env h lp l _ _ Hp Hl).
  rewrite (compared_of_same env sp sc Hsame), String.eqb_refl. eauto.
Qed.

Lemma runBatch_same env n (s0 s : World) w x b lp sp sc :
  logsOnly s0 s ->
  nodes s !! w = Some x ->
  b_previousStat b = RObj lp ->
  stats s !! lp = Some (statsObject sp) ->
  fs_exists env (pathString x) = true ->
  (if followLinks (config x) then fs_stat env else fs_lstat env) (pathString x)
    = inr (statsObject sc) ->
  sameButAccess sp sc ->
  logsOnly s0 (final_state (runBatch env (@exec env n) w b s)).
Proof.
  intros L Hw Hb Hp Hex Hst Hsame. unfold runBatch.
  rewrite (bind_Ok _ _ _ _ _ (getW_Ok _ _ _ Hw)).
  apply log_step; [done|]. intros s1 Q1.
  rewrite Hex. cbn [negb].
  destruct (quiet_lookup _ _ _ _ _ Q1 Hw) as (x1 & Hw1 & C1).
  assert (L1 : logsOnly s0 s1) by (by eapply logsOnly_quiet).
  assert (Hst1 : (if followLinks (config x1) then fs_stat env else fs_lstat env)
                   (pathString x1) = inr (statsObject sc)).
  { rewrite (core_path _ _ C1). unfold core in C1. by injection C1 as _ _ _ _ _ _ _ ->. }
  rewrite (bind_Ok _ _ _ _ _ (getStat_reset_Ok env s1 w x1 _ Hw1 Hst1)).
  set (l := length (stats s1)).
  set (s2 := set_nodes _ _).
  assert (Hw2 : nodes s2 !! w = Some (set_stat (RObj l) x1)).
  { unfold s2. simpl. by rewrite list_lookup_alter_eq, Hw1. }
  rewrite (bind_Ok _ _ _ _ _ (getW_Ok _ _ _ Hw2)). cbn [stat set_stat].
  assert (Hl2 : stats s2 !! l = Some (statsObject sc)).
  { unfold s2, l. simpl. by rewrite lookup_app_r, Nat.sub_diag by lia. }
  assert (Hp2 : stats s2 !! lp = Some (statsObject sp)).
  { unfold s2. simpl. apply lookup_app_l_Some. destruct Q1 as [_ -> _ _ _ _]. done. }
  rewrite (bind_Ok _ _ _ _ _ (birthtimeString_Ok env s2 l sc Hl2)).
  rewrite Hb.
  rewrite (bind_Ok _ _ _ _ _ (birthtimeString_Ok env s2 lp sp Hp2)).
  assert (st_birthtime sp = st_birthtime sc) as -> by (unfold sameButAccess in Hsame; tauto).
  rewrite stringNe_refl.
  change (bind (ret None) ?k s2) with (k None s2). cbv beta iota.
  destruct (statChanged_same env (stats s2) lp l sp sc Hp2 Hl2 Hsame) as [fresh Hsc].
  rewrite (bind_Ok _ _ _ _ _ (onStats_Ok _ _ _ _ Hsc)). cbn [negb].
  apply log_step.
  { eapply logsOnly_sameTrace; [exact L1|]. reflexivity. }
  intros s3 Q3.
  eapply logsOnly_sameTrace.
  - eapply logsOnly_quiet; [|exact Q3]. eapply logsOnly_sameTrace; [exact L1|]. reflexivity.
  - apply (finish_silent env n (b_done b) s3).
Qed.

(** On the [Stats] that Node gave before 8.1: when the timer of a watcher
    fires and the stat fetched by the batch equals the previous one in
    every field but [atime] and [ctime], the batch stops at the change
    check: every event it emits, on any watcher, is a [log] event, so no
    [update] change event is emitted.  This holds for every bound on the
    depth of nested calls. *)
Lemma same_snapshot_no_update env fuel (s : World) w x b lp sp sc :
  nodes s !! w = Some x ->
  is_Some (listenerTimeout x) ->
  listenerTasks x = Some b ->
  b_previousStat b = RObj lp ->
  stats s !! lp = Some (statsObject sp) ->
  fs_exists env (pathString x) = true ->
  (if followLinks (config x) then fs_stat env else fs_lstat env) (pathString x)
    = inr (statsObject sc) ->
  sameButAccess sp sc ->
  exists evs,
    trace (final_state (exec env fuel (CFireTimeout w) s)) = (trace s ++ evs)%list /\
    Forall (fun ev => isLog (snd ev) = true /\ isUpdate (snd ev) = false) evs.
Proof.
  intros Hw [d Ht] Hb Hprev Hp Hex Hst Hsame.
  destruct fuel as [|n]; [exists []; by rewrite app_nil_r|].
  change (exec env (S n) (CFireTimeout w)) with (fireTimeout env (@exec env n) w).
  unfold fireTimeout. rewrite (bind_Ok _ _ _ _ _ (getW_Ok _ _ _ Hw)), Ht, Hb.
  erewrite (bind_Ok (updW _ _)); [|reflexivity].
  erewrite (bind_Ok (updW _ _)); [|reflexivity].
  match goal with
  | |- context [runBatch _ _ _ _ ?S1] =>
      change (logsOnly s (final_state (runBatch env (@exec env n) w b S1)))
  end.
  eapply runBatch_same;
    [eapply logsOnly_sameTrace; [apply logsOnly_refl|reflexivity]
    | |exact Hprev|exact Hp| | |exact Hsame].
  - simpl. rewrite !list_lookup_alter_eq, Hw. reflexivity.
  - exact Hex.
  - exact Hst.
Qed.

(* ===================================================================== *)
(** * Backend selection and the states *)
(* ===================================================================== *)

(** ** Backend selection *)

Lemma watchMethod_fails env (s : World) w x method err :
  nodes s !! w = Some x -> bindError env (pathString x) method = Some err ->
  watchMethod env w method s = Ok (Some err) s.
Proof.
  intros Hw. unfold bindError, watchMethod. rewrite (bind_Ok _ _ _ _ _ (getW_Ok _ _ _ Hw)).
  destruct (String.eqb method "watch").
  - destruct (negb (fs_has_watch env)); [by intros [= <-]|].
    by intros ->.
  - destruct (String.eqb method "watchFile"); [|by intros [= <-]].
    destruct (negb (fs_has_watchFile env)); [by intros [= <-]|].
    by intros ->.
Qed.

Lemma watchMethod_binds env (s : World) w x method :
  nodes s !! w = Some x -> bindError env (pathString x) method = None ->
  exists s', watchMethod env w method s = Ok None s' /\
             (exists x', nodes s' !! w = Some x' /\ state x' = state x /\ path x' = path x) /\
             length (nodes s') = length (nodes s) /\ trace s' = trace s.
Proof.
  intros Hw. unfold bindError, watchMethod. rewrite (bind_Ok _ _ _ _ _ (getW_Ok _ _ _ Hw)).
  destruct (String.eqb method "watch").
  - destruct (negb (fs_has_watch env)); [done|]. intros ->.
    eexists. split; [reflexivity|]. simpl. rewrite list_lookup_alter_eq, Hw. simpl.
    rewrite length_alter. eauto 10.
  - destruct (String.eqb method "watchFile"); [|done].
    destruct (negb (fs_has_watchFile env)); [done|]. intros ->.
    eexists. split; [reflexivity|]. simpl. eauto 10.
Qed.

Lemma watchSelf_exhausts env (s : World) w x failed errors :
  nodes s !! w = Some x ->
  Forall (fun m => is_Some (bindError env (pathString x) m)) failed ->
  watchSelf env w failed errors s =
    Ok (Some (Error ("no watch methods left to try, failures are: "
                     ++ joinComma (map errorToString
                          (errors ++ omap (bindError env (pathString x)) failed)))))
       s.
Proof.
  intros Hw Hf. revert errors. induction Hf as [|m0 failed [e He] Hf IH]; intros errors.
  - simpl. by rewrite app_nil_r.
  - cbn [watchSelf]. rewrite (bind_Ok _ _ _ _ _ (watchMethod_fails env s w x m0 e Hw He)).
    rewrite IH. simpl omap. rewrite He. simpl. by rewrite <- app_assoc.
Qed.

Lemma watchSelf_selects env (s : World) w x failed m rest errors :
  nodes s !! w = Some x ->
  Forall (fun m => is_Some (bindError env (pathString x) m)) failed ->
  bindError env (pathString x) m = None ->
  exists s', watchSelf env w (failed ++ m :: rest) errors s = Ok None s' /\
             method <$> nodes s' !! w = Some (Some m) /\
             stateOf s' w = Some active.
Proof.
  intros Hw Hf Hm. revert errors. induction Hf as [|m0 failed [e He] Hf IH]; intros errors.
  - simpl app. cbn [watchSelf].
    destruct (watchMethod_binds env s w x m Hw Hm) as (s' & Hs' & (x' & Hw' & _) & _).
    rewrite (bind_Ok _ _ _ _ _ Hs'). eexists. split; [reflexivity|].
    unfold stateOf. simpl. rewrite !list_lookup_alter_eq, Hw'. done.
  - destruct (IH (errors ++ [e])%list) as (s' & Hs' & ?). exists s'. split; [|done].
    simpl app. cbn [watchSelf].
    by rewrite (bind_Ok _ _ _ _ _ (watchMethod_fails env s w x m0 e Hw He)).
Qed.

(** [watchSelf] tries the preferred methods strictly in order, recording
    the error of each that fails to bind and moving to the next.  The first
    method that binds makes the watcher active with that method.  When
    every method has failed it returns one error whose message lists the
    failure of every method in order, and the world is as it was. *)
Lemma watchSelf_in_order env (s : World) w x failed rest errors :
  nodes s !! w = Some x ->
  Forall (fun m => is_Some (bindError env (pathString x) m)) failed ->
  match rest with
  | [] =>
      watchSelf env w failed errors s =
        Ok (Some (Error ("no watch methods left to try, failures are: "
                         ++ joinComma (map errorToString
                              (errors ++ omap (bindError env (pathString x)) failed)))))
           s
  | m :: rest' =>
      bindError env (pathString x) m = None ->
      exists s', watchSelf env w (failed ++ m :: rest') errors s = Ok None s' /\
                 method <$> nodes s' !! w = Some (Some m) /\
                 stateOf s' w = Some active
  end.
Proof.
  intros Hw Hf. destruct rest as [|m rest'].
  - by apply watchSelf_exhausts.
  - intros Hm. by apply (watchSelf_selects env s w x).
Qed.

(** ** [close] acts on active watchers only *)

Lemma close_inactive env fuel (s : World) w x reason :
  nodes s !! w = Some x -> state x <> active ->
  exec env (S fuel) (CClose w reason) s = Ok tt s.
Proof.
  intros Hw Hs. change (exec env (S fuel) (CClose w reason)) with (close (@exec env fuel) w reason).
  unfold close. rewrite (bind_Ok _ _ _ _ _ (getW_Ok _ _ _ Hw)).
  by destruct (state x).
Qed.

(* ===================================================================== *)
(** * The registry *)
(* ===================================================================== *)

Global Instance sameWatchers_preorder : PreOrder sameWatchers.
Proof.
  split.
  - intros s. by repeat split.
  - intros s1 s2 s3 (?&?&?&?) (?&?&?&?). repeat split; congruence.
Qed.

Lemma sameWatchers_quiet e s s' : quietStep e s s' -> sameWatchers s s'.
Proof.
  intros [C _ _ H P _]. repeat split; try done.
  - apply (f_equal length) in C. by rewrite !length_map in C.
  - apply (f_equal (map (fun c : _ * _ * _ * State * _ * _ * _ * _ => c.1.1.1.1.2))) in C.
    rewrite !map_map in C. exact C.
Qed.

Lemma sameWatchers_nodes s f w :
  (forall x, state (f x) = state x) ->
  sameWatchers s (set_nodes (alter f w (nodes s)) s).
Proof.
  intros H. repeat split; simpl; try done.
  - by rewrite length_alter.
  - by apply map_alter_same.
Qed.

Lemma emit_sameWatchers env fuel w e :
  isChange e = false -> preserves sameWatchers (exec env fuel (CEmit w e)).
Proof. intros He s. apply (sameWatchers_quiet e), emit_quiet, He. Qed.

Lemma addListener_sameWatchers env fuel w ev h mode :
  preserves sameWatchers (addListener (@exec env fuel) w ev h mode).
Proof.
  unfold addListener.
  apply preserves_bind; [apply _| |intros _].
  { apply preserves_modify. intros s. by apply sameWatchers_nodes. }
  apply preserves_bind; [apply _| |intros _].
  { destruct (String.eqb mode "on"); [|destruct (String.eqb mode "once")].
    - apply preserves_modify. intros s. by apply sameWatchers_nodes.
    - apply preserves_modify. intros s. by apply sameWatchers_nodes.
    - apply preserves_throw; apply _. }
  apply preserves_bind; [apply _|apply preserves_getW; apply _|intros x].
  by apply emit_sameWatchers.
Qed.

Lemma setConfig_sameWatchers env fuel w opts :
  preserves sameWatchers (setConfig (@exec env fuel) w opts).
Proof.
  unfold setConfig, addMap.
  apply preserves_bind; [apply _| |intros _].
  { apply preserves_modify. intros s. by apply sameWatchers_nodes. }
  apply preserves_bind; [apply _| |intros _].
  { apply preserves_modify. intros s. by apply sameWatchers_nodes. }
  apply preserves_bind; [apply _| |intros _].
  { apply preserves_when; [apply _|]. apply preserves_modify. intros s.
    by apply sameWatchers_nodes. }
  apply preserves_bind; [apply _| |intros _].
  - apply preserves_forEach; [apply _|]. intros entry.
    apply preserves_forEach; [apply _|]. intros h. apply addListener_sameWatchers.
  - apply preserves_forEach; [apply _|]. intros entry.
    apply preserves_forEach; [apply _|]. intros h. apply addListener_sameWatchers.
Qed.

Lemma watch_active_sameWatchers env fuel (s : World) w :
  stateOf s w = Some active ->
  sameWatchers s (final_state (exec env fuel (CWatch w false) s)).
Proof.
  intros Ha. destruct fuel as [|n]; [reflexivity|].
  change (exec env (S n) (CWatch w false)) with (watch env (@exec env n) w false).
  unfold stateOf in Ha. destruct (nodes s !! w) as [x|] eqn:Hw; [|done].
  simpl in Ha. injection Ha as Ha.
  unfold watch. rewrite (bind_Ok _ _ _ _ _ (getW_Ok _ _ _ Hw)), Ha. cbn [isActive negb andb].
  apply (preserves_bind sameWatchers).
  - by apply emit_sameWatchers.
  - intros _. apply preserves_ret; apply _.
Qed.

Lemma returned_bind {S A B} (m : M S A) (k : A -> M S B) s b :
  returned (bind m k s) = Some b ->
  exists a s', m s = Ok a s' /\ returned (k a s') = Some b.
Proof. unfold bind. destruct (m s) as [a s'|e s'|s']; [eauto|done..]. Qed.

(** ** Watchers whose listeners are the caller's *)

Lemma forEach_user env n e (ls : list (string * bool * handler)) (s : World) :
  Forall (fun l => exists tag, snd l = HUser tag) ls ->
  forEach ls (fun l => runHandler (@exec env n) (snd l) e) s = Ok tt s.
Proof.
  induction 1 as [|l ls [tag Hl] _ IH]; [done|].
  simpl. unfold bind at 1. rewrite Hl. simpl. exact IH.
Qed.

Lemma callerOnly_filter ev x (f : string * bool * handler -> bool) x' :
  listeners x' = List.filter f (listeners x) -> callerOnly ev x -> callerOnly ev x'.
Proof.
  unfold callerOnly. intros -> H. induction H as [|l ls Hl _ IH]; simpl; [constructor|].
  destruct (f l); [constructor|]; done.
Qed.

Lemma emit_callerOnly env n (s : World) w x e :
  nodes s !! w = Some x -> callerOnly (eventName e) x -> unhandled e x = None ->
  exists s' x', exec env (S n) (CEmit w e) s = Ok tt s' /\
                trace s' = (trace s ++ [(w, e)])%list /\
                stats s' = stats s /\
                nodes s' !! w = Some x' /\ core x' = core x /\
                (forall ev, callerOnly ev x -> callerOnly ev x').
Proof.
  intros Hw Hc Hu. change (exec env (S n) (CEmit w e)) with (emit (@exec env n) w e).
  unfold emit. rewrite (bind_Ok _ _ _ _ _ (getW_Ok _ _ _ Hw)), Hu.
  erewrite (bind_Ok (modify _)); [|reflexivity].
  erewrite (bind_Ok (updW _ _)); [|reflexivity].
  rewrite forEach_user.
  - eexists _, _. split; [reflexivity|]. simpl. rewrite list_lookup_alter_eq, Hw. simpl.
    repeat split; try reflexivity.
    intros ev. by eapply callerOnly_filter.
  - unfold callerOnly in Hc. induction Hc as [|l ls Hl _ IH]; simpl; [constructor|].
    destruct (String.eqb (fst (fst l)) (eventName e)) eqn:E; [|exact IH].
    constructor; [by apply Hl|exact IH].
Qed.

Lemma setConfig_plain env n (s : World) opts w x :
  o_once opts = [] -> o_on opts = [] -> nodes s !! w = Some x ->
  exists s' x', setConfig (@exec env n) w opts s = Ok tt s' /\
                nodes s' !! w = Some x' /\ state x' = state x /\
                listeners x' = listeners x.
Proof.
  intros Honce Hon Hw. unfold setConfig, addMap. rewrite Honce, Hon.
  destruct (hasRef (o_stat opts)).
  - eexists _, _. split; [reflexivity|]. simpl.
    rewrite !list_lookup_alter_eq, Hw. simpl. done.
  - eexists _, _. split; [reflexivity|]. simpl.
    rewrite !list_lookup_alter_eq, Hw. simpl. done.
Qed.

Lemma factory_returns_entry env n (s : World) opts w x :
  watchers s !! o_path opts = Some (Some w) ->
  nodes s !! w = Some x -> state x = active ->
  o_once opts = [] -> o_on opts = [] ->
  callerOnly "watching" x ->
  exists s', exec env (S (S (S n))) (CStaticWatch opts) s = Ok (w, None) s'.
Proof.
  intros Hreg Hw Ha Honce Hon Hc.
  change (exec env (S (S (S n))) (CStaticWatch opts))
    with (Watcher_watch (@exec env (S (S n))) opts).
  unfold Watcher_watch. change (bind get ?k s) with (k s s). cbv beta. rewrite Hreg.
  destruct (setConfig_plain env (S (S n)) s opts w x Honce Hon Hw)
    as (s1 & x1 & Hs1 & Hw1 & Hst1 & Hl1).
  rewrite (bind_Ok _ _ _ _ _ Hs1).
  destruct (emit_callerOnly env n s1 w x1 (EWatching None) Hw1) as (s2 & _ & Hs2 & _);
    [|reflexivity|].
  { unfold callerOnly. by rewrite Hl1. }
  assert (exec env (S (S n)) (CWatch w false) s1 = Ok None s2) as Hwatch.
  { change (exec env (S (S n)) (CWatch w false)) with (watch env (@exec env (S n)) w false).
    unfold watch. rewrite (bind_Ok _ _ _ _ _ (getW_Ok _ _ _ Hw1)), Hst1, Ha.
    cbn [isActive negb andb]. by rewrite (bind_Ok _ _ _ _ _ Hs2). }
  rewrite (bind_Ok _ _ _ _ _ Hwatch). eauto.
Qed.

Lemma core_fields x x' :
  core x' = core x ->
  path x' = path x /\ stat x' = stat x /\ state x' = state x /\ config x' = config x.
Proof. unfold core. intros [= -> -> _ -> _ _ _ ->]. done. Qed.

(** While the registry holds a watcher for a path, a call of the factory
    with that path returns that watcher, if it returns.  When the watcher
    is active the call constructs no watcher, binds and releases no backend
    and changes no state; with options that carry no listeners, on a
    watcher whose [watching] listeners are the caller's, it returns with
    the watcher and no error. *)
Lemma factory_reuses_entry env fuel (s : World) opts w :
  watchers s !! o_path opts = Some (Some w) ->
  (forall a, returned (exec env fuel (CStaticWatch opts) s) = Some a -> fst a = w) /\
  (stateOf s w = Some active ->
   sameWatchers s (final_state (exec env fuel (CStaticWatch opts) s))) /\
  (forall x, nodes s !! w = Some x -> state x = active ->
             o_once opts = [] -> o_on opts = [] -> callerOnly "watching" x ->
             (3 <= fuel)%nat ->
             returned (exec env fuel (CStaticWatch opts) s) = Some (w, None)).
Proof.
  intros Hreg. split; [|split].
  - destruct fuel as [|n]; [done|].
    change (exec env (S n) (CStaticWatch opts)) with (Watcher_watch (@exec env n) opts).
    unfold Watcher_watch. change (bind get ?k s) with (k s s). cbv beta. rewrite Hreg.
    intros a Ha.
    apply returned_bind in Ha as (_ & s1 & _ & Ha).
    apply returned_bind in Ha as (err & s2 & _ & Ha).
    simpl in Ha. by injection Ha as <-.
  - destruct fuel as [|n]; [reflexivity|].
    change (exec env (S n) (CStaticWatch opts)) with (Watcher_watch (@exec env n) opts).
    unfold Watcher_watch. change (bind get ?k s) with (k s s). cbv beta. rewrite Hreg.
    intros Hact. rewrite final_bind.
    pose proof (setConfig_sameWatchers env n w opts s) as H1.
    destruct (setConfig _ w opts s) as [[] s1|e s1|s1]; simpl in H1; [|done..].
    rewrite final_bind.
    assert (stateOf s1 w = Some active) as Hact1.
    { destruct H1 as (_ & _ & _ & Hst). unfold stateOf in *.
      rewrite <- list_lookup_fmap. rewrite <- list_lookup_fmap in Hact.
      change (fmap state (nodes s1)) with (map state (nodes s1)).
      by rewrite Hst. }
    pose proof (watch_active_sameWatchers env n s1 w Hact1) as H2.
    destruct (exec env n (CWatch w false) s1) as [err s2|e s2|s2]; simpl in *;
      by etrans.
  - intros x Hw Ha Honce Hon Hc Hfuel.
    destruct fuel as [|[|[|n]]]; [lia..|].
    destruct (factory_returns_entry env n s opts w x Hreg Hw Ha Honce Hon Hc) as [s' ->].
    done.
Qed.

(* ===================================================================== *)
(** * Runs on the example file systems *)
(* ===================================================================== *)

(** A watcher that has closed is no longer registered: the directory [/d]
    holds a link to nowhere, so the activation of the first call ends in
    [close('child failure')], which clears the registry entry; the second
    call, with nothing in between, constructs and returns another
    watcher. *)
Lemma factory_builds_second_node :
  fst <$> returned (exec envBroken fuel0 (CStaticWatch (userOpts "/d")) emptyWorld)
    = Some 0%nat /\
  watchers (after envBroken (CStaticWatch (userOpts "/d")) emptyWorld) !! "/d"
    = Some None /\
  fst <$> returned (exec envBroken fuel0 (CStaticWatch (userOpts "/d"))
                      (after envBroken (CStaticWatch (userOpts "/d")) emptyWorld))
    = Some 2%nat.
Proof. vm_compute. done. Qed.

(** C2: [/f] is watched on Node 8.1 or later and a notification arrives;
    the file is read, so that its access and change times move and nothing
    else.  When the timer fires the batch does not stop at the change
    check: it emits the [update] change event. *)
Theorem access_alone_reports_update :
  sameButAccess (fileStats 1 1 1 10) (fileStats 9 9 1 10) /\
  stat <$> nodes worldFileMsNotified !! 0%nat = Some (RObj 0) /\
  stats worldFileMsNotified !! 0%nat = Some (statsObjectMs (fileStats 1 1 1 10)) /\
  stats (after (envFileMs (fileStats 9 9 1 10)) (CFireTimeout 0%nat) worldFileMsNotified)
    !! 1%nat = Some (statsObjectMs (fileStats 9 9 1 10)) /\
  eventsSince (length (trace worldFileMsNotified))
    (after (envFileMs (fileStats 9 9 1 10)) (CFireTimeout 0%nat) worldFileMsNotified)
  = [ (0%nat, ELog "debug" "watch evaluating on: /f");
      (0%nat, ELog "debug" "watch determined update: /f");
      (0%nat, EChange "update" "/f" (RObj 1) (RObj 0)) ].
Proof. unfold sameButAccess. split_and!; vm_compute; reflexivity. Qed.

(** C3: [/f] is watched, a notification arrives, and another file is put
    at the path before the timer fires.  The batch starts the watcher
    again: its [close] clears the registry entry and [watchSelf] makes the
    same watcher active, so an active watcher of [/f] is not registered.
    The next call of the factory for [/f] constructs and binds a second
    watcher: two active watchers and two open handles for one path. *)
Theorem restarted_watcher_is_duplicated :
  stateOf worldFileReplaced 0 = Some active /\
  watchers worldFileReplaced !! "/f" = Some None /\
  handles worldFileReplaced = [("/f", false); ("/f", true)] /\
  returned (exec (envFile otherFileStats) fuel0 (CStaticWatch (userOpts "/f"))
              worldFileReplaced) = Some (1%nat, None) /\
  path <$> nodes (after (envFile otherFileStats) (CStaticWatch (userOpts "/f"))
                    worldFileReplaced) !! 0%nat = Some (Some "/f") /\
  path <$> nodes (after (envFile otherFileStats) (CStaticWatch (userOpts "/f"))
                    worldFileReplaced) !! 1%nat = Some (Some "/f") /\
  stateOf (after (envFile otherFileStats) (CStaticWatch (userOpts "/f"))
             worldFileReplaced) 0 = Some active /\
  stateOf (after (envFile otherFileStats) (CStaticWatch (userOpts "/f"))
             worldFileReplaced) 1 = Some active /\
  handles (after (envFile otherFileStats) (CStaticWatch (userOpts "/f")) worldFileReplaced)
    = [("/f", false); ("/f", true); ("/f", true)].
Proof. split_and!; vm_compute; reflexivity. Qed.


(** C6, counterexample: both methods fail to bind; the factory call reports
    the aggregated error and the watcher is still pending, not closed. *)
Lemma exhausted_watcher_stays_pending :
  returned (exec envNoBind fuel0 (CStaticWatch (userOpts "/f")) emptyWorld)
    = Some (0%nat, Some (Error
        "no watch methods left to try, failures are: Error: EMFILE,Error: ENOSYS")) /\
  stateOf (after envNoBind (CStaticWatch (userOpts "/f")) emptyWorld) 0 = Some pending.
Proof. vm_compute. done. Qed.

(** C5: a notification arrived, then the watcher was closed.  [close] left
    the timer and the batch in place; when the timer fires the batch runs,
    refreshes the stat and emits two [log] events and an [update] change
    event on the closed watcher. *)
Lemma closed_watcher_still_reports :
  stateOf worldFileClosed 0 = Some closed /\
  listenerTimeout <$> nodes worldFileClosed !! 0%nat = Some (Some 2000) /\
  eventsSince (length (trace worldFileClosed))
    (after (envFile (fileStats 2 2 2 20)) (CFireTimeout 0%nat) worldFileClosed)
  = [ (0%nat, ELog "debug" "watch evaluating on: /f");
      (0%nat, ELog "debug" "watch determined update: /f");
      (0%nat, EChange "update" "/f" (RObj 1) (RObj 0)) ].
Proof. vm_compute. done. Qed.

(** C7: the batch of the directory [/d] finds the path absent.  The watcher
    becomes [deleted], emits the delete change event with the previous stat
    and then [close], and the later phases do not run; its child [a],
    however, is still active and still in the children map, because
    [close] looked the child up under the child itself, not its name. *)
Lemma vanished_directory_keeps_child :
  stateOf (after envGone (CFireTimeout 0%nat) worldDirNotified) 0 = Some deleted /\
  stateOf (after envGone (CFireTimeout 0%nat) worldDirNotified) 1 = Some active /\
  children <$> nodes (after envGone (CFireTimeout 0%nat) worldDirNotified) !! 0%nat
    = Some [("a", Child 1)] /\
  eventsSince (length (trace worldDirNotified))
    (after envGone (CFireTimeout 0%nat) worldDirNotified)
  = [ (0%nat, ELog "debug" "watch evaluating on: /d");
      (0%nat, ELog "debug" "watch determined delete: /d");
      (0%nat, ELog "debug" "close: /d");
      (0%nat, EChange "delete" "/d" RNull (RObj 0));
      (0%nat, EClose (Some "deleted")) ].
Proof. vm_compute. done. Qed.

(** C8: [close('deleted')] on the active directory [/d] sets the state to
    [deleted], releases its own handle and emits the delete change event
    followed by [close]; the child [a] is not closed: it stays active with
    its handle open. *)
Lemma close_deleted_keeps_child :
  stateOf worldDir 0 = Some active /\ stateOf worldDir 1 = Some active /\
  stateOf (after envDir (CClose 0%nat (Some "deleted")) worldDir) 0 = Some deleted /\
  stateOf (after envDir (CClose 0%nat (Some "deleted")) worldDir) 1 = Some active /\
  handles (after envDir (CClose 0%nat (Some "deleted")) worldDir)
    = [("/d", false); ("/d/a", true)] /\
  eventsSince (length (trace worldDir)) (after envDir (CClose 0%nat (Some "deleted")) worldDir)
  = [ (0%nat, ELog "debug" "close: /d");
      (0%nat, EChange "delete" "/d" RNull (RObj 0));
      (0%nat, EClose (Some "deleted")) ].
Proof. vm_compute. done. Qed.

(** C9: [closeChild] on a name whose slot holds the reservation [false]
    does not skip: the guard [if ( watchr )] tests the parent, so the call
    reaches [watcher.close] on [false] and a [TypeError] is thrown.  The
    slot is left by a creation scan that skipped an ignored file; the same
    exception ends the batch whose deletion scan later meets the slot. *)
Lemma closeChild_reserved_throws :
  children <$> nodes worldReserved !! 0%nat = Some [("x", Reserved)] /\
  thrown (exec envIgnoredChild fuel0 (CCloseChild 0%nat "x" (Some "deleted")) worldReserved)
    = Some (TypeError "watcher.close is not a function") /\
  thrown (exec envUnignored fuel0 (CFireTimeout 0%nat)
            (after envUnignored (CListener 0%nat (Some "watch") None) worldReserved))
    = Some (TypeError "watcher.close is not a function").
Proof. vm_compute. done. Qed.

(* ===================================================================== *)
(** * Further properties of the watcher *)
(* ===================================================================== *)

Global Instance windsDownState_preorder : PreOrder windsDownState.
Proof.
  split.
  - intros a. by split.
  - intros a b c [H1 H2] [H3 H4]. split; auto.
Qed.

Global Instance windsDownNode_preorder : PreOrder windsDownNode.
Proof.
  split.
  - intros x. unfold windsDownNode. repeat split; auto; reflexivity.
  - intros x y z (? & ? & ? & ? & ? & ? & Hs1 & Hf1) (? & ? & ? & ? & ? & ? & Hs2 & Hf2).
    unfold windsDownNode. repeat split; try congruence.
    + destruct Hs1, Hs2. auto.
    + destruct Hs1, Hs2. auto.
    + destruct Hf2 as [-> | ->]; auto.
Qed.

Global Instance windsDownHandle_preorder : PreOrder windsDownHandle.
Proof.
  split.
  - intros h. by split.
  - intros a b c [H1 H2] [H3 H4]. split; [congruence|auto].
Qed.

Global Instance windsDown_preorder : PreOrder windsDown.
Proof.
  split.
  - intros s. unfold windsDown. repeat split; try reflexivity.
    exists []. by rewrite app_nil_r.
  - intros a b c (N1 & S1 & G1 & H1 & P1 & [e1 T1]) (N2 & S2 & G2 & H2 & P2 & [e2 T2]).
    unfold windsDown. repeat split; try congruence; try (by etrans).
    exists (e1 ++ e2)%list. by rewrite T2, T1, app_assoc.
Qed.

Lemma Forall2_alter_same {A} (R : relation A) `{!Reflexive R} (f : A -> A) w (l : list A) :
  (forall x, R x (f x)) -> Forall2 R l (alter f w l).
Proof.
  intros H. revert w. induction l as [|a l IH]; intros [|w]; simpl.
  - constructor.
  - constructor.
  - constructor; [apply H|]. clear IH. induction l; constructor; [reflexivity|auto].
  - constructor; [reflexivity|apply IH].
Qed.

Lemma windsDown_nodes s f w :
  (forall x, windsDownNode x (f x)) -> windsDown s (set_nodes (alter f w (nodes s)) s).
Proof.
  intros H. unfold windsDown. simpl. repeat split; try reflexivity.
  - by apply Forall2_alter_same; [apply _|].
  - exists []. by rewrite app_nil_r.
Qed.

Lemma windsDownNode_state x st :
  st <> active -> st <> pending -> windsDownNode x (set_state st x).
Proof. intros. unfold windsDownNode, windsDownState. simpl. repeat split; auto; done. Qed.

Lemma teardown_windsDown env fuel :
  (forall w e, preserves windsDown (exec env fuel (CEmit w e))) /\
  (forall w reason, preserves windsDown (exec env fuel (CClose w reason))) /\
  (forall w name reason, preserves windsDown (exec env fuel (CCloseChild w name reason))).
Proof.
  induction fuel as [|n (IHe & IHc & IHcc)].
  { split; [|split]; intros; intros s0; change (windsDown s0 s0); reflexivity. }
  split; [|split].
  - intros w e.
    change (exec env (S n) (CEmit w e)) with (emit (@exec env n) w e).
    unfold emit. apply preserves_bind; [apply _|apply preserves_getW; apply _|]. intros x.
    destruct (unhandled e x); [apply preserves_throw; apply _|].
    apply preserves_bind; [apply _| |intros _].
    { apply preserves_modify. intros s. unfold windsDown. simpl.
      repeat split; try reflexivity. eauto. }
    apply preserves_bind; [apply _| |intros _].
    { apply preserves_modify. intros s. apply windsDown_nodes. intros y.
      unfold windsDownNode. simpl. repeat split; auto; reflexivity. }
    apply preserves_forEach; [apply _|]. intros [[ev once] h]. simpl snd.
    destruct h as [p|parent rel|parent|parent rel full|tag]; simpl.
    + apply preserves_modify. intros s. unfold windsDown. simpl.
      repeat split; try reflexivity. exists []. by rewrite app_nil_r.
    + apply preserves_modify. intros s. apply windsDown_nodes. intros y.
      unfold windsDownNode. simpl. repeat split; auto; reflexivity.
    + apply IHe.
    + destruct e; try (apply preserves_ret; apply _).
      apply preserves_bind; [apply _| |intros _; apply IHe].
      apply preserves_when; [apply _|]. apply IHcc.
    + apply preserves_ret; apply _.
  - intros w reason.
    change (exec env (S n) (CClose w reason)) with (close (@exec env n) w reason).
    unfold close. apply preserves_bind; [apply _|apply preserves_getW; apply _|]. intros x.
    destruct (negb (isActive (state x))); [apply preserves_ret; apply _|].
    apply preserves_bind; [apply _|apply IHe|intros _].
    apply preserves_bind; [apply _| |intros _].
    { apply preserves_forEach; [apply _|]. intros entry.
      apply preserves_bind; [apply _|apply preserves_getW; apply _|]. intros x'.
      destruct (lookupChild _ _); [apply IHcc|apply preserves_ret; apply _]. }
    apply preserves_bind; [apply _|apply preserves_getW; apply _|]. intros x1.
    apply preserves_bind; [apply _| |intros _].
    { apply preserves_when; [apply _|]. apply preserves_modify. intros s.
      unfold windsDown. simpl. repeat split; try reflexivity.
      - apply List.filter_length_le.
      - exists []. by rewrite app_nil_r. }
    apply preserves_bind; [apply _| |intros _].
    { destruct (fswatcher x1) as [h|]; [|apply preserves_ret; apply _].
      apply preserves_bind; [apply _| |intros _].
      - apply preserves_modify. intros s. unfold windsDown. simpl.
        repeat split; try reflexivity.
        + apply Forall2_alter_same; [apply _|]. intros [p o]. by split.
        + exists []. by rewrite app_nil_r.
      - apply preserves_modify. intros s. apply windsDown_nodes. intros y.
        unfold windsDownNode. simpl. repeat split; auto; reflexivity. }
    apply preserves_bind; [apply _| |intros _; apply IHe].
    assert (forall st, st <> active -> st <> pending ->
              preserves windsDown (updW w (set_state st))) as Hst.
    { intros st ? ?. apply preserves_modify. intros s. apply windsDown_nodes.
      intros y. by apply windsDownNode_state. }
    repeat match goal with
           | |- preserves _ (match ?r with _ => _ end) => destruct r
           end;
      first [ by apply Hst
            | apply preserves_bind; [apply _|by apply Hst|intros _];
              apply preserves_bind; [apply _|apply preserves_getW; apply _|intros y];
              apply IHe ].
  - intros w name reason.
    change (exec env (S n) (CCloseChild w name reason))
      with (closeChild (@exec env n) w name reason).
    unfold closeChild. apply preserves_bind; [apply _|apply preserves_getW; apply _|]. intros x.
    destruct (lookupChild _ _) as [[|c]|]; [apply preserves_throw; apply _|apply IHc|apply preserves_ret; apply _].
Qed.

Lemma watchMethod_outcome env (s : World) w x method :
  nodes s !! w = Some x ->
  exists r s', watchMethod env w method s = Ok r s' /\
    match r with
    | Some err => s' = s /\ bindError env (pathString x) method = Some err
    | None => bindings s' = S (bindings s) /\ bindError env (pathString x) method = None /\
              trace s' = trace s /\ stats s' = stats s /\
              exists x', nodes s' !! w = Some x' /\ state x' = state x /\ path x' = path x
    end.
Proof.
  intros Hw. destruct (bindError env (pathString x) method) as [err|] eqn:Hb.
  - exists (Some err), s. split; [by apply (watchMethod_fails env s w x)|done].
  - unfold bindError in Hb. unfold watchMethod.
    rewrite (bind_Ok _ _ _ _ _ (getW_Ok _ _ _ Hw)).
    destruct (String.eqb method "watch").
    + destruct (negb (fs_has_watch env)); [done|]. rewrite Hb.
      eexists None, _. split; [reflexivity|]. unfold bindings. simpl.
      rewrite length_app, list_lookup_alter_eq, Hw. simpl.
      repeat split; [lia|eauto].
    + destruct (String.eqb method "watchFile"); [|done].
      destruct (negb (fs_has_watchFile env)); [done|]. rewrite Hb.
      eexists None, _. split; [reflexivity|]. unfold bindings. simpl.
      rewrite length_app. simpl. repeat split; [lia|eauto].
Qed.

(** X5: [watchSelf] always returns.  When it fails the world is as it was,
    so a method that failed to bind leaves nothing behind; when it succeeds
    exactly one backend has been bound, the watcher is active and its method
    is one of the preferred methods that binds. *)
Theorem watchSelf_binds_once env (s : World) w x methods errors :
  nodes s !! w = Some x ->
  exists r s', watchSelf env w methods errors s = Ok r s' /\
    match r with
    | Some _ => s' = s
    | None =>
        bindings s' = S (bindings s) /\ stateOf s' w = Some active /\
        exists m, m ∈ methods /\ bindError env (pathString x) m = None /\
                  method <$> nodes s' !! w = Some (Some m)
    end.
Proof.
  intros Hw. revert errors. induction methods as [|m methods IH]; intros errors.
  - eexists (Some _), s. split; [reflexivity|done].
  - cbn [watchSelf].
    destruct (watchMethod_outcome env s w x m Hw) as (r & s1 & Hm & Hr).
    rewrite (bind_Ok _ _ _ _ _ Hm). destruct r as [err|].
    + destruct Hr as [-> _].
      destruct (IH (errors ++ [err])%list) as (r & s' & Hs & Hr').
      exists r, s'. split; [done|]. destruct r; [done|].
      destruct Hr' as (? & ? & m' & ? & ? & ?). repeat split; try done.
      exists m'. split; [by right|done].
    + destruct Hr as (Hb & Hbe & _ & _ & x' & Hw' & _ & _).
      eexists None, _. split; [reflexivity|]. unfold stateOf, bindings in *. simpl.
      rewrite !list_lookup_alter_eq, Hw'. simpl. repeat split; [done|].
      exists m. split; [by left|done].
Qed.

(** X6: the [action] of [watchChildren] skips every entry, without error
    and without watching anything, once the watcher is not active. *)
Theorem scanEntries_inactive env n (s : World) w x entries :
  nodes s !! w = Some x -> state x <> active ->
  scanEntries (@exec env n) w entries s = Ok None s.
Proof.
  intros Hw Hs. induction entries as [|[full rel] entries IH]; [done|].
  cbn [scanEntries]. rewrite (bind_Ok _ _ _ _ _ (getW_Ok _ _ _ Hw)).
  assert (isActive (state x) = false) as -> by (by destruct (state x)).
  exact IH.
Qed.

Lemma quiet_core e s s' w x :
  quietStep e s s' -> nodes s !! w = Some x ->
  exists x', nodes s' !! w = Some x' /\ core x' = core x.
Proof. apply quiet_lookup. Qed.

(** X7: a raw notification only restarts the timer with the configured
    [catchupDelay] and joins the pending batch, or opens one that captures
    the current stat and the method: state and stat stay, only [log] events
    are emitted, and the call returns when the [log] listeners are the
    caller's. *)
Theorem listener_debounces env n (s : World) w x optsMethod next :
  nodes s !! w = Some x ->
  (callerOnly "log" x -> is_Some (returned (exec env (S (S n)) (CListener w optsMethod next) s))) /\
  (forall fuel s', exec env fuel (CListener w optsMethod next) s = Ok tt s' ->
     exists x', nodes s' !! w = Some x' /\
       listenerTimeout x' = Some (catchupDelay (config x)) /\
       listenerTasks x' = Some (batchAfter w x optsMethod next) /\
       state x' = state x /\ stat x' = stat x /\
       Forall (fun ev => isLog (snd ev) = true) (drop (length (trace s)) (trace s'))).
Proof.
  intros Hw. split.
  - intros Hc.
    change (exec env (S (S n)) (CListener w optsMethod next))
      with (listener (@exec env (S n)) w optsMethod next).
    unfold listener. rewrite (bind_Ok _ _ _ _ _ (getW_Ok _ _ _ Hw)).
    destruct (emit_callerOnly env n s w x (ELog "debug" ("watch fired on: " ++ pathString x))
                Hw Hc eq_refl) as (s1 & x1 & Hs1 & _ & _ & Hw1 & _ & _).
    unfold log. rewrite (bind_Ok _ _ _ _ _ Hs1), (bind_Ok _ _ _ _ _ (getW_Ok _ _ _ Hw1)).
    erewrite (bind_Ok (updW _ _)); [|reflexivity].
    destruct (listenerTasks x1); eexists; reflexivity.
  - intros [|fuel] s'; [done|].
    change (exec env (S fuel) (CListener w optsMethod next))
      with (listener (@exec env fuel) w optsMethod next).
    unfold listener. rewrite (bind_Ok _ _ _ _ _ (getW_Ok _ _ _ Hw)).
    unfold log.
    pose proof (emit_quiet env fuel w (ELog "debug" ("watch fired on: " ++ pathString x))
                  eq_refl s) as Q.
    unfold bind at 1.
    destruct (exec env fuel (CEmit w _) s) as [[] s1|e s1|s1]; [|done..]. simpl in Q.
    destruct (quiet_lookup _ _ _ _ _ Q Hw) as (x1 & Hw1 & C1).
    destruct (core_fields _ _ C1) as (Hp & Hst & Hsta & Hcfg).
    assert (listenerTasks x1 = listenerTasks x) as Hlt.
    { unfold core in C1. by injection C1. }
    assert (method x1 = method x) as Hme.
    { unfold core in C1. by injection C1. }
    rewrite (bind_Ok _ _ _ _ _ (getW_Ok _ _ _ Hw1)).
    erewrite (bind_Ok (updW _ _)); [|reflexivity].
    assert (Forall (fun ev : nat * event => isLog (snd ev) = true)
              (drop (length (trace s)) (trace s1))) as Hlogs.
    { destruct Q as [_ _ _ _ _ [ws ->]]. rewrite drop_app_length.
      apply Forall_forall. intros ev Hin.
      apply list_elem_of_In, in_map_iff in Hin as (w' & <- & _). done. }
    unfold batchAfter. rewrite Hcfg, Hlt.
    destruct (listenerTasks x) as [b|]; intros [= <-]; simpl;
      rewrite !list_lookup_alter_eq, Hw1; simpl;
      eexists; (split; [reflexivity|]); simpl; repeat split; auto.
Qed.

Lemma emit_exact env n (s : World) w x e :
  nodes s !! w = Some x -> callerOnly (eventName e) x -> unhandled e x = None ->
  exec env (S n) (CEmit w e) s = Ok tt (emitted w e s).
Proof.
  intros Hw Hc Hu. change (exec env (S n) (CEmit w e)) with (emit (@exec env n) w e).
  unfold emit. rewrite (bind_Ok _ _ _ _ _ (getW_Ok _ _ _ Hw)), Hu.
  erewrite (bind_Ok (modify _)); [|reflexivity].
  erewrite (bind_Ok (updW _ _)); [|reflexivity].
  rewrite forEach_user; [reflexivity|].
  unfold callerOnly in Hc. induction Hc as [|l ls Hl _ IH]; simpl; [constructor|].
  destruct (String.eqb (fst (fst l)) (eventName e)) eqn:E; [|exact IH].
  constructor; [by apply Hl|exact IH].
Qed.

Lemma emitted_lookup (s : World) w x e :
  nodes s !! w = Some x ->
  nodes (emitted w e s) !! w = Some (set_listeners (withoutOnce (eventName e) (listeners x)) x).
Proof. intros Hw. unfold emitted. simpl. by rewrite list_lookup_alter_eq, Hw. Qed.

Lemma callerOnly_withoutOnce ev ev' x :
  callerOnly ev x -> callerOnly ev (set_listeners (withoutOnce ev' (listeners x)) x).
Proof. intros H. eapply callerOnly_filter; [|exact H]. reflexivity. Qed.

Lemma log_exact env n (s : World) w x level message :
  nodes s !! w = Some x -> callerOnly "log" x ->
  log (@exec env (S n)) w level message s = Ok tt (emitted w (ELog level message) s).
Proof. intros Hw Hc. unfold log. by apply (emit_exact env n s w x). Qed.

Lemma emitted_core (s : World) w e :
  map core (nodes (emitted w e s)) = map core (nodes s).
Proof. unfold emitted. simpl. by apply map_alter_same. Qed.

(** X8: [watch()] on an active watcher, without [reset], only emits
    [watching] with no error: no stat, binding, registry entry or field of
    a watcher changes. *)
Theorem watch_again_only_reports env n (s : World) w x :
  nodes s !! w = Some x -> state x = active -> callerOnly "watching" x ->
  exists s', exec env (S (S n)) (CWatch w false) s = Ok None s' /\
             trace s' = (trace s ++ [(w, EWatching None)])%list /\
             map core (nodes s') = map core (nodes s) /\
             map children (nodes s') = map children (nodes s) /\
             stats s' = stats s /\ handles s' = handles s /\ polls s' = polls s /\
             watchers s' = watchers s.
Proof.
  intros Hw Ha Hc. exists (emitted w (EWatching None) s). split.
  - change (exec env (S (S n)) (CWatch w false)) with (watch env (@exec env (S n)) w false).
    unfold watch. rewrite (bind_Ok _ _ _ _ _ (getW_Ok _ _ _ Hw)), Ha. cbn [isActive negb andb].
    by rewrite (bind_Ok _ _ _ _ _ (emit_exact env n s w x (EWatching None) Hw Hc eq_refl)).
  - repeat split; try reflexivity.
    + apply emitted_core.
    + unfold emitted. simpl. by apply map_alter_same.
Qed.

Lemma finish_none env n done (s : World) :
  defaultCallbacks done -> finish (@exec env (S n)) done None s = Ok tt s.
Proof.
  unfold finish. induction 1 as [|d ds [w' ->] _ IH]; [reflexivity|].
  simpl forEach. erewrite bind_Ok; [|reflexivity]. exact IH.
Qed.

Lemma objectIsDirectory_stats st :
  objectIsDirectory (statsObject st)
  = Some (match st_kind st with KDirectory => true | _ => false end).
Proof. reflexivity. Qed.

Lemma isDirectory_Ok (s : World) w x l st :
  nodes s !! w = Some x -> stat x = RObj l -> stats s !! l = Some (statsObject st) ->
  isDirectory w s = Ok (match st_kind st with KDirectory => true | _ => false end) s.
Proof.
  intros Hw Hs Hl. unfold isDirectory. rewrite (bind_Ok _ _ _ _ _ (getW_Ok _ _ _ Hw)), Hs.
  rewrite (bind_Ok _ _ _ _ _ (onStats_Ok _ _ _ _ (readObj_Ok _ _ _ Hl))).
  by rewrite set_stats_id, objectIsDirectory_stats.
Qed.

(** X10: when the timer of a file watcher fires and the new stat differs
    from the previous one in a field other than [atime] and [ctime], with
    the same birth time, the batch emits exactly one [change] event,
    [update] with the new and the previous stat, after two [log] events;
    the watcher holds the new stat, and the timer and the batch are
    cleared. *)
Theorem changed_file_reports_update env n (s : World) w x b lp sp sc :
  (forall a c, toISOString env a = toISOString env c -> a = c) ->
  nodes s !! w = Some x ->
  is_Some (listenerTimeout x) ->
  listenerTasks x = Some b ->
  b_previousStat b = RObj lp ->
  defaultCallbacks (b_done b) ->
  stats s !! lp = Some (statsObject sp) ->
  fs_exists env (pathString x) = true ->
  (if followLinks (config x) then fs_stat env else fs_lstat env) (pathString x)
    = inr (statsObject sc) ->
  st_birthtime sp = st_birthtime sc ->
  ~ sameButAccess sp sc ->
  st_kind sc <> KDirectory ->
  callerOnly "log" x -> callerOnly "change" x ->
  exists s' x',
    exec env (S (S n)) (CFireTimeout w) s = Ok tt s' /\
    trace s' = (trace s ++
      [(w, ELog "debug" ("watch evaluating on: " ++ pathString x));
       (w, ELog "debug" ("watch determined update: " ++ pathString x));
       (w, EChange "update" (pathString x) (RObj (length (stats s))) (RObj lp))])%list /\
    nodes s' !! w = Some x' /\
    stat x' = RObj (length (stats s)) /\
    stats s' !! length (stats s) = Some (statsObject sc) /\
    listenerTimeout x' = None /\ listenerTasks x' = None /\ state x' = state x.
Proof.
  intros Hinj Hw [d Ht] Hb Hprev Hdone Hp Hex Hst Hbirth Hdiff Hkind Hlog Hchange.
  change (exec env (S (S n)) (CFireTimeout w)) with (fireTimeout env (@exec env (S n)) w).
  unfold fireTimeout. rewrite (bind_Ok _ _ _ _ _ (getW_Ok _ _ _ Hw)), Ht, Hb.
  erewrite (bind_Ok (updW _ _)); [|reflexivity].
  erewrite (bind_Ok (updW _ _)); [|reflexivity].
  set (x0 := set_listenerTimeout None (set_listenerTasks None x)).
  set (s0 := set_nodes (alter (set_listenerTimeout None) _ _) _).
  assert (Hw0 : nodes s0 !! w = Some x0).
  { unfold s0. simpl. by rewrite !list_lookup_alter_eq, Hw. }
  unfold runBatch. rewrite (bind_Ok _ _ _ _ _ (getW_Ok _ _ _ Hw0)).
  change (pathString x0) with (pathString x).
  rewrite (bind_Ok _ _ _ _ _ (log_exact env n s0 w x0 _ _ Hw0 Hlog)).
  rewrite Hex. cbn [negb].
  set (e1 := ELog "debug" ("watch evaluating on: " ++ pathString x)).
  set (s1 := emitted w e1 s0).
  set (x1 := set_listeners (withoutOnce (eventName e1) (listeners x0)) x0).
  assert (Hw1 : nodes s1 !! w = Some x1) by (by apply emitted_lookup).
  rewrite (bind_Ok _ _ _ _ _ (getStat_reset_Ok env s1 w x1 _ Hw1 Hst)).
  change (stats s1) with (stats s).
  set (l := length (stats s)).
  set (s2 := set_nodes _ _).
  set (x2 := set_stat (RObj l) x1).
  assert (Hw2 : nodes s2 !! w = Some x2).
  { change (alter (set_stat (RObj l)) w (nodes s1) !! w = Some x2).
    by rewrite list_lookup_alter_eq, Hw1. }
  rewrite (bind_Ok _ _ _ _ _ (getW_Ok _ _ _ Hw2)). cbn [stat set_stat x2].
  assert (Hl2 : stats s2 !! l = Some (statsObject sc)).
  { unfold s2, l. simpl. by rewrite lookup_app_r, Nat.sub_diag by lia. }
  assert (Hp2 : stats s2 !! lp = Some (statsObject sp)).
  { unfold s2. simpl. by apply lookup_app_l_Some. }
  rewrite (bind_Ok _ _ _ _ _ (birthtimeString_Ok env s2 l sc Hl2)).
  rewrite Hprev.
  rewrite (bind_Ok _ _ _ _ _ (birthtimeString_Ok env s2 lp sp Hp2)).
  rewrite Hbirth, stringNe_refl.
  change (bind (ret None) ?k s2) with (k None s2). cbv beta iota.
  rewrite (bind_Ok _ _ _ _ _
             (onStats_Ok _ _ _ _ (statChanged_objects env (stats s2) lp l _ _ Hp2 Hl2))).
  assert (String.eqb (stringify env (comparedObject env (statsObject sp)))
                     (stringify env (comparedObject env (statsObject sc))) = false) as ->.
  { apply String.eqb_neq. by rewrite (compared_same env sp sc Hinj). }
  cbn [negb].
  set (s3 := set_stats _ s2).
  assert (Hw3 : nodes s3 !! w = Some x2) by exact Hw2.
  assert (Hl3 : stats s3 !! l = Some (statsObject sc)).
  { unfold s3. simpl stats. by apply lookup_app_l_Some. }
  unfold checkWhatHasChanged.
  rewrite (bind_Ok _ _ _ _ _ (isDirectory_Ok s3 w x2 l sc Hw3 eq_refl Hl3)).
  rewrite (bind_Ok _ _ _ _ _ (getW_Ok _ _ _ Hw3)).
  assert ((match st_kind sc with KDirectory => true | _ => false end) = false) as ->
    by (by destruct (st_kind sc)).
  cbn [negb]. change (pathString x2) with (pathString x).
  assert (Hlog2 : callerOnly "log" x2) by (by apply (callerOnly_withoutOnce "log" _ x0)).
  rewrite (bind_Ok _ _ _ _ _ (log_exact env n s3 w x2 _ _ Hw3 Hlog2)).
  set (e2 := ELog "debug" ("watch determined update: " ++ pathString x)).
  set (s4 := emitted w e2 s3).
  set (x4 := set_listeners (withoutOnce (eventName e2) (listeners x2)) x2).
  assert (Hw4 : nodes s4 !! w = Some x4) by (by apply emitted_lookup).
  assert (Hch4 : callerOnly "change" x4).
  { apply (callerOnly_withoutOnce "change" _ x2).
    by apply (callerOnly_withoutOnce "change" _ x0). }
  set (e3 := EChange "update" (pathString x) (RObj l) (RObj lp)).
  rewrite Hprev.
  rewrite (bind_Ok _ _ _ _ _ (emit_exact env n s4 w x4 e3 Hw4 Hch4 eq_refl)).
  rewrite (finish_none env n _ _ Hdone).
  eexists _, _. split; [reflexivity|]. split.
  { simpl. by rewrite <- !app_assoc. }
  split; [by apply emitted_lookup|].
  split; [reflexivity|]. split; [exact Hl3|]. done.
Qed.

Lemma listensTo_unhandled x err : listensTo "error" x -> unhandled (EError err) x = None.
Proof.
  unfold listensTo, unhandled. intros H.
  assert (existsb (fun l : string * bool * handler => String.eqb (fst (fst l)) "error")
                  (listeners x) = true) as ->; [|reflexivity].
  apply existsb_exists. apply existsb_exists in H as (l & Hin & Hl).
  exists l. split; [exact Hin|]. by apply andb_true_iff in Hl as [-> _].
Qed.

Lemma persistent_withoutOnce ev ev' (ls : list (string * bool * handler)) :
  existsb (fun l : string * bool * handler =>
             String.eqb (fst (fst l)) ev && negb (snd (fst l))) ls = true ->
  existsb (fun l : string * bool * handler =>
             String.eqb (fst (fst l)) ev && negb (snd (fst l))) (withoutOnce ev' ls) = true.
Proof.
  intros H.
  apply existsb_exists. apply existsb_exists in H as (l & Hin & Hl).
  exists l. split; [|exact Hl]. unfold withoutOnce. apply filter_In. split; [exact Hin|].
  apply andb_true_iff in Hl as [_ Hl]. apply negb_true_iff in Hl. rewrite Hl.
  by rewrite andb_false_r.
Qed.

Lemma listensTo_withoutOnce ev ev' x :
  listensTo ev x -> listensTo ev (set_listeners (withoutOnce ev' (listeners x)) x).
Proof. unfold listensTo. simpl. apply persistent_withoutOnce. Qed.

Lemma finish_error env n (done : list completion) err (s : World) w x :
  nodes s !! w = Some x -> callerOnly "error" x -> listensTo "error" x ->
  Forall (fun d => d = DoneEmitError w) done ->
  exists s' x', finish (@exec env (S (S n))) done (Some err) s = Ok tt s' /\
    trace s' = (trace s ++ map (fun _ => (w, EError err)) done)%list /\
    nodes s' !! w = Some x' /\ core x' = core x /\ stats s' = stats s.
Proof.
  intros Hw Hc Hl Hd. revert s x Hw Hc Hl. unfold finish.
  induction Hd as [|d ds -> _ IH]; intros s x Hw Hc Hl.
  - exists s, x. by rewrite app_nil_r.
  - simpl forEach.
    assert (exec env (S (S n)) (CComplete (DoneEmitError w) (Some err)) s
            = Ok tt (emitted w (EError err) s)) as E.
    { change (exec env (S (S n)) (CComplete (DoneEmitError w) (Some err)))
        with (exec env (S n) (CEmit w (EError err))).
      apply (emit_exact env n s w x); [done..|]. by apply listensTo_unhandled. }
    rewrite (bind_Ok _ _ _ _ _ E).
    destruct (IH (emitted w (EError err) s) _ (emitted_lookup s w x _ Hw)
                 (callerOnly_withoutOnce "error" _ x Hc)
                 (listensTo_withoutOnce "error" _ x Hl)) as (s' & x' & R & T & N & C & St).
    exists s', x'. split; [exact R|]. split; [|done].
    rewrite T. simpl. by rewrite <- app_assoc.
Qed.

(** X11: when the path exists but its stat fails, and the caller listens
    to [error] on the watcher with [on], the batch reports the error once
    per notification that joined it, as an [error] event of the watcher;
    the stat, the state and the store stay.  (Without a listener the
    [EventEmitter] throws the first of these events.) *)
Theorem failed_stat_reports_error env n (s : World) w x b err :
  nodes s !! w = Some x ->
  is_Some (listenerTimeout x) ->
  listenerTasks x = Some b ->
  Forall (fun d => d = DoneEmitError w) (b_done b) ->
  fs_exists env (pathString x) = true ->
  (if followLinks (config x) then fs_stat env else fs_lstat env) (pathString x) = inl err ->
  callerOnly "log" x -> callerOnly "error" x -> listensTo "error" x ->
  exists s' x',
    exec env (S (S (S n))) (CFireTimeout w) s = Ok tt s' /\
    trace s' = (trace s ++
      (w, ELog "debug" ("watch evaluating on: " ++ pathString x))
      :: map (fun _ => (w, EError err)) (b_done b))%list /\
    nodes s' !! w = Some x' /\
    stat x' = stat x /\ state x' = state x /\ stats s' = stats s /\
    listenerTimeout x' = None /\ listenerTasks x' = None.
Proof.
  intros Hw [d Ht] Hb Hdone Hex Hst Hlog Herr Hon.
  change (exec env (S (S (S n))) (CFireTimeout w))
    with (fireTimeout env (@exec env (S (S n))) w).
  unfold fireTimeout. rewrite (bind_Ok _ _ _ _ _ (getW_Ok _ _ _ Hw)), Ht, Hb.
  erewrite (bind_Ok (updW _ _)); [|reflexivity].
  erewrite (bind_Ok (updW _ _)); [|reflexivity].
  set (x0 := set_listenerTimeout None (set_listenerTasks None x)).
  set (s0 := set_nodes (alter (set_listenerTimeout None) _ _) _).
  assert (Hw0 : nodes s0 !! w = Some x0).
  { unfold s0. simpl. by rewrite !list_lookup_alter_eq, Hw. }
  unfold runBatch. rewrite (bind_Ok _ _ _ _ _ (getW_Ok _ _ _ Hw0)).
  change (pathString x0) with (pathString x).
  rewrite (bind_Ok _ _ _ _ _ (log_exact env (S n) s0 w x0 _ _ Hw0 Hlog)).
  rewrite Hex. cbn [negb].
  set (e1 := ELog "debug" ("watch evaluating on: " ++ pathString x)).
  set (s1 := emitted w e1 s0).
  set (x1 := set_listeners (withoutOnce (eventName e1) (listeners x0)) x0).
  assert (Hw1 : nodes s1 !! w = Some x1) by (by apply emitted_lookup).
  assert (getStat env w true s1 = Ok (inl err) s1) as E.
  { unfold getStat. rewrite (bind_Ok _ _ _ _ _ (getW_Ok _ _ _ Hw1)).
    rewrite andb_false_r. change (config x1) with (config x).
    change (pathString x1) with (pathString x). by rewrite Hst. }
  rewrite (bind_Ok _ _ _ _ _ E).
  destruct (finish_error env n (b_done b) err s1 w x1 Hw1
              (callerOnly_withoutOnce "error" _ x0 Herr)
              (listensTo_withoutOnce "error" _ x0 Hon) Hdone)
    as (s' & x' & R & T & N & C & St).
  exists s', x'. split; [exact R|]. split.
  { rewrite T. simpl. by rewrite <- app_assoc. }
  split; [exact N|].
  unfold core in C. injection C as _ E2 _ E4 _ E6 E7 _.
  rewrite E2, E4, E6, E7. done.
Qed.

Lemma reason_cases {T} (reason : option string) (A B C : T) :
  match reason with
  | Some "deleted" => A
  | Some "failure" => B
  | _ => C
  end = if reasonIs reason "deleted" then A else if reasonIs reason "failure" then B else C.
Proof.
  destruct reason as [r|]; [|reflexivity].
  unfold reasonIs.
  repeat match goal with
         | |- match ?r with _ => _ end = _ => is_var r; destruct r; try reflexivity
         end.
Qed.

Lemma forEach_registry env n e p (ls : list (string * bool * handler)) (s : World) :
  Forall (fun l => snd l = HRegistry p \/ exists tag, snd l = HUser tag) ls ->
  forEach ls (fun l => runHandler (@exec env n) (snd l) e) s =
    Ok tt (if existsb (fun l => match snd l with HRegistry _ => true | _ => false end) ls
           then set_watchers (<[p := None]> (watchers s)) s else s).
Proof.
  intros H. revert s. induction H as [|l ls Hl _ IH]; intros s; [done|].
  simpl. destruct Hl as [Hl|[tag Hl]]; rewrite Hl; simpl.
  - unfold bind at 1. simpl. rewrite IH. simpl.
    destruct (existsb _ ls); [|done]. simpl. by rewrite insert_insert_eq.
  - unfold bind at 1. simpl. apply IH.
Qed.

Lemma emit_close_registered env n (s : World) w x reason p :
  nodes s !! w = Some x -> registeredAs p x ->
  exec env (S n) (CEmit w (EClose reason)) s =
    Ok tt (set_watchers (<[p := None]> (watchers s)) (emitted w (EClose reason) s)).
Proof.
  intros Hw [Hall Hex].
  change (exec env (S n) (CEmit w (EClose reason))) with (emit (@exec env n) w (EClose reason)).
  unfold emit. rewrite (bind_Ok _ _ _ _ _ (getW_Ok _ _ _ Hw)). cbn [unhandled].
  erewrite (bind_Ok (modify _)); [|reflexivity].
  erewrite (bind_Ok (updW _ _)); [|reflexivity].
  rewrite (forEach_registry env n _ p).
  - assert (existsb (fun l : string * bool * handler =>
                       match snd l with HRegistry _ => true | _ => false end)
              (List.filter (fun l => String.eqb (fst (fst l)) (eventName (EClose reason)))
                 (listeners x)) = true) as ->; [|reflexivity].
    apply existsb_exists. apply Exists_exists in Hex as (l & Hin & Hc & Hl).
    exists l. split; [|by rewrite Hl]. apply filter_In. split; [|done].
    by apply list_elem_of_In.
  - clear Hex. induction Hall as [|l ls Hl _ IH]; simpl; [constructor|].
    destruct (String.eqb (fst (fst l)) "close") eqn:E; [|exact IH].
    constructor; [by apply Hl|exact IH].
Qed.

Lemma registered_withoutOnce p ev (ls : list (string * bool * handler)) :
  String.eqb ev "close" = false ->
  Forall (fun l : string * bool * handler =>
            String.eqb (fst (fst l)) "close" = true ->
            snd l = HRegistry p \/ exists tag, snd l = HUser tag) ls /\
  Exists (fun l => String.eqb (fst (fst l)) "close" = true /\ snd l = HRegistry p) ls ->
  Forall (fun l : string * bool * handler =>
            String.eqb (fst (fst l)) "close" = true ->
            snd l = HRegistry p \/ exists tag, snd l = HUser tag) (withoutOnce ev ls) /\
  Exists (fun l => String.eqb (fst (fst l)) "close" = true /\ snd l = HRegistry p)
         (withoutOnce ev ls).
Proof.
  intros Hev [Hall Hex]. split.
  - clear Hex. induction Hall as [|l ls Hl _ IH]; simpl; [constructor|].
    destruct (negb _); [constructor|]; done.
  - clear Hall. induction Hex as [l ls [Hc Hl]|l ls _ IH]; simpl.
    + assert (String.eqb (fst (fst l)) ev = false) as ->.
      { apply String.eqb_eq in Hc. rewrite Hc. rewrite String.eqb_sym. exact Hev. }
      simpl. by left.
    + destruct (negb _); [right|]; done.
Qed.


Lemma Forall_withoutOnce {P : string * bool * handler -> Prop} ev ls :
  Forall P ls -> Forall P (withoutOnce ev ls).
Proof.
  induction 1 as [|l ls Hl _ IH]; simpl; [constructor|].
  destruct (negb _); [constructor|]; done.
Qed.

Lemma bind_assoc {S A B C} (m : M S A) (k1 : A -> M S B) (k2 : B -> M S C) s :
  bind (bind m k1) k2 s = bind m (fun a => bind (k1 a) k2) s.
Proof. unfold bind. by destruct (m s). Qed.

Ltac lookup_node Hw :=
  unfold emitted; simpl; rewrite ?list_lookup_alter_eq, ?Hw; simpl; reflexivity.

Ltac caller_only H :=
  unfold callerOnly; simpl; repeat apply Forall_withoutOnce; exact H.

Ltac run_getW Hw :=
  erewrite (bind_Ok (getW _)); [|apply getW_Ok; lookup_node Hw].

Ltac run_set :=
  first [erewrite (bind_Ok (updW _ _)); [|reflexivity]
        |erewrite (bind_Ok (modify _)); [|reflexivity]].

Ltac run_emit Hw H :=
  first [erewrite (bind_Ok (exec _ (S _) (CEmit _ _)));
           [|eapply emit_exact; [lookup_node Hw|caller_only H|reflexivity]]
        |erewrite (bind_Ok (log _ _ _ _));
           [|eapply log_exact; [lookup_node Hw|caller_only H]]].

Lemma close_leaf env n (s : World) w x reason p :
  nodes s !! w = Some x -> state x = active -> children x = [] ->
  callerOnly "log" x -> callerOnly "change" x -> registeredAs p x ->
  exists s' x',
    exec env (S (S n)) (CClose w reason) s = Ok tt s' /\
    nodes s' !! w = Some x' /\
    state x' = (if reasonIs reason "deleted" then deleted else closed) /\
    fswatcher x' = None /\ stat x' = stat x /\
    listenerTimeout x' = listenerTimeout x /\ listenerTasks x' = listenerTasks x /\
    watchers s' = <[p := None]> (watchers s) /\
    handles s' = match fswatcher x with
                 | Some h => alter (fun hd => (fst hd, false)) h (handles s)
                 | None => handles s
                 end /\
    polls s' = (if match method x with Some m => String.eqb m "watchFile" | None => false end
                then List.filter (fun q => stringNe q (pathString x)) (polls s)
                else polls s) /\
    trace s' = (trace s ++ closeEvents w x reason)%list.
Proof.
  intros Hw Ha Hch Hlog Hchange Hreg.
  change (exec env (S (S n)) (CClose w reason)) with (close (@exec env (S n)) w reason).
  unfold close, closeEvents. run_getW Hw. rewrite Ha. cbn [isActive negb].
  run_emit Hw Hlog.
  rewrite Hch. cbn [forEach]. change (bind (ret tt) ?k ?s0) with (k tt s0). cbv beta.
  run_getW Hw. cbn [method fswatcher set_listeners].
  rewrite reason_cases.
  destruct (match method x with Some m => String.eqb m "watchFile" | None => false end);
    cbn [when]; [run_set|change (bind (ret tt) ?k ?s0) with (k tt s0); cbv beta];
    (destruct (fswatcher x) as [h|] eqn:Hf;
       [rewrite bind_assoc; run_set; run_set
       |change (bind (ret tt) ?k ?s0) with (k tt s0); cbv beta]);
    (destruct (reasonIs reason "deleted");
       [rewrite bind_assoc; run_set; rewrite bind_assoc; run_getW Hw; run_emit Hw Hchange
       |destruct (reasonIs reason "failure");
          [rewrite bind_assoc; run_set; rewrite bind_assoc; run_getW Hw; run_emit Hw Hlog
          |run_set]]);
    (erewrite (emit_close_registered env n _ w _ _ p);
       [|lookup_node Hw
        |unfold registeredAs; simpl;
         repeat (apply registered_withoutOnce; [reflexivity|]); exact Hreg]);
    (eexists _, _; split; [reflexivity|]; split; [lookup_node Hw|]);
    unfold pathString; simpl; rewrite <- ?app_assoc; done.
Qed.

Lemma watchMethod_binds_exact env (s : World) w x m :
  nodes s !! w = Some x -> bindError env (pathString x) m = None ->
  watchMethod env w m s = Ok None (boundBy w m x s).
Proof.
  intros Hw. unfold bindError, watchMethod, boundBy.
  rewrite (bind_Ok _ _ _ _ _ (getW_Ok _ _ _ Hw)).
  destruct (String.eqb m "watch").
  - destruct (negb (fs_has_watch env)); [done|]. by intros ->.
  - destruct (String.eqb m "watchFile"); [|done].
    destruct (negb (fs_has_watchFile env)); [done|]. by intros ->.
Qed.

Lemma watchSelf_selects_exact env (s : World) w x failed m rest errors :
  nodes s !! w = Some x ->
  Forall (fun m => is_Some (bindError env (pathString x) m)) failed ->
  bindError env (pathString x) m = None ->
  watchSelf env w (failed ++ m :: rest) errors s =
    Ok None (set_nodes (alter (set_state active) w
                          (alter (set_method (Some m)) w (nodes (boundBy w m x s))))
                       (boundBy w m x s)).
Proof.
  intros Hw Hf Hm. revert errors. induction Hf as [|m0 failed [e He] Hf IH]; intros errors.
  - simpl app. cbn [watchSelf].
    by rewrite (bind_Ok _ _ _ _ _ (watchMethod_binds_exact env s w x m Hw Hm)).
  - simpl app. cbn [watchSelf].
    rewrite (bind_Ok _ _ _ _ _ (watchMethod_fails env s w x m0 e Hw He)). apply IH.
Qed.




(** X12: when the timer of a watcher without children fires and the path is
    gone, the batch closes the watcher as deleted: it emits
    [change('delete', path, null, stat)] and [close('deleted')], releases
    the handle, clears the registry entry and sets the stat to [null]. *)
Theorem vanished_file_reports_delete env n (s : World) w x b p :
  nodes s !! w = Some x ->
  is_Some (listenerTimeout x) ->
  listenerTasks x = Some b ->
  defaultCallbacks (b_done b) ->
  fs_exists env (pathString x) = false ->
  state x = active -> children x = [] ->
  callerOnly "log" x -> callerOnly "change" x -> registeredAs p x ->
  exists s' x',
    exec env (S (S (S n))) (CFireTimeout w) s = Ok tt s' /\
    nodes s' !! w = Some x' /\
    state x' = deleted /\ stat x' = RNull /\ fswatcher x' = None /\
    listenerTimeout x' = None /\ listenerTasks x' = None /\
    watchers s' = <[p := None]> (watchers s) /\
    handles s' = match fswatcher x with
                 | Some h => alter (fun hd => (fst hd, false)) h (handles s)
                 | None => handles s
                 end /\
    trace s' = (trace s ++
      [(w, ELog "debug" ("watch evaluating on: " ++ pathString x));
       (w, ELog "debug" ("watch determined delete: " ++ pathString x));
       (w, ELog "debug" ("close: " ++ pathString x));
       (w, EChange "delete" (pathString x) RNull (stat x));
       (w, EClose (Some "deleted"))])%list.
Proof.
  intros Hw [d Ht] Hb Hdone Hex Ha Hch Hlog Hchange Hreg.
  change (exec env (S (S (S n))) (CFireTimeout w))
    with (fireTimeout env (@exec env (S (S n))) w).
  unfold fireTimeout. run_getW Hw. rewrite Ht, Hb.
  run_set. run_set.
  unfold runBatch. run_getW Hw.
  run_emit Hw Hlog.
  unfold pathString at 1 2 3. cbn [path set_listenerTimeout set_listenerTasks].
  fold (pathString x). rewrite Hex. cbn [negb].
  run_emit Hw Hlog.
  match goal with
  | |- context [bind (exec env (S (S n)) (CClose w (Some "deleted"))) _ ?s2] =>
      destruct (close_leaf env n s2 w
                  (set_listeners (withoutOnce "log" (withoutOnce "log" (listeners x)))
                     (set_listenerTimeout None (set_listenerTasks None x)))
                  (Some "deleted") p)
        as (s3 & x3 & Hrun & Hw3 & Hst3 & Hf3 & Hstat3 & Hto3 & Hta3 & Hreg3 & Hh3 & _ & Htr3);
        [lookup_node Hw|exact Ha|exact Hch|caller_only Hlog|caller_only Hchange
        |unfold registeredAs; simpl;
         repeat (apply registered_withoutOnce; [reflexivity|]); exact Hreg|]
  end.
  rewrite (bind_Ok _ _ _ _ _ Hrun). run_set.
  rewrite (finish_none env (S n) _ _ Hdone).
  eexists _, _. split; [reflexivity|]. simpl.
  rewrite list_lookup_alter_eq, Hw3. split; [reflexivity|]. simpl.
  unfold closeEvents in Htr3. simpl in *.
  rewrite Htr3, <- !app_assoc. 
  repeat split; try done.
Qed.

Lemma emitted_lookup_ne (s : World) w w' e : w' <> w ->
  nodes (emitted w e s) !! w' = nodes s !! w'.
Proof. intros H. unfold emitted. simpl. by rewrite list_lookup_alter_ne. Qed.

Lemma emit_child_log env n (s : World) p xp c xc rel full level message :
  nodes s !! p = Some xp -> nodes s !! c = Some xc -> c <> p ->
  listeners xc = childListeners p rel full -> callerOnly "log" xp ->
  exec env (S (S n)) (CEmit c (ELog level message)) s =
    Ok tt (emitted p (ELog level message) (emitted c (ELog level message) s)).
Proof.
  intros Hp Hc Hne Hl Hlog.
  change (exec env (S (S n)) (CEmit c (ELog level message)))
    with (emit (@exec env (S n)) c (ELog level message)).
  unfold emit. rewrite (bind_Ok _ _ _ _ _ (getW_Ok _ _ _ Hc)). cbn [unhandled].
  erewrite (bind_Ok (modify _)); [|reflexivity].
  erewrite (bind_Ok (updW _ _)); [|reflexivity].
  rewrite Hl. cbn [childListeners List.filter fst snd eventName String.eqb Ascii.eqb
                   Bool.eqb forEach runHandler].
  erewrite (bind_Ok (exec _ _ _)).
  2:{ eapply (emit_exact env n _ p xp); [|exact Hlog|reflexivity].
      simpl. by rewrite list_lookup_alter_ne. }
  reflexivity.
Qed.

Lemma emit_child_delete env n (s : World) p xp c xc rel full st :
  nodes s !! p = Some xp -> nodes s !! c = Some xc -> c <> p ->
  listeners xc = childListeners p rel full -> callerOnly "change" xp ->
  lookupChild (children xp) rel = Some (Child c) -> state xc <> active ->
  exec env (S (S (S n))) (CEmit c (EChange "delete" full RNull st)) s =
    Ok tt (emitted p (EChange "delete" full RNull st)
             (emitted c (EChange "delete" full RNull st) s)).
Proof.
  intros Hp Hc Hne Hl Hchange Hchild Hst.
  change (exec env (S (S (S n))) (CEmit c (EChange "delete" full RNull st)))
    with (emit (@exec env (S (S n))) c (EChange "delete" full RNull st)).
  unfold emit. rewrite (bind_Ok _ _ _ _ _ (getW_Ok _ _ _ Hc)). cbn [unhandled].
  erewrite (bind_Ok (modify _)); [|reflexivity].
  erewrite (bind_Ok (updW _ _)); [|reflexivity].
  rewrite Hl.
  cbn [childListeners List.filter fst snd eventName String.eqb Ascii.eqb
       Bool.eqb forEach runHandler].
  rewrite String.eqb_refl. cbn [andb when].
  set (e := EChange "delete" full RNull st).
  match goal with
  | |- bind _ _ ?s1 = _ => change s1 with (emitted c e s)
  end.
  assert (Hp1 : nodes (emitted c e s) !! p = Some xp)
    by (by rewrite emitted_lookup_ne).
  assert (Hc1 := emitted_lookup s c xc e Hc).
  assert (exec env (S (S n)) (CCloseChild p rel (Some "deleted")) (emitted c e s)
          = Ok tt (emitted c e s)) as E.
  { change (exec env (S (S n)) (CCloseChild p rel (Some "deleted")))
      with (closeChild (@exec env (S n)) p rel (Some "deleted")).
    unfold closeChild. rewrite (bind_Ok _ _ _ _ _ (getW_Ok _ _ _ Hp1)), Hchild.
    by apply (close_inactive env n _ c _ _ Hc1). }
  rewrite !bind_assoc, (bind_Ok _ _ _ _ _ E).
  by rewrite (bind_Ok _ _ _ _ _ (emit_exact env (S n) _ p xp e Hp1 Hchange eq_refl)).
Qed.

Lemma emit_child_close env n (s : World) p xp c xc rel full reason :
  nodes s !! p = Some xp -> nodes s !! c = Some xc ->
  listeners xc = childListeners p rel full ->
  exec env (S n) (CEmit c (EClose reason)) s =
    Ok tt (set_watchers (<[full := None]> (watchers s))
             (set_nodes (alter (fun x => set_children (deleteChild (children x) rel) x) p
                           (nodes (emitted c (EClose reason) s)))
                        (emitted c (EClose reason) s))).
Proof.
  intros Hp Hc Hl.
  change (exec env (S n) (CEmit c (EClose reason)))
    with (emit (@exec env n) c (EClose reason)).
  unfold emit. rewrite (bind_Ok _ _ _ _ _ (getW_Ok _ _ _ Hc)). cbn [unhandled].
  erewrite (bind_Ok (modify _)); [|reflexivity].
  erewrite (bind_Ok (updW _ _)); [|reflexivity].
  rewrite Hl.
  cbn [childListeners List.filter fst snd eventName String.eqb Ascii.eqb
       Bool.eqb forEach runHandler].
  reflexivity.
Qed.

Ltac look Hc Hp :=
  unfold emitted;
  cbn [nodes set_nodes set_trace set_watchers set_handles set_polls set_stats];
  repeat (first [rewrite list_lookup_alter_eq | rewrite list_lookup_alter_ne by done]);
  first [rewrite Hc | rewrite Hp]; reflexivity.

Lemma closeChild_deleted_run env n (s : World) p xp c xc rel full :
  nodes s !! p = Some xp -> nodes s !! c = Some xc -> c <> p ->
  lookupChild (children xp) rel = Some (Child c) ->
  listeners xc = childListeners p rel full ->
  path xc = Some full -> state xc = active -> children xc = [] ->
  callerOnly "log" xp -> callerOnly "change" xp ->
  exists s' xp' xc',
    exec env (S (S (S (S (S n))))) (CCloseChild p rel (Some "deleted")) s = Ok tt s' /\
    nodes s' !! p = Some xp' /\ children xp' = deleteChild (children xp) rel /\
    core xp' = core xp /\
    nodes s' !! c = Some xc' /\ state xc' = deleted /\ fswatcher xc' = None /\
    watchers s' = <[full := None]> (watchers s) /\
    handles s' = match fswatcher xc with
                 | Some h => alter (fun hd => (fst hd, false)) h (handles s)
                 | None => handles s
                 end /\
    trace s' = (trace s ++
      [(c, ELog "debug" ("close: " ++ full));
       (p, ELog "debug" ("close: " ++ full));
       (c, EChange "delete" full RNull (stat xc));
       (p, EChange "delete" full RNull (stat xc));
       (c, EClose (Some "deleted"))])%list.
Proof.
  intros Hp Hc Hne Hchild Hl Hpath Ha Hch Hlog Hchange.
  change (exec env (S (S (S (S (S n))))) (CCloseChild p rel (Some "deleted")))
    with (closeChild (@exec env (S (S (S (S n))))) p rel (Some "deleted")).
  unfold closeChild. rewrite (bind_Ok _ _ _ _ _ (getW_Ok _ _ _ Hp)), Hchild.
  change (exec env (S (S (S (S n)))) (CClose c (Some "deleted")))
    with (close (@exec env (S (S (S n)))) c (Some "deleted")).
  unfold close. rewrite (bind_Ok _ _ _ _ _ (getW_Ok _ _ _ Hc)), Ha. cbn [isActive negb].
  assert (Hps : pathString xc = full) by (unfold pathString; by rewrite Hpath).
  rewrite Hps. unfold log at 1.
  rewrite (bind_Ok _ _ _ _ _
             (emit_child_log env (S n) s p xp c xc rel full _ _ Hp Hc Hne Hl Hlog)).
  rewrite Hch. cbn [forEach]. change (bind (ret tt) ?k ?s0) with (k tt s0). cbv beta.
  set (e1 := ELog "debug" ("close: " ++ full)).
  set (s1 := emitted p e1 (emitted c e1 s)).
  set (xc1 := set_listeners (withoutOnce (eventName e1) (listeners xc)) xc).
  set (xp1 := set_listeners (withoutOnce (eventName e1) (listeners xp)) xp).
  assert (Hc1 : nodes s1 !! c = Some xc1).
  { unfold s1. rewrite emitted_lookup_ne by done. by apply emitted_lookup. }
  assert (Hp1 : nodes s1 !! p = Some xp1).
  { unfold s1. apply emitted_lookup. by rewrite emitted_lookup_ne. }
  rewrite (bind_Ok _ _ _ _ _ (getW_Ok _ _ _ Hc1)).
  change (method xc1) with (method xc). change (fswatcher xc1) with (fswatcher xc).
  change (pathString xc1) with (pathString xc). rewrite Hps.
  assert (Hne' : p <> c) by done.
  unfold s1, xc1, xp1 in *. clear s1 xc1 xp1.
  destruct (match method xc with Some m => String.eqb m "watchFile" | None => false end);
    cbn [when]; [run_set|change (bind (ret tt) ?k ?s0) with (k tt s0); cbv beta];
    (destruct (fswatcher xc) as [h|] eqn:Hf;
       [rewrite bind_assoc; run_set; run_set
       |change (bind (ret tt) ?k ?s0) with (k tt s0); cbv beta]);
    rewrite bind_assoc; run_set; rewrite bind_assoc;
    (erewrite (bind_Ok (getW _)); [|apply getW_Ok; look Hc Hp]);
    cbn [stat set_state set_fswatcher set_listeners];
    (erewrite (bind_Ok (exec _ _ (CEmit c _)));
       [|unfold pathString; cbn [path set_state set_fswatcher set_listeners];
         rewrite Hpath;
         eapply (emit_child_delete env n _ p _ c _ rel full);
           [look Hc Hp|look Hc Hp|done|simpl; rewrite Hl; reflexivity
           |caller_only Hchange|exact Hchild|simpl; discriminate]]);
    (erewrite emit_child_close; [|look Hc Hp|look Hc Hp|simpl; rewrite Hl; reflexivity]);
    (eexists _, _, _; split; [reflexivity|]);
    (split; [look Hc Hp|]); (split; [reflexivity|]); (split; [reflexivity|]);
    (split; [look Hc Hp|]); simpl; rewrite <- ?app_assoc; done.
Qed.



Lemma statChanged_decides env (h : heap) a b :
  liveRef h a -> liveRef h b ->
  returned (statChanged env a b h)
  = Some (negb (bool_decide (comparedText env h a = comparedText env h b))).
Proof.
  intros Ha Hb. destruct a as [| |la], b as [| |lb]; try reflexivity.
  - destruct Hb as [ob Hb]. simpl. by rewrite Hb.
  - destruct Hb as [ob Hb]. simpl. by rewrite Hb.
  - destruct Ha as [oa Ha]. simpl. by rewrite Ha.
  - destruct Ha as [oa Ha]. simpl. by rewrite Ha.
  - destruct Ha as [oa Ha], Hb as [ob Hb].
    rewrite (statChanged_objects env h la lb oa ob Ha Hb).
    unfold comparedText. rewrite Ha, Hb. cbn [returned fmap option_fmap option_map].
    f_equal. f_equal.
    destruct (String.eqb_spec (stringify env (comparedObject env oa))
                              (stringify env (comparedObject env ob))) as [E|E].
    + rewrite E. symmetry. by apply bool_decide_eq_true.
    + symmetry. apply bool_decide_eq_false. congruence.
Qed.

(** X1: on variables that hold [null], [undefined] or stored objects,
    [statChanged] returning false is an equivalence: it is false on
    [(a, a)], it returns the same for [(a, b)] and [(b, a)], and false on
    [(a, b)] and [(b, c)] gives false on [(a, c)]. *)
Theorem statChanged_equivalence env (h : heap) a b c :
  liveRef h a -> liveRef h b -> liveRef h c ->
  returned (statChanged env a a h) = Some false /\
  returned (statChanged env a b h) = returned (statChanged env b a h) /\
  (returned (statChanged env a b h) = Some false ->
   returned (statChanged env b c h) = Some false ->
   returned (statChanged env a c h) = Some false).
Proof.
  intros Ha Hb Hc.
  rewrite !statChanged_decides by done. split; [|split].
  - by rewrite bool_decide_eq_true_2.
  - f_equal. f_equal. apply bool_decide_ext. split; congruence.
  - intros [=E1] [=E2]. f_equal.
    apply negb_false_iff, bool_decide_eq_true in E1.
    apply negb_false_iff, bool_decide_eq_true in E2.
    apply negb_false_iff, bool_decide_eq_true. congruence.
Qed.

(** X17: when the timer of a directory fires after its only child, a
    watched file, has gone, the batch closes the child as deleted: the
    directory emits [change('delete')] for the path of the child with the
    stat of the child, forgets the child and holds its own new stat. *)
Theorem directory_batch_reports_deleted_child env n (s : World)
    p xp c xc rel full b lp sp sc :
  (forall a d, toISOString env a = toISOString env d -> a = d) ->
  nodes s !! p = Some xp -> nodes s !! c = Some xc -> c <> p ->
  is_Some (listenerTimeout xp) ->
  listenerTasks xp = Some b ->
  b_previousStat b = RObj lp ->
  defaultCallbacks (b_done b) ->
  stats s !! lp = Some (statsObject sp) ->
  fs_exists env (pathString xp) = true ->
  (if followLinks (config xp) then fs_stat env else fs_lstat env) (pathString xp)
    = inr (statsObject sc) ->
  st_birthtime sp = st_birthtime sc ->
  ~ sameButAccess sp sc ->
  st_kind sc = KDirectory ->
  fs_readdir env (pathString xp) = inr [] ->
  ignorefs_isIgnoredPath env (path_join env (pathString xp) rel) (getIgnoredOptions xp)
    = false ->
  children xp = [(rel, Child c)] ->
  listeners xc = childListeners p rel full ->
  path xc = Some full -> state xc = active -> children xc = [] ->
  callerOnly "log" xp -> callerOnly "change" xp ->
  exists s' xp' xc',
    exec env (S (S (S (S (S (S n)))))) (CFireTimeout p) s = Ok tt s' /\
    nodes s' !! p = Some xp' /\ children xp' = [] /\ state xp' = state xp /\
    stat xp' = RObj (length (stats s)) /\
    nodes s' !! c = Some xc' /\ state xc' = deleted /\ fswatcher xc' = None /\
    watchers s' = <[full := None]> (watchers s) /\
    trace s' = (trace s ++
      [(p, ELog "debug" ("watch evaluating on: " ++ pathString xp));
       (p, ELog "debug" ("ignore: " ++ path_join env (pathString xp) rel ++ " no"));
       (p, ELog "debug" ("watch determined delete: " ++ path_join env (pathString xp) rel
                         ++ " via: " ++ pathString xp));
       (c, ELog "debug" ("close: " ++ full));
       (p, ELog "debug" ("close: " ++ full));
       (c, EChange "delete" full RNull (stat xc));
       (p, EChange "delete" full RNull (stat xc));
       (c, EClose (Some "deleted"))])%list.
Proof.
  intros Hinj Hp Hc Hne [d Ht] Hb Hprev Hdone Hlp Hex Hst Hbirth Hdiff Hkind Hdir Hig
         Hch Hl Hpath Ha Hchc Hlog Hchange.
  assert (Hne' : p <> c) by done.
  change (exec env (S (S (S (S (S (S n)))))) (CFireTimeout p))
    with (fireTimeout env (@exec env (S (S (S (S (S n)))))) p).
  unfold fireTimeout. rewrite (bind_Ok _ _ _ _ _ (getW_Ok _ _ _ Hp)), Ht, Hb.
  erewrite (bind_Ok (updW _ _)); [|reflexivity].
  erewrite (bind_Ok (updW _ _)); [|reflexivity].
  set (x0 := set_listenerTimeout None (set_listenerTasks None xp)).
  set (s0 := set_nodes (alter (set_listenerTimeout None) _ _) _).
  assert (Hp0 : nodes s0 !! p = Some x0).
  { unfold s0. simpl. by rewrite !list_lookup_alter_eq, Hp. }
  unfold runBatch. rewrite (bind_Ok _ _ _ _ _ (getW_Ok _ _ _ Hp0)).
  change (pathString x0) with (pathString xp).
  rewrite (bind_Ok _ _ _ _ _ (log_exact env _ s0 p x0 _ _ Hp0 Hlog)).
  rewrite Hex. cbn [negb].
  set (e1 := ELog "debug" ("watch evaluating on: " ++ pathString xp)).
  set (s1 := emitted p e1 s0).
  set (x1 := set_listeners (withoutOnce (eventName e1) (listeners x0)) x0).
  assert (Hp1 : nodes s1 !! p = Some x1) by (by apply emitted_lookup).
  rewrite (bind_Ok _ _ _ _ _ (getStat_reset_Ok env s1 p x1 _ Hp1 Hst)).
  change (stats s1) with (stats s).
  set (l := length (stats s)).
  set (s2 := set_nodes _ _).
  set (x2 := set_stat (RObj l) x1).
  assert (Hp2 : nodes s2 !! p = Some x2).
  { change (alter (set_stat (RObj l)) p (nodes s1) !! p = Some x2).
    by rewrite list_lookup_alter_eq, Hp1. }
  rewrite (bind_Ok _ _ _ _ _ (getW_Ok _ _ _ Hp2)). cbn [stat set_stat x2].
  assert (Hl2 : stats s2 !! l = Some (statsObject sc)).
  { unfold s2, l. simpl. by rewrite lookup_app_r, Nat.sub_diag by lia. }
  assert (Hlp2 : stats s2 !! lp = Some (statsObject sp)).
  { unfold s2. simpl. by apply lookup_app_l_Some. }
  rewrite (bind_Ok _ _ _ _ _ (birthtimeString_Ok env s2 l sc Hl2)).
  rewrite Hprev.
  rewrite (bind_Ok _ _ _ _ _ (birthtimeString_Ok env s2 lp sp Hlp2)).
  rewrite Hbirth, stringNe_refl.
  change (bind (ret None) ?k s2) with (k None s2). cbv beta iota.
  rewrite (bind_Ok _ _ _ _ _
             (onStats_Ok _ _ _ _ (statChanged_objects env (stats s2) lp l _ _ Hlp2 Hl2))).
  assert (String.eqb (stringify env (comparedObject env (statsObject sp)))
                     (stringify env (comparedObject env (statsObject sc))) = false) as ->.
  { apply String.eqb_neq. by rewrite (compared_same env sp sc Hinj). }
  cbn [negb].
  set (s3 := set_stats _ s2).
  assert (Hp3 : nodes s3 !! p = Some x2) by exact Hp2.
  assert (Hl3 : stats s3 !! l = Some (statsObject sc)).
  { unfold s3. simpl stats. by apply lookup_app_l_Some. }
  unfold checkWhatHasChanged.
  rewrite (bind_Ok _ _ _ _ _ (isDirectory_Ok s3 p x2 l sc Hp3 eq_refl Hl3)).
  rewrite (bind_Ok _ _ _ _ _ (getW_Ok _ _ _ Hp3)).
  rewrite Hkind. cbn [negb]. change (pathString x2) with (pathString xp).
  rewrite Hdir. change (children x2) with (children xp). rewrite Hch.
  assert ((if match b_method b with Some m => String.eqb m "watch" | None => false end
           then forwardTargets [(rel, Child c)] [] else []) = []) as ->
    by (by destruct (match b_method b with Some m => String.eqb m "watch" | None => false end)).
  unfold deletionScan. rewrite ?bind_assoc.
  rewrite (bind_Ok _ _ _ _ _ (getW_Ok _ _ _ Hp3)).
  change (children x2) with (children xp). rewrite Hch. cbn [forEach fst].
  rewrite ?bind_assoc.
  rewrite (bind_Ok _ _ _ _ _ (getW_Ok _ _ _ Hp3)).
  change (children x2) with (children xp). rewrite Hch.
  cbn [lookupChild]. rewrite String.eqb_refl. cbn [includes existsb].
  change (pathString x2) with (pathString xp).
  unfold isIgnoredPath. rewrite ?bind_assoc.
  rewrite (bind_Ok _ _ _ _ _ (getW_Ok _ _ _ Hp3)).
  change (getIgnoredOptions x2) with (getIgnoredOptions xp). rewrite Hig.
  set (joined := path_join env (pathString xp) rel).
  rewrite ?bind_assoc.
  assert (Hlog2 : callerOnly "log" x2) by (by apply (callerOnly_withoutOnce "log" _ x0)).
  rewrite (bind_Ok _ _ _ _ _ (log_exact env _ s3 p x2 _ _ Hp3 Hlog2)).
  set (e2 := ELog "debug" ("ignore: " ++ joined ++ " " ++ "no")).
  set (s4 := emitted p e2 s3).
  set (x4 := set_listeners (withoutOnce (eventName e2) (listeners x2)) x2).
  assert (Hp4 : nodes s4 !! p = Some x4) by (by apply emitted_lookup).
  assert (Hlog4 : callerOnly "log" x4) by (by apply (callerOnly_withoutOnce "log" _ x2)).
  change (bind (ret false) ?k s4) with (k false s4). cbv beta iota.
  rewrite ?bind_assoc.
  rewrite (bind_Ok _ _ _ _ _ (log_exact env _ s4 p x4 _ _ Hp4 Hlog4)).
  set (e3 := ELog "debug" ("watch determined delete: " ++ joined ++ " via: " ++ pathString xp)).
  set (s5 := emitted p e3 s4).
  set (x5 := set_listeners (withoutOnce (eventName e3) (listeners x4)) x4).
  assert (Hp5 : nodes s5 !! p = Some x5) by (by apply emitted_lookup).
  assert (Hc5 : nodes s5 !! c = Some xc).
  { unfold s5, s4. rewrite !emitted_lookup_ne by done.
    change (alter (set_stat (RObj l)) p (nodes s1) !! c = Some xc).
    rewrite list_lookup_alter_ne by done. unfold s1.
    rewrite emitted_lookup_ne by done. unfold s0. simpl.
    by rewrite !list_lookup_alter_ne by done. }
  destruct (closeChild_deleted_run env n s5 p x5 c xc rel full Hp5 Hc5 Hne)
    as (s' & xp' & xc' & Hrun & Hp' & Hch' & Hcore' & Hc' & Hst' & Hf' & Hreg' & _ & Htr');
    try done.
  { change (children x5) with (children xp). rewrite Hch. simpl.
    by rewrite String.eqb_refl. }
  { unfold callerOnly, x5, x4, x2, x1, x0. simpl. by do 3 apply Forall_withoutOnce. }
  { unfold callerOnly, x5, x4, x2, x1, x0. simpl. by do 3 apply Forall_withoutOnce. }
  rewrite (bind_Ok _ _ _ _ _ Hrun).
  cbn [creationScan]. rewrite ?bind_assoc.
  repeat (erewrite (bind_Ok (ret _)); [|reflexivity]). cbv beta iota.
  rewrite (finish_none env _ _ _ Hdone).
  exists s', xp', xc'. split; [reflexivity|].
  destruct (core_fields _ _ Hcore') as (_ & Hstat' & Hstate' & _).
  split_and!; try done.
  - rewrite Hch'. change (children x5) with (children xp). rewrite Hch. simpl.
    by rewrite String.eqb_refl.
  - rewrite Htr'. simpl. by rewrite <- !app_assoc.
Qed.

Lemma emit_log_bubbles env n (s : World) p xp c xc level message :
  nodes s !! p = Some xp -> nodes s !! c = Some xc -> c <> p ->
  logsBubbleTo p xc -> callerOnly "log" xp ->
  exec env (S (S n)) (CEmit c (ELog level message)) s =
    Ok tt (emitted p (ELog level message) (emitted c (ELog level message) s)).
Proof.
  intros Hp Hc Hne Hl Hlog.
  change (exec env (S (S n)) (CEmit c (ELog level message)))
    with (emit (@exec env (S n)) c (ELog level message)).
  unfold emit. rewrite (bind_Ok _ _ _ _ _ (getW_Ok _ _ _ Hc)). cbn [unhandled].
  erewrite (bind_Ok (modify _)); [|reflexivity].
  erewrite (bind_Ok (updW _ _)); [|reflexivity].
  change (eventName (ELog level message)) with "log".
  unfold logsBubbleTo in Hl. rewrite Hl. cbn [forEach runHandler snd].
  erewrite (bind_Ok (exec _ _ _)).
  2:{ eapply (emit_exact env n _ p xp); [|exact Hlog|reflexivity].
      simpl. by rewrite list_lookup_alter_ne. }
  reflexivity.
Qed.

Lemma log_bubbles env n (s : World) p xp c xc level message :
  nodes s !! p = Some xp -> nodes s !! c = Some xc -> c <> p ->
  logsBubbleTo p xc -> callerOnly "log" xp ->
  log (@exec env (S (S n))) c level message s =
    Ok tt (emitted p (ELog level message) (emitted c (ELog level message) s)).
Proof. intros. unfold log. by eapply emit_log_bubbles. Qed.

Lemma bubbled_lookup_child (s : World) p c xc e : c <> p ->
  nodes s !! c = Some xc ->
  nodes (emitted p e (emitted c e s)) !! c
  = Some (set_listeners (withoutOnce (eventName e) (listeners xc)) xc).
Proof. intros Hne Hc. rewrite emitted_lookup_ne by done. by apply emitted_lookup. Qed.

Lemma bubbled_lookup_parent (s : World) p xp c e : c <> p ->
  nodes s !! p = Some xp ->
  nodes (emitted p e (emitted c e s)) !! p
  = Some (set_listeners (withoutOnce (eventName e) (listeners xp)) xp).
Proof. intros Hne Hp. apply emitted_lookup. by rewrite emitted_lookup_ne. Qed.

Lemma withoutOnce_childListeners ev p rel full :
  String.eqb "close" ev = false ->
  withoutOnce ev (childListeners p rel full) = childListeners p rel full.
Proof.
  intros H. unfold withoutOnce, childListeners. cbn [List.filter fst snd].
  by rewrite H, !andb_false_r.
Qed.












Lemma bind_Ok_inv {S A B} (m : M S A) (k : A -> M S B) s b s' :
  bind m k s = Ok b s' -> exists a s1, m s = Ok a s1 /\ k a s1 = Ok b s'.
Proof. unfold bind. destruct (m s) as [a s1|e s1|s1]; [eauto|done..]. Qed.

Lemma getW_inv (s : World) w x s' :
  getW w s = Ok x s' -> s' = s /\ nodes s !! w = Some x.
Proof. unfold getW. destruct (nodes s !! w); [|done]. by intros [= -> ->]. Qed.

Lemma preserves_Ok {A} (R : World -> World -> Prop) (m : W A) s a s' :
  preserves R m -> m s = Ok a s' -> R s s'.
Proof. intros H E. specialize (H s). by rewrite E in H. Qed.

Lemma windsDown_inactive s s' w x :
  windsDown s s' -> nodes s !! w = Some x -> state x <> active -> state x <> pending ->
  exists x', nodes s' !! w = Some x' /\ state x' <> active.
Proof.
  intros (HN & _) Hw Ha Hp.
  destruct (Forall2_lookup_l _ _ _ _ _ HN Hw) as (x' & Hw' & (_ & _ & _ & _ & _ & _ & [H1 H2] & _)).
  exists x'. split; [done|]. intros E. by apply Ha, H1.
Qed.

(** X3: when [close] returns, the watcher is not active, and closing it
    again, with any reason, changes nothing. *)
Theorem close_deactivates env fuel (s : World) w reason s' :
  exec env fuel (CClose w reason) s = Ok tt s' ->
  (exists x', nodes s' !! w = Some x' /\ state x' <> active) /\
  (forall fuel' reason', exec env (S fuel') (CClose w reason') s' = Ok tt s').
Proof.
  intros Hrun.
  assert (exists x', nodes s' !! w = Some x' /\ state x' <> active) as (x' & Hw' & Hs').
  { destruct fuel as [|n]; [done|].
    change (exec env (S n) (CClose w reason)) with (close (@exec env n) w reason) in Hrun.
    unfold close in Hrun.
    apply bind_Ok_inv in Hrun as (x & s0 & Hget & Hrun).
    apply getW_inv in Hget as [-> Hw].
    destruct (isActive (state x)) eqn:Hact; cbn [negb] in Hrun.
    2:{ injection Hrun as <-. exists x. split; [done|]. by destruct (state x). }
    apply bind_Ok_inv in Hrun as ([] & s1 & _ & Hrun).
    apply bind_Ok_inv in Hrun as ([] & s2 & _ & Hrun).
    apply bind_Ok_inv in Hrun as (x1 & s2' & Hget & Hrun).
    apply getW_inv in Hget as [-> Hw2].
    apply bind_Ok_inv in Hrun as ([] & s3 & Hpolls & Hrun).
    assert (nodes s3 = nodes s2) as Hn3.
    { destruct (match method x1 with Some m => String.eqb m "watchFile" | None => false end);
        simpl in Hpolls; by injection Hpolls as <-. }
    apply bind_Ok_inv in Hrun as ([] & s4 & Hfs & Hrun).
    assert (exists x4, nodes s4 !! w = Some x4) as (x4 & Hw4).
    { destruct (fswatcher x1) as [h|].
      - injection Hfs as <-. simpl. rewrite list_lookup_alter_eq, Hn3, Hw2. eauto.
      - injection Hfs as <-. rewrite Hn3. eauto. }
    apply bind_Ok_inv in Hrun as ([] & s5 & Hstate & Hrun).
    assert (exists st, st <> active /\ st <> pending /\
              windsDown (set_nodes (alter (set_state st) w (nodes s4)) s4) s5)
      as (st & Hst1 & Hst2 & Hwd).
    { rewrite reason_cases in Hstate.
      destruct (reasonIs reason "deleted"); [|destruct (reasonIs reason "failure")].
      - exists deleted. split; [done|]. split; [done|].
        apply bind_Ok_inv in Hstate as ([] & s4' & Hupd & Hstate). injection Hupd as <-.
        apply bind_Ok_inv in Hstate as (y & s4'' & Hget & Hstate).
        apply getW_inv in Hget as [-> _].
        eapply preserves_Ok; [|exact Hstate]. apply teardown_windsDown.
      - exists closed. split; [done|]. split; [done|].
        apply bind_Ok_inv in Hstate as ([] & s4' & Hupd & Hstate). injection Hupd as <-.
        apply bind_Ok_inv in Hstate as (y & s4'' & Hget & Hstate).
        apply getW_inv in Hget as [-> _].
        eapply preserves_Ok; [|exact Hstate]. unfold log. apply teardown_windsDown.
      - exists closed. split; [done|]. split; [done|].
        injection Hstate as <-. reflexivity. }
    assert (windsDown s5 s') as Hwd'.
    { eapply preserves_Ok; [|exact Hrun]. apply teardown_windsDown. }
    eapply (windsDown_inactive _ s' w (set_state st x4)).
    - etrans; [exact Hwd|exact Hwd'].
    - simpl. by rewrite list_lookup_alter_eq, Hw4.
    - done.
    - done. }
  split; [eauto|]. intros fuel' reason'.
  by apply (close_inactive env fuel' s' w x').
Qed.

(** X2: whatever the listeners and the children, and whatever the outcome,
    [close] and [closeChild] only wind down: no watcher becomes active or
    pending that was not, none is constructed, no handle is opened and no
    [watchFile] listener added, and no stat, timer, batch, method, path or
    configuration changes. *)
Theorem teardown_only_winds_down env fuel (s : World) w name reason :
  windsDown s (final_state (exec env fuel (CClose w reason) s)) /\
  windsDown s (final_state (exec env fuel (CCloseChild w name reason) s)).
Proof. split; apply teardown_windsDown. Qed.

(** X4: emitting a [log], [close] or [error] event, through any chain of
    bubbling listeners, changes no watcher outside its listener table and
    its children map, no stat and no binding; the trace grows by copies of
    that event only.  ([change] and [watching] are left out: a [change]
    listener of [watchChild] closes a child, and [watching] runs the
    continuations that [watch] registers with [once].) *)
Theorem emit_has_no_side_effect env fuel (s : World) w e :
  isChange e = false -> isWatching e = false ->
  quietStep e s (final_state (exec env fuel (CEmit w e) s)).
Proof. intros H _. by apply emit_quiet. Qed.

(** X9: when the stat of the path fails, [watch()] on a watcher that is not
    active and has no stat emits [watching] with that error and returns it;
    the watcher keeps its state and nothing is bound. *)
Theorem watch_stat_failure env n (s : World) w x err reset :
  nodes s !! w = Some x -> state x <> active -> hasRef (stat x) = false ->
  (if followLinks (config x) then fs_stat env else fs_lstat env) (pathString x) = inl err ->
  callerOnly "log" x -> callerOnly "watching" x ->
  exists s' x',
    exec env (S (S n)) (CWatch w reset) s = Ok (Some err) s' /\
    nodes s' !! w = Some x' /\ core x' = core x /\ children x' = children x /\
    handles s' = handles s /\ polls s' = polls s /\ stats s' = stats s /\
    watchers s' = watchers s /\
    trace s' = (trace s ++ [(w, ELog "debug" ("watch init: " ++ pathString x));
                            (w, EWatching (Some err))])%list.
Proof.
  intros Hw Hs Href Hst Hlog Hwat.
  change (exec env (S (S n)) (CWatch w reset)) with (watch env (@exec env (S n)) w reset).
  unfold watch. rewrite (bind_Ok _ _ _ _ _ (getW_Ok _ _ _ Hw)).
  assert (isActive (state x) = false) as -> by (by destruct (state x)).
  cbn [andb].
  rewrite (bind_Ok _ _ _ _ _ (close_inactive env n s w x None Hw Hs)).
  rewrite (bind_Ok _ _ _ _ _ (log_exact env n s w x _ _ Hw Hlog)).
  set (e1 := ELog "debug" ("watch init: " ++ pathString x)).
  set (s1 := emitted w e1 s).
  set (x1 := set_listeners (withoutOnce (eventName e1) (listeners x)) x).
  assert (Hw1 : nodes s1 !! w = Some x1) by (by apply emitted_lookup).
  assert (getStat env w false s1 = Ok (inl err) s1) as E.
  { unfold getStat. rewrite (bind_Ok _ _ _ _ _ (getW_Ok _ _ _ Hw1)).
    change (stat x1) with (stat x). rewrite Href. cbn [andb].
    change (config x1) with (config x). change (pathString x1) with (pathString x).
    by rewrite Hst. }
  rewrite (bind_Ok _ _ _ _ _ E).
  assert (Hwat1 : callerOnly "watching" x1) by (by apply (callerOnly_withoutOnce "watching" _ x)).
  rewrite (bind_Ok _ _ _ _ _ (emit_exact env n s1 w x1 (EWatching (Some err)) Hw1 Hwat1 eq_refl)).
  eexists _, _. split; [reflexivity|]. split; [by apply emitted_lookup|].
  split_and!; try done.
  simpl. by rewrite <- app_assoc.
Qed.

(** X13: [close(reason)] on an active watcher without children sets the
    state ([deleted] for the reason ['deleted'], [closed] otherwise),
    releases its handle and its [watchFile] listener, clears the registry
    entry of its path, keeps stat, timer and batch, and emits the events of
    [closeEvents] in that order. *)
Theorem close_leaf_unregisters env n (s : World) w x reason p :
  nodes s !! w = Some x -> state x = active -> children x = [] ->
  callerOnly "log" x -> callerOnly "change" x -> registeredAs p x ->
  exists s' x',
    exec env (S (S n)) (CClose w reason) s = Ok tt s' /\
    nodes s' !! w = Some x' /\
    state x' = (if reasonIs reason "deleted" then deleted else closed) /\
    fswatcher x' = None /\ stat x' = stat x /\
    listenerTimeout x' = listenerTimeout x /\ listenerTasks x' = listenerTasks x /\
    watchers s' = <[p := None]> (watchers s) /\
    handles s' = match fswatcher x with
                 | Some h => alter (fun hd => (fst hd, false)) h (handles s)
                 | None => handles s
                 end /\
    polls s' = (if match method x with Some m => String.eqb m "watchFile" | None => false end
                then List.filter (fun q => stringNe q (pathString x)) (polls s)
                else polls s) /\
    trace s' = (trace s ++ closeEvents w x reason)%list.
Proof. apply close_leaf. Qed.

(** X15: [closeChild(rel, 'deleted')] on a watched file: the child becomes
    [deleted] and releases its handle, its [log] and its
    [change('delete')] are repeated by the parent, the child leaves the
    children map of the parent and the registry entry of its path is
    cleared. *)
Theorem closeChild_deleted_bubbles env n (s : World) p xp c xc rel full :
  nodes s !! p = Some xp -> nodes s !! c = Some xc -> c <> p ->
  lookupChild (children xp) rel = Some (Child c) ->
  listeners xc = childListeners p rel full ->
  path xc = Some full -> state xc = active -> children xc = [] ->
  callerOnly "log" xp -> callerOnly "change" xp ->
  exists s' xp' xc',
    exec env (S (S (S (S (S n))))) (CCloseChild p rel (Some "deleted")) s = Ok tt s' /\
    nodes s' !! p = Some xp' /\ children xp' = deleteChild (children xp) rel /\
    core xp' = core xp /\
    nodes s' !! c = Some xc' /\ state xc' = deleted /\ fswatcher xc' = None /\
    watchers s' = <[full := None]> (watchers s) /\
    handles s' = match fswatcher xc with
                 | Some h => alter (fun hd => (fst hd, false)) h (handles s)
                 | None => handles s
                 end /\
    trace s' = (trace s ++
      [(c, ELog "debug" ("close: " ++ full));
       (p, ELog "debug" ("close: " ++ full));
       (c, EChange "delete" full RNull (stat xc));
       (p, EChange "delete" full RNull (stat xc));
       (c, EClose (Some "deleted"))])%list.
Proof. apply closeChild_deleted_run. Qed.


Lemma set_stat_id x : set_stat (stat x) x = x.
Proof. by destruct x. Qed.

Lemma getStat_object env (s : World) w x o :
  nodes s !! w = Some x -> statObject env s x = Some o ->
  exists l s2,
    getStat env w false s = Ok (inr (RObj l)) s2 /\
    nodes s2 !! w = Some (set_stat (RObj l) x) /\
    stats s2 !! l = Some o /\
    (forall w', w' <> w -> nodes s2 !! w' = nodes s !! w') /\
    length (nodes s2) = length (nodes s) /\
    handles s2 = handles s /\ polls s2 = polls s /\ watchers s2 = watchers s /\
    groups s2 = groups s /\ trace s2 = trace s.
Proof.
  intros Hw Ho. unfold statObject in Ho. unfold getStat.
  rewrite (bind_Ok _ _ _ _ _ (getW_Ok _ _ _ Hw)).
  destruct (stat x) as [| |l] eqn:Hs; cbn [hasRef andb negb].
  1,2: destruct ((if followLinks (config x) then fs_stat env else fs_lstat env) (pathString x))
         as [e|o'] eqn:Hst; [done|]; injection Ho as ->;
       exists (length (stats s)); eexists; (split; [reflexivity|]); simpl;
       rewrite list_lookup_alter_eq, Hw, length_alter; simpl;
       (split_and!; try done;
        [by rewrite lookup_app_r, Nat.sub_diag by lia
        |intros w' Hne; by rewrite list_lookup_alter_ne by done]).
  exists l, s. split; [reflexivity|]. rewrite <- Hs, set_stat_id. done.
Qed.

Lemma watch_activates_leaf env n (s : World) w x o failed m rest reset :
  nodes s !! w = Some x -> state x <> active ->
  statObject env s x = Some o -> objectIsDirectory o = Some false ->
  preferredMethods (config x) = (failed ++ m :: rest)%list ->
  Forall (fun m' => is_Some (bindError env (pathString x) m')) failed ->
  bindError env (pathString x) m = None ->
  callerOnly "log" x -> callerOnly "watching" x ->
  exists s' x',
    exec env (S (S n)) (CWatch w reset) s = Ok None s' /\
    nodes s' !! w = Some x' /\ state x' = active /\ method x' = Some m /\
    config x' = config x /\ path x' = path x /\
    watchers s' = watchers s /\
    bindings s' = S (bindings s) /\
    (forall w', w' <> w -> nodes s' !! w' = nodes s !! w') /\
    length (nodes s') = length (nodes s) /\
    trace s' = (trace s ++
      [(w, ELog "debug" ("watch init: " ++ pathString x));
       (w, ELog "debug" ("watch done: " ++ pathString x ++ " undefined"));
       (w, EWatching None)])%list.
Proof.
  intros Hw Hs Ho Hkind Hpref Hfail Hbind Hlog Hwat.
  change (exec env (S (S n)) (CWatch w reset)) with (watch env (@exec env (S n)) w reset).
  unfold watch. run_getW Hw.
  assert (isActive (state x) = false) as -> by (by destruct (state x)).
  cbn [andb].
  rewrite (bind_Ok _ _ _ _ _ (close_inactive env n s w x None Hw Hs)).
  run_emit Hw Hlog.
  set (e1 := ELog "debug" ("watch init: " ++ pathString x)).
  set (s1 := emitted w e1 s).
  set (x1 := set_listeners (withoutOnce (eventName e1) (listeners x)) x).
  assert (Hw1 : nodes s1 !! w = Some x1) by (by apply emitted_lookup).
  destruct (getStat_object env s1 w x1 o Hw1 Ho)
    as (l & s2 & Hget & Hw2 & Hl2 & Hoth2 & Hlen2 & Hh2 & Hpo2 & Hwa2 & Hg2 & Htr2).
  rewrite (bind_Ok _ _ _ _ _ Hget). clear Hget.
  set (x2 := set_stat (RObj l) x1) in *.
  rewrite (bind_Ok _ _ _ _ _ (getW_Ok _ _ _ Hw2)).
  change (config x2) with (config x). rewrite Hpref.
  rewrite (bind_Ok _ _ _ _ _
             (watchSelf_selects_exact env s2 w x2 failed m rest [] Hw2 Hfail Hbind)).
  set (x3 := set_state active (set_method (Some m)
               (if String.eqb m "watch" then set_fswatcher (Some (length (handles s))) x2
                else x2))).
  set (s3 := set_nodes _ (boundBy w m x2 s2)).
  assert (Hw3 : nodes s3 !! w = Some x3).
  { unfold s3, x3, boundBy.
    destruct (String.eqb m "watch"); cbn [nodes set_nodes set_handles set_polls];
      rewrite !list_lookup_alter_eq, Hw2, ?Hh2; reflexivity. }
  assert (Hl3 : stats s3 !! l = Some o).
  { unfold s3, boundBy. by destruct (String.eqb m "watch"). }
  unfold watchChildren, isDirectory.
  assert (Hs3 : stat x3 = RObj l) by (unfold x3; by destruct (String.eqb m "watch")).
  rewrite !bind_assoc.
  rewrite (bind_Ok _ _ _ _ _ (getW_Ok _ _ _ Hw3)), Hs3.
  rewrite !bind_assoc.
  rewrite (bind_Ok _ _ _ _ _ (onStats_Ok _ _ _ _ (readObj_Ok _ _ _ Hl3))).
  rewrite set_stats_id, Hkind.
  change (bind (ret false) ?k s3) with (k false s3). cbv beta iota.
  change (bind (ret None) ?k s3) with (k None s3). cbv beta.
  change (bool_decide (is_Some None)) with false. cbn [when].
  change (bind (ret tt) ?k s3) with (k tt s3). cbv beta.
  rewrite (bind_Ok _ _ _ _ _ (getW_Ok _ _ _ Hw3)).
  assert (Hp3 : pathString x3 = pathString x)
    by (unfold x3; by destruct (String.eqb m "watch")).
  assert (Hlog3 : callerOnly "log" x3).
  { unfold callerOnly, x3. destruct (String.eqb m "watch"); simpl;
      by apply Forall_withoutOnce. }
  rewrite (bind_Ok _ _ _ _ _ (log_exact env n s3 w x3 _ _ Hw3 Hlog3)).
  set (e2 := ELog "debug" _).
  assert (Hw4 := emitted_lookup s3 w x3 e2 Hw3).
  assert (Hwat4 : callerOnly "watching"
                    (set_listeners (withoutOnce (eventName e2) (listeners x3)) x3)).
  { unfold callerOnly, x3. destruct (String.eqb m "watch"); simpl;
      by do 2 apply Forall_withoutOnce. }
  rewrite (bind_Ok _ _ _ _ _ (emit_exact env n _ w _ (EWatching None) Hw4 Hwat4 eq_refl)).
  eexists _, _. split; [reflexivity|]. split; [by apply emitted_lookup|].
  assert (Htr1 : trace s2 = (trace s ++ [(w, e1)])%list) by (by rewrite Htr2).
  assert (Hoth1 : forall w', w' <> w -> nodes s2 !! w' = nodes s !! w').
  { intros w' Hne. rewrite Hoth2 by done. by apply emitted_lookup_ne. }
  assert (Hlen1 : length (nodes s2) = length (nodes s)).
  { rewrite Hlen2. unfold s1, emitted. simpl. by rewrite length_alter. }
  change (handles s1) with (handles s) in Hh2. change (polls s1) with (polls s) in Hpo2.
  change (watchers s1) with (watchers s) in Hwa2.
  clear Hw1 Hoth2 Hlen2 Htr2. clearbody s1.
  unfold x3, s3, boundBy, bindings, e2. rewrite Hp3.
  destruct (String.eqb m "watch"); simpl; rewrite ?length_app, ?length_alter, ?Hh2, ?Hpo2;
    simpl;
    (split_and!; try done; try lia;
     [intros w' Hne; rewrite !list_lookup_alter_ne by done; by apply Hoth1
     |by rewrite Htr1, <- !app_assoc]).
Qed.

Lemma watch_exhausts env n (s : World) w x o reset :
  nodes s !! w = Some x -> state x <> active ->
  statObject env s x = Some o ->
  Forall (fun m => is_Some (bindError env (pathString x) m)) (preferredMethods (config x)) ->
  callerOnly "log" x -> callerOnly "watching" x ->
  let err := Error ("no watch methods left to try, failures are: "
                    ++ joinComma (map errorToString
                         (omap (bindError env (pathString x)) (preferredMethods (config x))))) in
  exists s' x',
    exec env (S (S n)) (CWatch w reset) s = Ok (Some err) s' /\
    nodes s' !! w = Some x' /\ state x' = state x /\ method x' = method x /\
    fswatcher x' = fswatcher x /\
    handles s' = handles s /\ polls s' = polls s /\ watchers s' = watchers s /\
    trace s' = (trace s ++ [(w, ELog "debug" ("watch init: " ++ pathString x));
                            (w, EWatching (Some err))])%list.
Proof.
  intros Hw Hs Ho Hfail Hlog Hwat err.
  change (exec env (S (S n)) (CWatch w reset)) with (watch env (@exec env (S n)) w reset).
  unfold watch. run_getW Hw.
  assert (isActive (state x) = false) as -> by (by destruct (state x)).
  cbn [andb].
  rewrite (bind_Ok _ _ _ _ _ (close_inactive env n s w x None Hw Hs)).
  run_emit Hw Hlog.
  set (e1 := ELog "debug" ("watch init: " ++ pathString x)).
  set (s1 := emitted w e1 s).
  set (x1 := set_listeners (withoutOnce (eventName e1) (listeners x)) x).
  assert (Hw1 : nodes s1 !! w = Some x1) by (by apply emitted_lookup).
  destruct (getStat_object env s1 w x1 o Hw1 Ho)
    as (l & s2 & Hget & Hw2 & Hl2 & Hoth2 & Hlen2 & Hh2 & Hpo2 & Hwa2 & Hg2 & Htr2).
  rewrite (bind_Ok _ _ _ _ _ Hget). clear Hget.
  set (x2 := set_stat (RObj l) x1) in *.
  rewrite (bind_Ok _ _ _ _ _ (getW_Ok _ _ _ Hw2)).
  change (config x2) with (config x).
  rewrite (bind_Ok _ _ _ _ _ (watchSelf_exhausts env s2 w x2 _ [] Hw2 Hfail)).
  change (pathString x2) with (pathString x). simpl app. fold err.
  assert (Hwat2 : callerOnly "watching" x2).
  { unfold callerOnly, x2, x1. simpl. by apply Forall_withoutOnce. }
  rewrite (bind_Ok _ _ _ _ _ (emit_exact env n s2 w x2 (EWatching (Some err)) Hw2 Hwat2 eq_refl)).
  eexists _, _. split; [reflexivity|]. split; [by apply emitted_lookup|].
  unfold emitted. simpl. rewrite Hh2, Hpo2, Hwa2, Htr2. simpl.
  by rewrite <- app_assoc.
Qed.

(** ** Activation: the terminal states and the order of the methods *)


(** C6 (amended): [watch()] on a watcher that is not active, whose stat is
    cached or given by the file system, tries the preferred methods
    strictly in order.  When every method fails to bind, it emits
    [watching] with, and returns, one error whose message lists the
    failure of every method in that order; nothing is bound and the state
    of the watcher is left as it was, so a pending watcher stays pending
    and is not closed.  When a method binds after those before it have
    failed, and the path is not a directory, the watcher is active with
    that method, exactly one binding has been added, and [watching] is
    emitted without error. *)
Theorem watch_tries_methods_in_order env n (s : World) w x o failed reset :
  nodes s !! w = Some x -> state x <> active ->
  statObject env s x = Some o ->
  callerOnly "log" x -> callerOnly "watching" x ->
  Forall (fun m => is_Some (bindError env (pathString x) m)) failed ->
  (preferredMethods (config x) = failed ->
   let err := Error ("no watch methods left to try, failures are: "
                     ++ joinComma (map errorToString
                          (omap (bindError env (pathString x)) failed))) in
   exists s' x',
     exec env (S (S n)) (CWatch w reset) s = Ok (Some err) s' /\
     nodes s' !! w = Some x' /\ state x' = state x /\ method x' = method x /\
     bindings s' = bindings s /\
     trace s' = (trace s ++ [(w, ELog "debug" ("watch init: " ++ pathString x));
                             (w, EWatching (Some err))])%list) /\
  (forall m rest,
     preferredMethods (config x) = (failed ++ m :: rest)%list ->
     bindError env (pathString x) m = None ->
     objectIsDirectory o = Some false ->
     exists s' x',
       exec env (S (S n)) (CWatch w reset) s = Ok None s' /\
       nodes s' !! w = Some x' /\ state x' = active /\ method x' = Some m /\
       bindings s' = S (bindings s) /\
       trace s' = (trace s ++
         [(w, ELog "debug" ("watch init: " ++ pathString x));
          (w, ELog "debug" ("watch done: " ++ pathString x ++ " undefined"));
          (w, EWatching None)])%list).
Proof.
  intros Hw Hs Ho Hlog Hwat Hfail. split.
  - intros Hpref err.
    destruct (watch_exhausts env n s w x o reset Hw Hs Ho) as
      (s' & x' & Hrun & Hw' & Hst & Hm & _ & Hh & Hp & _ & Ht); try done.
    { by rewrite Hpref. }
    rewrite Hpref in Hrun, Ht. exists s', x'. split; [exact Hrun|].
    split_and!; try done. unfold bindings. by rewrite Hh, Hp.
  - intros m rest Hpref Hbind Hkind.
    destruct (watch_activates_leaf env n s w x o failed m rest reset)
      as (s' & x' & Hrun & Hw' & Ha & Hm & _ & _ & _ & Hb & _ & _ & Ht); try done.
    by exists s', x'.
Qed.

(** ** Instances of the theorems *)

Lemma statChanged_equivalence_witness :
  returned (statChanged (envFile (fileStats 1 1 1 10)) (RObj 0) (RObj 0)
              [statsObject (fileStats 1 1 1 10); statsObject (fileStats 9 9 1 10)])
    = Some false /\
  returned (statChanged (envFile (fileStats 1 1 1 10)) (RObj 0) (RObj 1)
              [statsObject (fileStats 1 1 1 10); statsObject (fileStats 9 9 1 10)])
    = returned (statChanged (envFile (fileStats 1 1 1 10)) (RObj 1) (RObj 0)
                  [statsObject (fileStats 1 1 1 10); statsObject (fileStats 9 9 1 10)]).
Proof.
  destruct (statChanged_equivalence (envFile (fileStats 1 1 1 10))
              [statsObject (fileStats 1 1 1 10); statsObject (fileStats 9 9 1 10)]
              (RObj 0) (RObj 1) RNull) as (H1 & H2 & _).
  - vm_compute. eauto.
  - vm_compute. eauto.
  - vm_compute. exact I.
  - split; [exact H1|exact H2].
Defined.

Lemma close_deactivates_witness :
  (exists x', nodes (after envDir (CClose 0%nat None) worldDir) !! 0%nat = Some x' /\
              state x' <> active) /\
  (forall fuel' reason',
     exec envDir (S fuel') (CClose 0%nat reason') (after envDir (CClose 0%nat None) worldDir)
     = Ok tt (after envDir (CClose 0%nat None) worldDir)).
Proof.
  apply (close_deactivates envDir fuel0 worldDir 0%nat None).
  vm_compute. reflexivity.
Defined.

Lemma emit_has_no_side_effect_witness :
  quietStep (ELog "info" "hello") worldDir
    (final_state (exec envDir fuel0 (CEmit 1%nat (ELog "info" "hello")) worldDir)).
Proof. apply emit_has_no_side_effect; reflexivity. Defined.

Lemma watchSelf_binds_once_witness :
  exists r s', watchSelf envPollOnly 0 ["watch"; "watchFile"] [] worldFileClosed = Ok r s' /\
    match r with
    | Some _ => s' = worldFileClosed
    | None =>
        bindings s' = S (bindings worldFileClosed) /\ stateOf s' 0 = Some active /\
        exists m, m ∈ ["watch"; "watchFile"] /\ bindError envPollOnly "/f" m = None /\
                  method <$> nodes s' !! 0%nat = Some (Some m)
    end.
Proof.
  eapply (watchSelf_binds_once envPollOnly worldFileClosed 0%nat _ ["watch"; "watchFile"] []).
  vm_compute. reflexivity.
Defined.

Lemma scanEntries_inactive_witness :
  scanEntries (@exec envDir fuel0) 0 [("/f/a", "a"); ("/f/b", "b")] worldFileClosed
  = Ok None worldFileClosed.
Proof.
  eapply (scanEntries_inactive envDir fuel0 worldFileClosed 0%nat).
  - vm_compute. reflexivity.
  - vm_compute. discriminate.
Defined.

Ltac root_listeners := constructor; [vm_compute; discriminate|constructor].

(** The same for the table of a caller who listens to [error]. *)
Ltac heard_listeners :=
  constructor;
    [first [vm_compute; discriminate | intros _; eexists; reflexivity]
    |constructor; [vm_compute; discriminate|constructor]].

Ltac root_registered :=
  split; [constructor; [intros _; left; reflexivity|constructor]
         |constructor; split; reflexivity].


Lemma watch_tries_methods_in_order_witness :
  (exists s' x',
     exec envNoBind fuel0 (CWatch 0%nat false) worldFilePending
       = Ok (Some (Error
           "no watch methods left to try, failures are: Error: EMFILE,Error: ENOSYS")) s' /\
     nodes s' !! 0%nat = Some x' /\ state x' = pending /\
     bindings s' = bindings worldFilePending) /\
  (exists s' x',
     exec envPollOnly fuel0 (CWatch 0%nat false) worldFileClosed = Ok None s' /\
     nodes s' !! 0%nat = Some x' /\ state x' = active /\ method x' = Some "watchFile" /\
     bindings s' = S (bindings worldFileClosed)).
Proof.
  split.
  - edestruct watch_tries_methods_in_order
      with (env := envNoBind) (n := 18%nat) (s := worldFilePending) (w := 0%nat)
           (o := statsObject (fileStats 1 1 1 10)) (failed := ["watch"; "watchFile"])
           (reset := false)
      as [Hex _].
    + vm_compute. reflexivity.
    + vm_compute. discriminate.
    + vm_compute. reflexivity.
    + root_listeners.
    + root_listeners.
    + constructor; [vm_compute; eauto|constructor; [vm_compute; eauto|constructor]].
    + destruct Hex as (s' & x' & Hrun & Hw & Hs & _ & Hb & _); [vm_compute; reflexivity|].
      exists s', x'. split; [exact Hrun|]. split; [exact Hw|]. split; [exact Hs|exact Hb].
  - edestruct watch_tries_methods_in_order
      with (env := envPollOnly) (n := 18%nat) (s := worldFileClosed) (w := 0%nat)
           (o := statsObject (fileStats 1 1 1 10)) (failed := ["watch"])
           (reset := false)
      as [_ Hsel].
    + vm_compute. reflexivity.
    + vm_compute. discriminate.
    + vm_compute. reflexivity.
    + constructor.
    + constructor.
    + constructor; [vm_compute; eauto|constructor].
    + destruct (Hsel "watchFile" []) as (s' & x' & Hrun & Hw & Ha & Hm & Hb & _);
        [vm_compute; reflexivity..|].
      exists s', x'. split; [exact Hrun|]. split; [exact Hw|]. split; [exact Ha|].
      split; [exact Hm|exact Hb].
Defined.

Lemma listener_debounces_witness :
  is_Some (returned (exec (envFile (fileStats 1 1 1 10)) fuel0
                       (CListener 0%nat None None) worldFile)).
Proof.
  edestruct listener_debounces
    with (env := envFile (fileStats 1 1 1 10)) (n := 18%nat) (s := worldFile) (w := 0%nat)
         (optsMethod := @None string) (next := @None completion)
    as [H _].
  - vm_compute. reflexivity.
  - apply H. root_listeners.
Defined.

Lemma watch_again_only_reports_witness :
  exists s', exec (envFile (fileStats 1 1 1 10)) fuel0 (CWatch 0%nat false) worldFile
             = Ok None s' /\
             trace s' = (trace worldFile ++ [(0%nat, EWatching None)])%list /\
             handles s' = handles worldFile /\ polls s' = polls worldFile.
Proof.
  edestruct watch_again_only_reports
    with (env := envFile (fileStats 1 1 1 10)) (n := 18%nat) (s := worldFile) (w := 0%nat)
    as (s' & Hrun & Ht & _ & _ & _ & Hh & Hp & _).
  - vm_compute. reflexivity.
  - vm_compute. reflexivity.
  - root_listeners.
  - exists s'. done.
Defined.

Lemma changed_file_reports_update_witness :
  exists s', exec (envFile (fileStats 9 9 2 20)) fuel0 (CFireTimeout 0%nat) worldFileNotified
             = Ok tt s' /\
             trace s' = (trace worldFileNotified ++
               [(0%nat, ELog "debug" "watch evaluating on: /f");
                (0%nat, ELog "debug" "watch determined update: /f");
                (0%nat, EChange "update" "/f" (RObj 1) (RObj 0))])%list.
Proof.
  edestruct changed_file_reports_update
    with (env := envFile (fileStats 9 9 2 20)) (n := 18%nat) (s := worldFileNotified)
         (w := 0%nat) (lp := 0%nat) (sp := fileStats 1 1 1 10) (sc := fileStats 9 9 2 20)
    as (s' & x' & Hrun & Ht & _).
  - exact numberToString_inj.
  - vm_compute. reflexivity.
  - vm_compute. eauto.
  - vm_compute. reflexivity.
  - vm_compute. reflexivity.
  - constructor; [eexists; reflexivity|constructor].
  - vm_compute. reflexivity.
  - vm_compute. reflexivity.
  - vm_compute. reflexivity.
  - vm_compute. reflexivity.
  - unfold sameButAccess. simpl. lia.
  - vm_compute. discriminate.
  - root_listeners.
  - root_listeners.
  - exists s'. split; [exact Hrun|exact Ht].
Defined.

Lemma failed_stat_reports_error_witness :
  exists s', exec envBroken fuel0 (CFireTimeout 0%nat) worldFileHeard = Ok tt s' /\
             trace s' = (trace worldFileHeard ++
               [(0%nat, ELog "debug" "watch evaluating on: /f");
                (0%nat, EError ENOENT)])%list.
Proof.
  edestruct failed_stat_reports_error
    with (env := envBroken) (n := 17%nat) (s := worldFileHeard) (w := 0%nat)
         (err := ENOENT)
    as (s' & x' & Hrun & Ht & _).
  - vm_compute. reflexivity.
  - vm_compute. eauto.
  - vm_compute. reflexivity.
  - constructor; [reflexivity|constructor].
  - vm_compute. reflexivity.
  - vm_compute. reflexivity.
  - heard_listeners.
  - heard_listeners.
  - vm_compute. reflexivity.
  - exists s'. split; [exact Hrun|exact Ht].
Defined.

Lemma close_leaf_unregisters_witness :
  exists s', exec (envFile (fileStats 1 1 1 10)) fuel0 (CClose 0%nat None) worldFile
             = Ok tt s' /\
             stateOf s' 0 = Some closed /\
             watchers s' = <["/f" := None]> (watchers worldFile) /\
             handles s' = [("/f", false)].
Proof.
  edestruct close_leaf_unregisters
    with (env := envFile (fileStats 1 1 1 10)) (n := 18%nat) (s := worldFile) (w := 0%nat)
         (reason := @None string) (p := "/f")
    as (s' & x' & Hrun & Hw & Hs & _ & _ & _ & _ & Hreg & Hh & _).
  - vm_compute. reflexivity.
  - vm_compute. reflexivity.
  - vm_compute. reflexivity.
  - root_listeners.
  - root_listeners.
  - root_registered.
  - exists s'. split; [exact Hrun|]. split; [unfold stateOf; rewrite Hw; cbn [fmap option_fmap option_map]; by rewrite Hs|].
    split; [exact Hreg|exact Hh].
Defined.


Lemma vanished_file_reports_delete_witness :
  exists s', exec envGone fuel0 (CFireTimeout 0%nat) worldFileNotified = Ok tt s' /\
             stateOf s' 0 = Some deleted /\
             watchers s' = <["/f" := None]> (watchers worldFileNotified) /\
             trace s' = (trace worldFileNotified ++
               [(0%nat, ELog "debug" "watch evaluating on: /f");
                (0%nat, ELog "debug" "watch determined delete: /f");
                (0%nat, ELog "debug" "close: /f");
                (0%nat, EChange "delete" "/f" RNull (RObj 0));
                (0%nat, EClose (Some "deleted"))])%list.
Proof.
  edestruct vanished_file_reports_delete
    with (env := envGone) (n := 17%nat) (s := worldFileNotified) (w := 0%nat) (p := "/f")
    as (s' & x' & Hrun & Hw & Hs & _ & _ & _ & _ & Hreg & _ & Ht).
  - vm_compute. reflexivity.
  - vm_compute. eauto.
  - vm_compute. reflexivity.
  - constructor; [eexists; reflexivity|constructor].
  - vm_compute. reflexivity.
  - vm_compute. reflexivity.
  - vm_compute. reflexivity.
  - root_listeners.
  - root_listeners.
  - root_registered.
  - exists s'. split; [exact Hrun|]. split; [unfold stateOf; rewrite Hw; cbn [fmap option_fmap option_map]; by rewrite Hs|].
    split; [exact Hreg|exact Ht].
Defined.

Lemma closeChild_deleted_bubbles_witness :
  exists s', exec envDir fuel0 (CCloseChild 0%nat "a" (Some "deleted")) worldDir = Ok tt s' /\
             (children <$> nodes s' !! 0%nat) = Some [] /\
             stateOf s' 1 = Some deleted /\
             trace s' = (trace worldDir ++
               [(1%nat, ELog "debug" "close: /d/a");
                (0%nat, ELog "debug" "close: /d/a");
                (1%nat, EChange "delete" "/d/a" RNull (RObj 1));
                (0%nat, EChange "delete" "/d/a" RNull (RObj 1));
                (1%nat, EClose (Some "deleted"))])%list.
Proof.
  edestruct closeChild_deleted_bubbles
    with (env := envDir) (n := 15%nat) (s := worldDir) (p := 0%nat) (c := 1%nat)
         (rel := "a") (full := "/d/a")
    as (s' & xp' & xc' & Hrun & Hp & Hch & _ & Hc & Hs & _ & _ & _ & Ht).
  - vm_compute. reflexivity.
  - vm_compute. reflexivity.
  - lia.
  - vm_compute. reflexivity.
  - vm_compute. reflexivity.
  - vm_compute. reflexivity.
  - vm_compute. reflexivity.
  - vm_compute. reflexivity.
  - root_listeners.
  - root_listeners.
  - exists s'. split; [exact Hrun|]. split; [rewrite Hp; cbn [fmap option_fmap option_map]; by rewrite Hch|].
    split; [unfold stateOf; rewrite Hc; cbn [fmap option_fmap option_map]; by rewrite Hs|exact Ht].
Defined.


Lemma directory_batch_reports_deleted_child_witness :
  exists s', exec envUnignored fuel0 (CFireTimeout 0%nat) worldDirNotified = Ok tt s' /\
             (children <$> nodes s' !! 0%nat) = Some [] /\
             stateOf s' 1 = Some deleted /\
             watchers s' = <["/d/a" := None]> (watchers worldDirNotified) /\
             trace s' = (trace worldDirNotified ++
               [(0%nat, ELog "debug" "watch evaluating on: /d");
                (0%nat, ELog "debug" "ignore: /d/a no");
                (0%nat, ELog "debug" "watch determined delete: /d/a via: /d");
                (1%nat, ELog "debug" "close: /d/a");
                (0%nat, ELog "debug" "close: /d/a");
                (1%nat, EChange "delete" "/d/a" RNull (RObj 1));
                (0%nat, EChange "delete" "/d/a" RNull (RObj 1));
                (1%nat, EClose (Some "deleted"))])%list.
Proof.
  edestruct directory_batch_reports_deleted_child
    with (env := envUnignored) (n := 14%nat) (s := worldDirNotified) (p := 0%nat)
         (c := 1%nat) (rel := "a") (full := "/d/a") (lp := 0%nat)
         (sp := dirStats 1) (sc := dirStats 3)
    as (s' & xp' & xc' & Hrun & Hp & Hch & _ & _ & Hc & Hs & _ & Hreg & Ht).
  - exact numberToString_inj.
  - vm_compute. reflexivity.
  - vm_compute. reflexivity.
  - lia.
  - vm_compute. eauto.
  - vm_compute. reflexivity.
  - vm_compute. reflexivity.
  - constructor; [eexists; reflexivity|constructor].
  - vm_compute. reflexivity.
  - vm_compute. reflexivity.
  - vm_compute. reflexivity.
  - vm_compute. reflexivity.
  - unfold sameButAccess. simpl. lia.
  - vm_compute. reflexivity.
  - vm_compute. reflexivity.
  - vm_compute. reflexivity.
  - vm_compute. reflexivity.
  - vm_compute. reflexivity.
  - vm_compute. reflexivity.
  - vm_compute. reflexivity.
  - vm_compute. reflexivity.
  - root_listeners.
  - root_listeners.
  - exists s'. split; [exact Hrun|].
    split; [rewrite Hp; cbn [fmap option_fmap option_map]; by rewrite Hch|].
    split; [unfold stateOf; rewrite Hc; cbn [fmap option_fmap option_map]; by rewrite Hs|].
    split; [exact Hreg|exact Ht].
Defined.



Lemma watch_stat_failure_witness :
  exists s', exec envGone fuel0 (CWatch 0%nat false) worldUnreachable = Ok (Some ENOENT) s' /\
             stateOf s' 0 = Some pending /\
             handles s' = handles worldUnreachable /\
             trace s' = (trace worldUnreachable ++
               [(0%nat, ELog "debug" "watch init: /d");
                (0%nat, EWatching (Some ENOENT))])%list.
Proof.
  edestruct watch_stat_failure
    with (env := envGone) (n := 18%nat) (s := worldUnreachable) (w := 0%nat) (err := ENOENT)
         (reset := false)
    as (s' & x' & Hrun & Hw & Hc & _ & Hh & _ & _ & _ & Ht).
  - vm_compute. reflexivity.
  - vm_compute. discriminate.
  - vm_compute. reflexivity.
  - vm_compute. reflexivity.
  - root_listeners.
  - root_listeners.
  - exists s'. split; [exact Hrun|]. split.
    + unfold stateOf. rewrite Hw. cbn [fmap option_fmap option_map].
      destruct (core_fields _ _ Hc) as (_ & _ & -> & _). reflexivity.
    + split; [exact Hh|exact Ht].
Defined.

(** ** Restarts, forwarding and failures *)

Lemma close_loop_skips env n w x reason (s : World) (entries : list (string * child)) :
  nodes s !! w = Some x -> plainNames (children x) ->
  forEach entries (fun entry =>
    x' <- getW w ;;
    match lookupChild (children x') (fst entry) with
    | Some childRelativePath =>
        exec env (S n) (CCloseChild w (childAsKey childRelativePath) reason)
    | None => ret tt
    end) s = Ok tt s.
Proof.
  intros Hw [Ho Hf]. induction entries as [|entry entries IH]; [reflexivity|].
  cbn [forEach]. rewrite ?bind_assoc.
  rewrite (bind_Ok _ _ _ _ _ (getW_Ok _ _ _ Hw)).
  destruct (lookupChild (children x) (fst entry)) as [ch|].
  - assert (exec env (S n) (CCloseChild w (childAsKey ch) reason) s = Ok tt s) as E.
    { change (exec env (S n) (CCloseChild w (childAsKey ch) reason))
        with (closeChild (@exec env n) w (childAsKey ch) reason).
      unfold closeChild. rewrite (bind_Ok _ _ _ _ _ (getW_Ok _ _ _ Hw)).
      destruct ch; simpl; by rewrite ?Ho, ?Hf. }
    rewrite (bind_Ok _ _ _ _ _ E). exact IH.
  - erewrite (bind_Ok (ret tt)); [|reflexivity]. exact IH.
Qed.

Lemma close_frame env n (s : World) w x reason p :
  nodes s !! w = Some x -> state x = active -> plainNames (children x) ->
  callerOnly "log" x -> callerOnly "change" x -> registeredAs p x ->
  exists s' x',
    exec env (S (S n)) (CClose w reason) s = Ok tt s' /\
    nodes s' !! w = Some x' /\
    state x' = (if reasonIs reason "deleted" then deleted else closed) /\
    fswatcher x' = None /\ stat x' = stat x /\ path x' = path x /\ config x' = config x /\
    children x' = children x /\ method x' = method x /\
    listenerTimeout x' = listenerTimeout x /\ listenerTasks x' = listenerTasks x /\
    (forall ev, callerOnly ev x -> callerOnly ev x') /\
    (forall w', w' <> w -> nodes s' !! w' = nodes s !! w') /\
    length (nodes s') = length (nodes s) /\
    stats s' = stats s /\ groups s' = groups s /\
    watchers s' = <[p := None]> (watchers s) /\
    handles s' = releasedHandles x s /\
    polls s' = releasedPolls x s /\
    trace s' = (trace s ++ closeEvents w x reason)%list.
Proof.
  intros Hw Ha Hch Hlog Hchange Hreg.
  change (exec env (S (S n)) (CClose w reason)) with (close (@exec env (S n)) w reason).
  unfold close, closeEvents, releasedHandles, releasedPolls. run_getW Hw. rewrite Ha.
  cbn [isActive negb].
  run_emit Hw Hlog.
  erewrite (bind_Ok (forEach _ _));
    [|eapply (close_loop_skips env n w _ reason); [lookup_node Hw|exact Hch]].
  run_getW Hw. cbn [method fswatcher set_listeners].
  rewrite reason_cases.
  destruct (match method x with Some m => String.eqb m "watchFile" | None => false end);
    cbn [when]; [run_set|change (bind (ret tt) ?k ?s0) with (k tt s0); cbv beta];
    (destruct (fswatcher x) as [h|] eqn:Hf;
       [rewrite bind_assoc; run_set; run_set
       |change (bind (ret tt) ?k ?s0) with (k tt s0); cbv beta]);
    (destruct (reasonIs reason "deleted");
       [rewrite bind_assoc; run_set; rewrite bind_assoc; run_getW Hw; run_emit Hw Hchange
       |destruct (reasonIs reason "failure");
          [rewrite bind_assoc; run_set; rewrite bind_assoc; run_getW Hw; run_emit Hw Hlog
          |run_set]]);
    (erewrite (emit_close_registered env n _ w _ _ p);
       [|lookup_node Hw
        |unfold registeredAs; simpl;
         repeat (apply registered_withoutOnce; [reflexivity|]); exact Hreg]);
    (eexists _, _; split; [reflexivity|]; split; [lookup_node Hw|]);
    unfold pathString; simpl; rewrite <- ?app_assoc, ?length_alter;
    (split_and!; try done;
     first [intros ev H; unfold callerOnly; simpl; repeat apply Forall_withoutOnce; exact H
           |intros w' Hne; by rewrite ?list_lookup_alter_ne by done]).
Qed.

Lemma getStat_cached env (s : World) w x :
  nodes s !! w = Some x -> hasRef (stat x) = true ->
  getStat env w false s = Ok (inr (stat x)) s.
Proof.
  intros Hw Href. unfold getStat. rewrite (bind_Ok _ _ _ _ _ (getW_Ok _ _ _ Hw)).
  by rewrite Href.
Qed.

Lemma length_releasedHandles x s : length (releasedHandles x s) = length (handles s).
Proof. unfold releasedHandles. destruct (fswatcher x); [apply length_alter|done]. Qed.

Lemma watch_reset_file env n (s : World) w x l st failed m rest p :
  nodes s !! w = Some x -> state x = active -> children x = [] ->
  stat x = RObj l -> stats s !! l = Some (statsObject st) -> st_kind st <> KDirectory ->
  preferredMethods (config x) = (failed ++ m :: rest)%list ->
  Forall (fun m' => is_Some (bindError env (pathString x) m')) failed ->
  bindError env (pathString x) m = None ->
  callerOnly "log" x -> callerOnly "change" x -> callerOnly "watching" x ->
  registeredAs p x ->
  exists s' x',
    exec env (S (S (S n))) (CWatch w true) s = Ok None s' /\
    nodes s' !! w = Some x' /\ state x' = active /\ method x' = Some m /\
    fswatcher x' = (if String.eqb m "watch" then Some (length (handles s)) else None) /\
    stat x' = RObj l /\ path x' = path x /\ config x' = config x /\ children x' = [] /\
    listenerTimeout x' = listenerTimeout x /\ listenerTasks x' = listenerTasks x /\
    (forall ev, callerOnly ev x -> callerOnly ev x') /\
    (forall w', w' <> w -> nodes s' !! w' = nodes s !! w') /\
    stats s' = stats s /\ groups s' = groups s /\
    watchers s' = <[p := None]> (watchers s) /\
    handles s' = (if String.eqb m "watch"
                  then releasedHandles x s ++ [(pathString x, true)]
                  else releasedHandles x s)%list /\
    polls s' = (if String.eqb m "watch" then releasedPolls x s
                else releasedPolls x s ++ [pathString x])%list /\
    trace s' = (trace s ++ closeEvents w x None ++
      [(w, ELog "debug" ("watch init: " ++ pathString x));
       (w, ELog "debug" ("watch done: " ++ pathString x ++ " undefined"));
       (w, EWatching None)])%list.
Proof.
  intros Hw Ha Hch Hstat Hl Hkind Hpref Hfail Hbind Hlog Hchange Hwat Hreg.
  change (exec env (S (S (S n))) (CWatch w true)) with (watch env (@exec env (S (S n))) w true).
  unfold watch. run_getW Hw. rewrite andb_false_r.
  destruct (close_frame env n s w x None p Hw Ha ltac:(by rewrite Hch) Hlog Hchange Hreg)
    as (s1 & x1 & Hrun & Hw1 & Hst1 & Hf1 & Hstat1 & Hpath1 & Hcfg1 & Hch1 & Hm1 & Hto1 & Hta1
        & Hco1 & Hoth1 & Hlen1 & Hstats1 & Hg1 & Hreg1 & Hh1 & Hpo1 & Htr1).
  rewrite (bind_Ok _ _ _ _ _ Hrun). clear Hrun.
  cbn [reasonIs] in Hst1.
  assert (Hps1 : pathString x1 = pathString x) by (unfold pathString; by rewrite Hpath1).
  rewrite (bind_Ok _ _ _ _ _ (log_exact env _ s1 w x1 _ _ Hw1 (Hco1 _ Hlog))).
  set (e1 := ELog "debug" ("watch init: " ++ pathString x)).
  set (s2 := emitted w e1 s1).
  set (x2 := set_listeners (withoutOnce (eventName e1) (listeners x1)) x1).
  assert (Hw2 : nodes s2 !! w = Some x2) by (by apply emitted_lookup).
  assert (Hco2 : forall ev, callerOnly ev x -> callerOnly ev x2).
  { intros ev H. by apply (callerOnly_withoutOnce ev _ x1), Hco1. }
  assert (Href2 : hasRef (stat x2) = true) by (simpl; by rewrite Hstat1, Hstat).
  rewrite (bind_Ok _ _ _ _ _ (getStat_cached env s2 w x2 Hw2 Href2)).
  rewrite (bind_Ok _ _ _ _ _ (getW_Ok _ _ _ Hw2)).
  change (config x2) with (config x1). rewrite Hcfg1, Hpref.
  assert (Hps2 : pathString x2 = pathString x) by exact Hps1.
  rewrite <- Hps2 in Hfail, Hbind.
  rewrite (bind_Ok _ _ _ _ _
             (watchSelf_selects_exact env s2 w x2 failed m rest [] Hw2 Hfail Hbind)).
  set (x3 := set_state active (set_method (Some m)
               (if String.eqb m "watch" then set_fswatcher (Some (length (handles s))) x2
                else x2))).
  set (s3 := set_nodes _ (boundBy w m x2 s2)).
  assert (Hh2 : handles s2 = releasedHandles x s) by exact Hh1.
  assert (Hpo2 : polls s2 = releasedPolls x s) by exact Hpo1.
  assert (Hstats2 : stats s2 = stats s) by exact Hstats1.
  assert (Hg2 : groups s2 = groups s) by exact Hg1.
  assert (Hreg2 : watchers s2 = <[p := None]> (watchers s)) by exact Hreg1.
  assert (Htr2 : trace s2 = ((trace s ++ closeEvents w x None) ++ [(w, e1)])%list).
  { unfold s2, emitted. simpl. by rewrite Htr1. }
  assert (Hoth2 : forall w', w' <> w -> nodes s2 !! w' = nodes s !! w').
  { intros w' Hne. unfold s2. rewrite emitted_lookup_ne by done. by apply Hoth1. }
  clearbody s2. clear Hw1 Hoth1 Hlen1 Hstats1 Hg1 Hreg1 Hh1 Hpo1 Htr1.
  assert (Hw3 : nodes s3 !! w = Some x3).
  { unfold s3, x3, boundBy.
    destruct (String.eqb m "watch"); cbn [nodes set_nodes set_handles set_polls];
      rewrite !list_lookup_alter_eq, Hw2, ?Hh2, ?length_releasedHandles; reflexivity. }
  assert (Hl3 : stats s3 !! l = Some (statsObject st)).
  { unfold s3, boundBy. destruct (String.eqb m "watch"); simpl stats; by rewrite Hstats2. }
  unfold watchChildren.
  assert (Hs3 : stat x3 = RObj l).
  { unfold x3. destruct (String.eqb m "watch"); simpl; by rewrite Hstat1. }
  rewrite !bind_assoc.
  rewrite (bind_Ok _ _ _ _ _ (isDirectory_Ok s3 w x3 l st Hw3 Hs3 Hl3)).
  assert ((match st_kind st with KDirectory => true | _ => false end) = false) as ->
    by (by destruct (st_kind st)).
  change (bind (ret None) ?k s3) with (k None s3). cbv beta.
  change (bool_decide (is_Some None)) with false. cbn [when].
  change (bind (ret tt) ?k s3) with (k tt s3). cbv beta.
  rewrite (bind_Ok _ _ _ _ _ (getW_Ok _ _ _ Hw3)).
  assert (Hp3 : pathString x3 = pathString x)
    by (unfold x3; by destruct (String.eqb m "watch")).
  assert (Hco3 : forall ev, callerOnly ev x -> callerOnly ev x3).
  { intros ev H. unfold callerOnly, x3. destruct (String.eqb m "watch"); simpl;
      by apply Forall_withoutOnce, Hco1. }
  rewrite (bind_Ok _ _ _ _ _ (log_exact env _ s3 w x3 _ _ Hw3 (Hco3 _ Hlog))).
  rewrite Hp3.
  set (e2 := ELog "debug" _).
  assert (Hw4 := emitted_lookup s3 w x3 e2 Hw3).
  assert (Hwat4 : callerOnly "watching"
                    (set_listeners (withoutOnce (eventName e2) (listeners x3)) x3)).
  { apply (callerOnly_withoutOnce "watching" _ x3). by apply Hco3. }
  rewrite (bind_Ok _ _ _ _ _ (emit_exact env _ _ w _ (EWatching None) Hw4 Hwat4 eq_refl)).
  eexists _, _. split; [reflexivity|]. split; [by apply emitted_lookup|].
  unfold x3, s3, boundBy, e2.
  destruct (String.eqb m "watch"); simpl;
    rewrite ?Hstat1, ?Hpath1, ?Hcfg1, ?Hch1, ?Hto1, ?Hta1, ?Hh2, ?Hpo2, ?Htr2, ?Hps1,
      <- ?app_assoc;
    (split_and!; try done; rewrite ?Hps2; try done;
     first [intros ev H; unfold callerOnly; simpl; do 3 apply Forall_withoutOnce;
            by apply Hco1
           |intros w' Hne; rewrite ?list_lookup_alter_ne by done; by apply Hoth2]).
Qed.

(** X20: when the timer of a file watcher fires and the birth time of the
    file at its path prints differently from that of the stat of the batch
    (the code compares [birthtime.toString()], which prints a date to the
    second), the watcher starts again: it closes, which releases its binding
    and clears its registry entry, binds the first preferred method that
    works and is active again, and then reports the change as an [update].
    The registry entry stays cleared. *)
Theorem replaced_file_rebinds env n (s : World) w x b lp sp sc failed m rest p :
  (forall a c, toISOString env a = toISOString env c -> a = c) ->
  nodes s !! w = Some x ->
  is_Some (listenerTimeout x) ->
  listenerTasks x = Some b ->
  b_previousStat b = RObj lp ->
  defaultCallbacks (b_done b) ->
  stats s !! lp = Some (statsObject sp) ->
  fs_exists env (pathString x) = true ->
  (if followLinks (config x) then fs_stat env else fs_lstat env) (pathString x)
    = inr (statsObject sc) ->
  dateToString env (st_birthtime sc) <> dateToString env (st_birthtime sp) ->
  st_kind sc <> KDirectory ->
  state x = active -> children x = [] ->
  preferredMethods (config x) = (failed ++ m :: rest)%list ->
  Forall (fun m' => is_Some (bindError env (pathString x) m')) failed ->
  bindError env (pathString x) m = None ->
  callerOnly "log" x -> callerOnly "change" x -> callerOnly "watching" x ->
  registeredAs p x ->
  exists s' x',
    exec env (S (S (S (S n)))) (CFireTimeout w) s = Ok tt s' /\
    nodes s' !! w = Some x' /\ state x' = active /\ method x' = Some m /\
    stat x' = RObj (length (stats s)) /\
    stats s' !! length (stats s) = Some (statsObject sc) /\
    fswatcher x' = (if String.eqb m "watch" then Some (length (handles s)) else None) /\
    listenerTimeout x' = None /\ listenerTasks x' = None /\
    watchers s' = <[p := None]> (watchers s) /\
    handles s' = (if String.eqb m "watch"
                  then releasedHandles x s ++ [(pathString x, true)]
                  else releasedHandles x s)%list /\
    polls s' = (if String.eqb m "watch" then releasedPolls x s
                else releasedPolls x s ++ [pathString x])%list /\
    trace s' = (trace s ++
      [(w, ELog "debug" ("watch evaluating on: " ++ pathString x));
       (w, ELog "debug" ("watch determined replaced: " ++ pathString x));
       (w, ELog "debug" ("close: " ++ pathString x));
       (w, EClose None);
       (w, ELog "debug" ("watch init: " ++ pathString x));
       (w, ELog "debug" ("watch done: " ++ pathString x ++ " undefined"));
       (w, EWatching None);
       (w, ELog "debug" ("watch determined update: " ++ pathString x));
       (w, EChange "update" (pathString x) (RObj (length (stats s))) (RObj lp))])%list.
Proof.
  intros Hinj Hw [d Ht] Hb Hprev Hdone Hp Hex Hst Hbirth Hkind Ha Hch Hpref Hfail Hbind
         Hlog Hchange Hwat Hreg.
  change (exec env (S (S (S (S n)))) (CFireTimeout w))
    with (fireTimeout env (@exec env (S (S (S n)))) w).
  unfold fireTimeout. rewrite (bind_Ok _ _ _ _ _ (getW_Ok _ _ _ Hw)), Ht, Hb.
  erewrite (bind_Ok (updW _ _)); [|reflexivity].
  erewrite (bind_Ok (updW _ _)); [|reflexivity].
  set (x0 := set_listenerTimeout None (set_listenerTasks None x)).
  set (s0 := set_nodes (alter (set_listenerTimeout None) _ _) _).
  assert (Hw0 : nodes s0 !! w = Some x0).
  { unfold s0. simpl. by rewrite !list_lookup_alter_eq, Hw. }
  unfold runBatch. rewrite (bind_Ok _ _ _ _ _ (getW_Ok _ _ _ Hw0)).
  change (pathString x0) with (pathString x).
  rewrite (bind_Ok _ _ _ _ _ (log_exact env _ s0 w x0 _ _ Hw0 Hlog)).
  rewrite Hex. cbn [negb].
  set (e1 := ELog "debug" ("watch evaluating on: " ++ pathString x)).
  set (s1 := emitted w e1 s0).
  set (x1 := set_listeners (withoutOnce (eventName e1) (listeners x0)) x0).
  assert (Hw1 : nodes s1 !! w = Some x1) by (by apply emitted_lookup).
  rewrite (bind_Ok _ _ _ _ _ (getStat_reset_Ok env s1 w x1 _ Hw1 Hst)).
  change (stats s1) with (stats s).
  set (l := length (stats s)).
  set (s2 := set_nodes _ _).
  set (x2 := set_stat (RObj l) x1).
  assert (Hw2 : nodes s2 !! w = Some x2).
  { change (alter (set_stat (RObj l)) w (nodes s1) !! w = Some x2).
    by rewrite list_lookup_alter_eq, Hw1. }
  rewrite (bind_Ok _ _ _ _ _ (getW_Ok _ _ _ Hw2)). cbn [stat set_stat x2].
  assert (Hl2 : stats s2 !! l = Some (statsObject sc)).
  { unfold s2, l. simpl. by rewrite lookup_app_r, Nat.sub_diag by lia. }
  assert (Hp2 : stats s2 !! lp = Some (statsObject sp)).
  { unfold s2. simpl. by apply lookup_app_l_Some. }
  rewrite (bind_Ok _ _ _ _ _ (birthtimeString_Ok env s2 l sc Hl2)).
  rewrite Hprev.
  rewrite (bind_Ok _ _ _ _ _ (birthtimeString_Ok env s2 lp sp Hp2)).
  assert (stringNe (dateToString env (st_birthtime sc)) (dateToString env (st_birthtime sp))
          = true) as ->.
  { unfold stringNe. apply negb_true_iff. by apply String.eqb_neq. }
  rewrite !bind_assoc.
  change (pathString x2) with (pathString x).
  assert (Hlog2 : callerOnly "log" x2) by (by apply (callerOnly_withoutOnce "log" _ x0)).
  rewrite (bind_Ok _ _ _ _ _ (log_exact env _ s2 w x2 _ _ Hw2 Hlog2)).
  set (e2 := ELog "debug" ("watch determined replaced: " ++ pathString x)).
  set (s3 := emitted w e2 s2).
  set (x3 := set_listeners (withoutOnce (eventName e2) (listeners x2)) x2).
  assert (Hw3 : nodes s3 !! w = Some x3) by (by apply emitted_lookup).
  assert (Hco3 : forall ev, callerOnly ev x -> callerOnly ev x3).
  { intros ev H. unfold callerOnly, x3, x2, x1, x0. simpl. by do 2 apply Forall_withoutOnce. }
  assert (Hreg3 : registeredAs p x3).
  { unfold registeredAs, x3, x2, x1, x0. simpl.
    repeat (apply registered_withoutOnce; [reflexivity|]). exact Hreg. }
  assert (Hl3 : stats s3 !! l = Some (statsObject sc)) by exact Hl2.
  assert (Hp3 : stats s3 !! lp = Some (statsObject sp)) by exact Hp2.
  assert (Hh3 : handles s3 = handles s) by reflexivity.
  assert (Hpo3 : polls s3 = polls s) by reflexivity.
  assert (Hreg3' : watchers s3 = watchers s) by reflexivity.
  assert (Htr3 : trace s3 = (trace s ++ [(w, e1); (w, e2)])%list).
  { unfold s3, s2, s1, s0, emitted. simpl. by rewrite <- app_assoc. }
  clearbody s3. clear s2 Hw2 Hl2 Hp2 s1 Hw1 s0 Hw0.
  destruct (watch_reset_file env n s3 w x3 l sc failed m rest p Hw3 Ha Hch eq_refl Hl3 Hkind
              Hpref Hfail Hbind (Hco3 _ Hlog) (Hco3 _ Hchange) (Hco3 _ Hwat) Hreg3)
    as (s4 & x4 & Hrun & Hw4 & Hst4 & Hm4 & Hf4 & Hstat4 & Hpath4 & Hcfg4 & Hch4 & Hto4 & Hta4
        & Hco4 & _ & Hstats4 & _ & Hreg4 & Hh4 & Hpo4 & Htr4).
  rewrite (bind_Ok _ _ _ _ _ Hrun). clear Hrun.
  assert (Hl4 : stats s4 !! l = Some (statsObject sc)) by (by rewrite Hstats4).
  assert (Hp4 : stats s4 !! lp = Some (statsObject sp)) by (by rewrite Hstats4).
  rewrite (bind_Ok _ _ _ _ _
             (onStats_Ok _ _ _ _ (statChanged_objects env (stats s4) lp l _ _ Hp4 Hl4))).
  assert (String.eqb (stringify env (comparedObject env (statsObject sp)))
                     (stringify env (comparedObject env (statsObject sc))) = false) as ->.
  { apply String.eqb_neq. rewrite (compared_same env sp sc Hinj).
    intros (_&_&_&_&_&_&_&_&_&_&_&E). apply Hbirth. by rewrite E. }
  cbn [negb].
  set (s5 := set_stats _ s4).
  assert (Hw5 : nodes s5 !! w = Some x4) by exact Hw4.
  assert (Hl5 : stats s5 !! l = Some (statsObject sc)).
  { unfold s5. simpl stats. by apply lookup_app_l_Some. }
  unfold checkWhatHasChanged.
  rewrite (bind_Ok _ _ _ _ _ (isDirectory_Ok s5 w x4 l sc Hw5 Hstat4 Hl5)).
  rewrite (bind_Ok _ _ _ _ _ (getW_Ok _ _ _ Hw5)).
  assert ((match st_kind sc with KDirectory => true | _ => false end) = false) as ->
    by (by destruct (st_kind sc)).
  cbn [negb].
  assert (Hps4 : pathString x4 = pathString x) by (unfold pathString; by rewrite Hpath4).
  rewrite Hps4.
  rewrite (bind_Ok _ _ _ _ _ (log_exact env _ s5 w x4 _ _ Hw5 (Hco4 _ (Hco3 _ Hlog)))).
  set (e3 := ELog "debug" ("watch determined update: " ++ pathString x)).
  set (s6 := emitted w e3 s5).
  set (x6 := set_listeners (withoutOnce (eventName e3) (listeners x4)) x4).
  assert (Hw6 : nodes s6 !! w = Some x6) by (by apply emitted_lookup).
  assert (Hch6 : callerOnly "change" x6).
  { apply (callerOnly_withoutOnce "change" _ x4). by apply Hco4, Hco3. }
  rewrite Hprev.
  rewrite (bind_Ok _ _ _ _ _
             (emit_exact env _ s6 w x6 (EChange "update" (pathString x) (RObj l) (RObj lp))
                Hw6 Hch6 eq_refl)).
  rewrite (finish_none env _ _ _ Hdone).
  eexists _, _. split; [reflexivity|]. split; [by apply emitted_lookup|].
  cbn [state method stat fswatcher listenerTimeout listenerTasks set_listeners x6].
  change (releasedHandles x3 s3) with (releasedHandles x s3) in Hh4.
  change (releasedPolls x3 s3) with (releasedPolls x s3) in Hpo4.
  change (pathString x3) with (pathString x) in *.
  assert (releasedHandles x s3 = releasedHandles x s) as Erh
    by (unfold releasedHandles; by rewrite Hh3).
  assert (releasedPolls x s3 = releasedPolls x s) as Erp
    by (unfold releasedPolls; by rewrite Hpo3).
  rewrite Erh in Hh4. rewrite Erp in Hpo4. rewrite Hh3 in Hf4.
  split_and!; try done.
  - change (watchers s4 = <[p := None]> (watchers s)). by rewrite Hreg4, Hreg3'.
  - unfold s6, s5, emitted. simpl. rewrite Htr4, Htr3. unfold closeEvents. simpl.
    by rewrite <- !app_assoc.
Qed.

Lemma emit_child_change env n (s : World) p xp c xc rel full t q cur prev :
  nodes s !! p = Some xp -> nodes s !! c = Some xc -> c <> p ->
  listeners xc = childListeners p rel full -> callerOnly "change" xp ->
  String.eqb t "delete" && String.eqb q full = false ->
  exec env (S (S n)) (CEmit c (EChange t q cur prev)) s =
    Ok tt (emitted p (EChange t q cur prev) (emitted c (EChange t q cur prev) s)).
Proof.
  intros Hp Hc Hne Hl Hchange Ht.
  change (exec env (S (S n)) (CEmit c (EChange t q cur prev)))
    with (emit (@exec env (S n)) c (EChange t q cur prev)).
  unfold emit. rewrite (bind_Ok _ _ _ _ _ (getW_Ok _ _ _ Hc)). cbn [unhandled].
  erewrite (bind_Ok (modify _)); [|reflexivity].
  erewrite (bind_Ok (updW _ _)); [|reflexivity].
  rewrite Hl.
  cbn [childListeners List.filter fst snd eventName String.eqb Ascii.eqb
       Bool.eqb forEach runHandler].
  rewrite Ht. cbn [when].
  rewrite !bind_assoc. erewrite (bind_Ok (ret tt)); [|reflexivity].
  erewrite (bind_Ok (exec _ _ _)).
  2:{ eapply (emit_exact env n _ p xp); [|exact Hchange|reflexivity].
      simpl. by rewrite list_lookup_alter_ne. }
  reflexivity.
Qed.

Lemma childListeners_bubble p rel full x :
  listeners x = childListeners p rel full -> logsBubbleTo p x.
Proof. intros H. unfold logsBubbleTo. by rewrite H. Qed.

Lemma child_batch_changed env n (s : World) p xp c xc rel full b lp sp sc :
  (forall a d, toISOString env a = toISOString env d -> a = d) ->
  nodes s !! p = Some xp -> nodes s !! c = Some xc -> c <> p ->
  listeners xc = childListeners p rel full -> path xc = Some full ->
  is_Some (listenerTimeout xc) ->
  listenerTasks xc = Some b ->
  b_previousStat b = RObj lp ->
  stats s !! lp = Some (statsObject sp) ->
  fs_exists env full = true ->
  (if followLinks (config xc) then fs_stat env else fs_lstat env) full
    = inr (statsObject sc) ->
  st_birthtime sp = st_birthtime sc ->
  ~ sameButAccess sp sc ->
  st_kind sc <> KDirectory ->
  callerOnly "log" xp -> callerOnly "change" xp ->
  exists s' xc' xp',
    exec env (S (S (S n))) (CFireTimeout c) s
      = finish (@exec env (S (S n))) (b_done b) None s' /\
    nodes s' !! c = Some xc' /\
    stat xc' = RObj (length (stats s)) /\
    stats s' !! length (stats s) = Some (statsObject sc) /\
    listenerTimeout xc' = None /\ listenerTasks xc' = None /\ state xc' = state xc /\
    listeners xc' = childListeners p rel full /\
    nodes s' !! p = Some xp' /\ core xp' = core xp /\ children xp' = children xp /\
    (forall ev, callerOnly ev xp -> callerOnly ev xp') /\
    groups s' = groups s /\ watchers s' = watchers s /\
    handles s' = handles s /\ polls s' = polls s /\
    trace s' = (trace s ++
      [(c, ELog "debug" ("watch evaluating on: " ++ full));
       (p, ELog "debug" ("watch evaluating on: " ++ full));
       (c, ELog "debug" ("watch determined update: " ++ full));
       (p, ELog "debug" ("watch determined update: " ++ full));
       (c, EChange "update" full (RObj (length (stats s))) (RObj lp));
       (p, EChange "update" full (RObj (length (stats s))) (RObj lp))])%list.
Proof.
  intros Hinj Hp Hc Hne Hl Hpath [d Ht] Hb Hprev Hlp Hex Hst Hbirth Hdiff Hkind Hlog Hchange.
  assert (Hne' : p <> c) by done.
  assert (Hps : pathString xc = full) by (unfold pathString; by rewrite Hpath).
  change (exec env (S (S (S n))) (CFireTimeout c))
    with (fireTimeout env (@exec env (S (S n))) c).
  unfold fireTimeout. rewrite (bind_Ok _ _ _ _ _ (getW_Ok _ _ _ Hc)), Ht, Hb.
  erewrite (bind_Ok (updW _ _)); [|reflexivity].
  erewrite (bind_Ok (updW _ _)); [|reflexivity].
  set (xc0 := set_listenerTimeout None (set_listenerTasks None xc)).
  set (s0 := set_nodes (alter (set_listenerTimeout None) _ _) _).
  assert (Hc0 : nodes s0 !! c = Some xc0).
  { unfold s0. simpl. by rewrite !list_lookup_alter_eq, Hc. }
  assert (Hp0 : nodes s0 !! p = Some xp).
  { unfold s0. simpl. by rewrite !list_lookup_alter_ne by done. }
  unfold runBatch. rewrite (bind_Ok _ _ _ _ _ (getW_Ok _ _ _ Hc0)).
  change (pathString xc0) with (pathString xc). rewrite Hps.
  rewrite (bind_Ok _ _ _ _ _
             (log_bubbles env n s0 p xp c xc0 _ _ Hp0 Hc0 Hne
                (childListeners_bubble p rel full xc0 Hl) Hlog)).
  rewrite Hex. cbn [negb].
  set (e1 := ELog "debug" ("watch evaluating on: " ++ full)).
  set (s1 := emitted p e1 (emitted c e1 s0)).
  set (xc1 := set_listeners (withoutOnce (eventName e1) (listeners xc0)) xc0).
  set (xp1 := set_listeners (withoutOnce (eventName e1) (listeners xp)) xp).
  assert (Hc1 : nodes s1 !! c = Some xc1) by (by apply bubbled_lookup_child).
  assert (Hp1 : nodes s1 !! p = Some xp1) by (by apply bubbled_lookup_parent).
  assert (Hl1 : listeners xc1 = childListeners p rel full).
  { unfold xc1. simpl. rewrite Hl. by apply withoutOnce_childListeners. }
  assert (Hst1 : (if followLinks (config xc1) then fs_stat env else fs_lstat env)
                   (pathString xc1) = inr (statsObject sc)).
  { change (config xc1) with (config xc). change (pathString xc1) with (pathString xc).
    by rewrite Hps. }
  rewrite (bind_Ok _ _ _ _ _ (getStat_reset_Ok env s1 c xc1 _ Hc1 Hst1)).
  change (stats s1) with (stats s).
  set (l := length (stats s)).
  set (s2 := set_nodes _ _).
  set (xc2 := set_stat (RObj l) xc1).
  assert (Hc2 : nodes s2 !! c = Some xc2).
  { change (alter (set_stat (RObj l)) c (nodes s1) !! c = Some xc2).
    by rewrite list_lookup_alter_eq, Hc1. }
  assert (Hp2 : nodes s2 !! p = Some xp1).
  { change (alter (set_stat (RObj l)) c (nodes s1) !! p = Some xp1).
    by rewrite list_lookup_alter_ne. }
  rewrite (bind_Ok _ _ _ _ _ (getW_Ok _ _ _ Hc2)). cbn [stat set_stat xc2].
  assert (Hl2 : stats s2 !! l = Some (statsObject sc)).
  { unfold s2, l. simpl. by rewrite lookup_app_r, Nat.sub_diag by lia. }
  assert (Hlp2 : stats s2 !! lp = Some (statsObject sp)).
  { unfold s2. simpl. by apply lookup_app_l_Some. }
  rewrite (bind_Ok _ _ _ _ _ (birthtimeString_Ok env s2 l sc Hl2)).
  rewrite Hprev.
  rewrite (bind_Ok _ _ _ _ _ (birthtimeString_Ok env s2 lp sp Hlp2)).
  rewrite Hbirth, stringNe_refl.
  change (bind (ret None) ?k s2) with (k None s2). cbv beta iota.
  rewrite (bind_Ok _ _ _ _ _
             (onStats_Ok _ _ _ _ (statChanged_objects env (stats s2) lp l _ _ Hlp2 Hl2))).
  assert (String.eqb (stringify env (comparedObject env (statsObject sp)))
                     (stringify env (comparedObject env (statsObject sc))) = false) as ->.
  { apply String.eqb_neq. by rewrite (compared_same env sp sc Hinj). }
  cbn [negb].
  set (s3 := set_stats _ s2).
  assert (Hc3 : nodes s3 !! c = Some xc2) by exact Hc2.
  assert (Hp3 : nodes s3 !! p = Some xp1) by exact Hp2.
  assert (Hl3 : stats s3 !! l = Some (statsObject sc)).
  { unfold s3. simpl stats. by apply lookup_app_l_Some. }
  assert (Hg3 : groups s3 = groups s) by reflexivity.
  assert (Hwa3 : watchers s3 = watchers s) by reflexivity.
  assert (Hh3 : handles s3 = handles s) by reflexivity.
  assert (Hpo3 : polls s3 = polls s) by reflexivity.
  assert (Htr3 : trace s3 = (trace s ++ [(c, e1); (p, e1)])%list).
  { unfold s3, s2, s1, s0, emitted. simpl. by rewrite <- app_assoc. }
  clearbody s3. clear s2 Hc2 Hp2 Hl2 Hlp2 s1 Hc1 Hp1 s0 Hc0 Hp0.
  unfold checkWhatHasChanged.
  rewrite (bind_Ok _ _ _ _ _ (isDirectory_Ok s3 c xc2 l sc Hc3 eq_refl Hl3)).
  rewrite (bind_Ok _ _ _ _ _ (getW_Ok _ _ _ Hc3)).
  assert ((match st_kind sc with KDirectory => true | _ => false end) = false) as ->
    by (by destruct (st_kind sc)).
  cbn [negb]. change (pathString xc2) with (pathString xc). rewrite Hps.
  assert (Hlog1 : callerOnly "log" xp1) by (by apply (callerOnly_withoutOnce "log" _ xp)).
  rewrite (bind_Ok _ _ _ _ _
             (log_bubbles env n s3 p xp1 c xc2 _ _ Hp3 Hc3 Hne
                (childListeners_bubble p rel full xc2 Hl1) Hlog1)).
  set (e2 := ELog "debug" ("watch determined update: " ++ full)).
  set (s4 := emitted p e2 (emitted c e2 s3)).
  set (xc4 := set_listeners (withoutOnce (eventName e2) (listeners xc2)) xc2).
  set (xp4 := set_listeners (withoutOnce (eventName e2) (listeners xp1)) xp1).
  assert (Hc4 : nodes s4 !! c = Some xc4) by (by apply bubbled_lookup_child).
  assert (Hp4 : nodes s4 !! p = Some xp4) by (by apply bubbled_lookup_parent).
  assert (Hl4 : listeners xc4 = childListeners p rel full).
  { unfold xc4. cbn [listeners set_listeners]. change (listeners xc2) with (listeners xc1).
    rewrite Hl1. by apply withoutOnce_childListeners. }
  assert (Hch4 : callerOnly "change" xp4).
  { unfold callerOnly, xp4, xp1. simpl. by do 2 apply Forall_withoutOnce. }
  rewrite Hprev.
  set (e3 := EChange "update" full (RObj l) (RObj lp)).
  rewrite (bind_Ok _ _ _ _ _
             (emit_child_change env n s4 p xp4 c xc4 rel full "update" full (RObj l) (RObj lp)
                Hp4 Hc4 Hne Hl4 Hch4 eq_refl)).
  fold e3.
  eexists _, _, _. split; [reflexivity|].
  split; [by apply bubbled_lookup_child|].
  cbn [stat listenerTimeout listenerTasks state listeners set_listeners xc4 xc2 xc1 xc0
       set_stat set_listenerTimeout set_listenerTasks].
  split; [reflexivity|]. split; [exact Hl3|].
  split; [reflexivity|]. split; [reflexivity|]. split; [reflexivity|].
  split.
  { change (withoutOnce (eventName e3) (listeners xc4) = childListeners p rel full).
    rewrite Hl4. by apply withoutOnce_childListeners. }
  split; [by apply bubbled_lookup_parent|].
  split; [reflexivity|]. split; [reflexivity|].
  split.
  { intros ev H. unfold callerOnly, xp4, xp1. simpl. by do 3 apply Forall_withoutOnce. }
  unfold s4, emitted. simpl. rewrite Htr3, <- !app_assoc. done.
Qed.

Lemma child_batch_same env n (s : World) p xp c xc rel full b lp op oc tp tc :
  nodes s !! p = Some xp -> nodes s !! c = Some xc -> c <> p ->
  listeners xc = childListeners p rel full -> path xc = Some full ->
  is_Some (listenerTimeout xc) ->
  listenerTasks xc = Some b ->
  b_previousStat b = RObj lp ->
  stats s !! lp = Some op ->
  fs_exists env full = true ->
  (if followLinks (config xc) then fs_stat env else fs_lstat env) full = inr oc ->
  getProp op "birthtime" = Some (VDate (Some tp)) ->
  getProp oc "birthtime" = Some (VDate (Some tc)) ->
  dateToString env tc = dateToString env tp ->
  stringify env (comparedObject env op) = stringify env (comparedObject env oc) ->
  callerOnly "log" xp ->
  exists s' xc' xp',
    exec env (S (S (S n))) (CFireTimeout c) s
      = finish (@exec env (S (S n))) (b_done b) None s' /\
    nodes s' !! c = Some xc' /\
    stat xc' = RObj (length (stats s)) /\
    stats s' !! length (stats s) = Some oc /\
    listenerTimeout xc' = None /\ listenerTasks xc' = None /\ state xc' = state xc /\
    listeners xc' = childListeners p rel full /\
    nodes s' !! p = Some xp' /\ core xp' = core xp /\ children xp' = children xp /\
    (forall ev, callerOnly ev xp -> callerOnly ev xp') /\
    groups s' = groups s /\ watchers s' = watchers s /\
    handles s' = handles s /\ polls s' = polls s /\
    trace s' = (trace s ++
      [(c, ELog "debug" ("watch evaluating on: " ++ full));
       (p, ELog "debug" ("watch evaluating on: " ++ full));
       (c, ELog "debug" ("watch determined same: " ++ full));
       (p, ELog "debug" ("watch determined same: " ++ full))])%list.
Proof.
  intros Hp Hc Hne Hl Hpath [d Ht] Hb Hprev Hlp Hex Hst Hbp Hbc Hbirth Hsame Hlog.
  assert (Hne' : p <> c) by done.
  assert (Hps : pathString xc = full) by (unfold pathString; by rewrite Hpath).
  change (exec env (S (S (S n))) (CFireTimeout c))
    with (fireTimeout env (@exec env (S (S n))) c).
  unfold fireTimeout. rewrite (bind_Ok _ _ _ _ _ (getW_Ok _ _ _ Hc)), Ht, Hb.
  erewrite (bind_Ok (updW _ _)); [|reflexivity].
  erewrite (bind_Ok (updW _ _)); [|reflexivity].
  set (xc0 := set_listenerTimeout None (set_listenerTasks None xc)).
  set (s0 := set_nodes (alter (set_listenerTimeout None) _ _) _).
  assert (Hc0 : nodes s0 !! c = Some xc0).
  { unfold s0. simpl. by rewrite !list_lookup_alter_eq, Hc. }
  assert (Hp0 : nodes s0 !! p = Some xp).
  { unfold s0. simpl. by rewrite !list_lookup_alter_ne by done. }
  unfold runBatch. rewrite (bind_Ok _ _ _ _ _ (getW_Ok _ _ _ Hc0)).
  change (pathString xc0) with (pathString xc). rewrite Hps.
  rewrite (bind_Ok _ _ _ _ _
             (log_bubbles env n s0 p xp c xc0 _ _ Hp0 Hc0 Hne
                (childListeners_bubble p rel full xc0 Hl) Hlog)).
  rewrite Hex. cbn [negb].
  set (e1 := ELog "debug" ("watch evaluating on: " ++ full)).
  set (s1 := emitted p e1 (emitted c e1 s0)).
  set (xc1 := set_listeners (withoutOnce (eventName e1) (listeners xc0)) xc0).
  set (xp1 := set_listeners (withoutOnce (eventName e1) (listeners xp)) xp).
  assert (Hc1 : nodes s1 !! c = Some xc1) by (by apply bubbled_lookup_child).
  assert (Hp1 : nodes s1 !! p = Some xp1) by (by apply bubbled_lookup_parent).
  assert (Hl1 : listeners xc1 = childListeners p rel full).
  { unfold xc1. simpl. rewrite Hl. by apply withoutOnce_childListeners. }
  assert (Hst1 : (if followLinks (config xc1) then fs_stat env else fs_lstat env)
                   (pathString xc1) = inr oc).
  { change (config xc1) with (config xc). change (pathString xc1) with (pathString xc).
    by rewrite Hps. }
  rewrite (bind_Ok _ _ _ _ _ (getStat_reset_Ok env s1 c xc1 _ Hc1 Hst1)).
  change (stats s1) with (stats s).
  set (l := length (stats s)).
  set (s2 := set_nodes _ _).
  set (xc2 := set_stat (RObj l) xc1).
  assert (Hc2 : nodes s2 !! c = Some xc2).
  { change (alter (set_stat (RObj l)) c (nodes s1) !! c = Some xc2).
    by rewrite list_lookup_alter_eq, Hc1. }
  assert (Hp2 : nodes s2 !! p = Some xp1).
  { change (alter (set_stat (RObj l)) c (nodes s1) !! p = Some xp1).
    by rewrite list_lookup_alter_ne. }
  rewrite (bind_Ok _ _ _ _ _ (getW_Ok _ _ _ Hc2)). cbn [stat set_stat xc2].
  assert (Hl2 : stats s2 !! l = Some oc).
  { unfold s2, l. simpl. by rewrite lookup_app_r, Nat.sub_diag by lia. }
  assert (Hlp2 : stats s2 !! lp = Some op).
  { unfold s2. simpl. by apply lookup_app_l_Some. }
  rewrite (bind_Ok _ _ _ _ _ (birthtimeString_date env s2 l oc tc Hl2 Hbc)).
  rewrite Hprev.
  rewrite (bind_Ok _ _ _ _ _ (birthtimeString_date env s2 lp op tp Hlp2 Hbp)).
  rewrite Hbirth, stringNe_refl.
  change (bind (ret None) ?k s2) with (k None s2). cbv beta iota.
  rewrite (bind_Ok _ _ _ _ _
             (onStats_Ok _ _ _ _ (statChanged_objects env (stats s2) lp l _ _ Hlp2 Hl2))).
  rewrite Hsame, String.eqb_refl.
  cbn [negb].
  set (s3 := set_stats _ s2).
  assert (Hc3 : nodes s3 !! c = Some xc2) by exact Hc2.
  assert (Hp3 : nodes s3 !! p = Some xp1) by exact Hp2.
  assert (Hl3 : stats s3 !! l = Some oc).
  { unfold s3. simpl stats. by apply lookup_app_l_Some. }
  assert (Htr3 : trace s3 = (trace s ++ [(c, e1); (p, e1)])%list).
  { unfold s3, s2, s1, s0, emitted. simpl. by rewrite <- app_assoc. }
  assert (Hg3 : groups s3 = groups s) by reflexivity.
  assert (Hwa3 : watchers s3 = watchers s) by reflexivity.
  assert (Hh3 : handles s3 = handles s) by reflexivity.
  assert (Hpo3 : polls s3 = polls s) by reflexivity.
  clearbody s3. clear s2 Hc2 Hp2 Hl2 Hlp2 s1 Hc1 Hp1 s0 Hc0 Hp0.
  change (pathString xc2) with (pathString xc). rewrite Hps.
  assert (Hlog1 : callerOnly "log" xp1) by (by apply (callerOnly_withoutOnce "log" _ xp)).
  rewrite (bind_Ok _ _ _ _ _
             (log_bubbles env n s3 p xp1 c xc2 _ _ Hp3 Hc3 Hne
                (childListeners_bubble p rel full xc2 Hl1) Hlog1)).
  set (e2 := ELog "debug" ("watch determined same: " ++ full)).
  eexists _, _, _. split; [reflexivity|].
  split; [by apply bubbled_lookup_child|].
  cbn [stat listenerTimeout listenerTasks state listeners set_listeners xc2 xc1 xc0
       set_stat set_listenerTimeout set_listenerTasks].
  split; [reflexivity|]. split; [exact Hl3|].
  split; [reflexivity|]. split; [reflexivity|]. split; [reflexivity|].
  split.
  { change (withoutOnce (eventName e2) (listeners xc1) = childListeners p rel full).
    rewrite Hl1. by apply withoutOnce_childListeners. }
  split; [by apply bubbled_lookup_parent|].
  split; [reflexivity|]. split; [reflexivity|].
  split.
  { intros ev H. unfold callerOnly, xp1. simpl. by do 2 apply Forall_withoutOnce. }
  unfold emitted. simpl. rewrite Htr3, <- !app_assoc. done.
Qed.

Lemma forward_completes env n (s : World) g G :
  groups s !! g = Some G -> g_finished G = false -> defaultCallbacks (g_done G) ->
  finish (@exec env (S (S n))) [DoneForward g] None s =
    Ok tt (set_groups (<[g := {| g_pending := Nat.pred (g_pending G);
                                 g_finished := Nat.eqb (Nat.pred (g_pending G)) 0;
                                 g_done := g_done G |}]> (groups s)) s).
Proof.
  intros Hg Hf Hdone. unfold finish. cbn [forEach].
  change (exec env (S (S n)) (CComplete (DoneForward g) None))
    with (taskDone (@exec env (S n)) g None).
  unfold taskDone. rewrite ?bind_assoc.
  change (bind get ?k s) with (k s s). cbv beta. rewrite Hg, Hf.
  rewrite ?bind_assoc.
  erewrite (bind_Ok (modify _)); [|reflexivity].
  destruct (Nat.eqb (Nat.pred (g_pending G)) 0).
  - rewrite ?bind_assoc. rewrite (bind_Ok _ _ _ _ _ (finish_none env n _ _ Hdone)).
    reflexivity.
  - reflexivity.
Qed.

Lemma listener_child env n (s : World) p xp c xc rel full next :
  nodes s !! p = Some xp -> nodes s !! c = Some xc -> c <> p ->
  listeners xc = childListeners p rel full -> path xc = Some full ->
  callerOnly "log" xp ->
  exists s' xc' xp',
    exec env (S (S (S n))) (CListener c None next) s = Ok tt s' /\
    nodes s' !! c = Some xc' /\
    listenerTimeout xc' = Some (catchupDelay (config xc)) /\
    listenerTasks xc' = Some (batchAfter c xc None next) /\
    stat xc' = stat xc /\ state xc' = state xc /\ path xc' = path xc /\
    config xc' = config xc /\ listeners xc' = childListeners p rel full /\
    nodes s' !! p = Some xp' /\ core xp' = core xp /\ children xp' = children xp /\
    (forall ev, callerOnly ev xp -> callerOnly ev xp') /\
    stats s' = stats s /\ groups s' = groups s /\ watchers s' = watchers s /\
    handles s' = handles s /\ polls s' = polls s /\
    trace s' = (trace s ++
      [(c, ELog "debug" ("watch fired on: " ++ full));
       (p, ELog "debug" ("watch fired on: " ++ full))])%list.
Proof.
  intros Hp Hc Hne Hl Hpath Hlog.
  assert (Hne' : p <> c) by done.
  assert (Hps : pathString xc = full) by (unfold pathString; by rewrite Hpath).
  change (exec env (S (S (S n))) (CListener c None next))
    with (listener (@exec env (S (S n))) c None next).
  unfold listener. rewrite (bind_Ok _ _ _ _ _ (getW_Ok _ _ _ Hc)). rewrite Hps.
  rewrite (bind_Ok _ _ _ _ _
             (log_bubbles env n s p xp c xc _ _ Hp Hc Hne
                (childListeners_bubble p rel full xc Hl) Hlog)).
  set (e1 := ELog "debug" ("watch fired on: " ++ full)).
  set (s1 := emitted p e1 (emitted c e1 s)).
  set (xc1 := set_listeners (withoutOnce (eventName e1) (listeners xc)) xc).
  assert (Hc1 : nodes s1 !! c = Some xc1) by (by apply bubbled_lookup_child).
  assert (Hp1 := bubbled_lookup_parent s p xp c e1 Hne Hp). fold s1 in Hp1.
  assert (Hstats1 : stats s1 = stats s) by reflexivity.
  assert (Hg1 : groups s1 = groups s) by reflexivity.
  assert (Hwa1 : watchers s1 = watchers s) by reflexivity.
  assert (Hh1 : handles s1 = handles s) by reflexivity.
  assert (Hpo1 : polls s1 = polls s) by reflexivity.
  assert (Htr1 : trace s1 = (trace s ++ [(c, e1); (p, e1)])%list).
  { unfold s1, emitted. simpl. by rewrite <- app_assoc. }
  clearbody s1.
  rewrite (bind_Ok _ _ _ _ _ (getW_Ok _ _ _ Hc1)).
  erewrite (bind_Ok (updW _ _)); [|reflexivity].
  change (listenerTasks xc1) with (listenerTasks xc).
  change (config xc1) with (config xc).
  unfold batchAfter.
  destruct (listenerTasks xc) as [b'|];
    (eexists _, _, (set_listeners (withoutOnce (eventName e1) (listeners xp)) xp);
     split; [reflexivity|];
     split; [simpl; rewrite !list_lookup_alter_eq, Hc1; reflexivity|];
     cbn [listenerTimeout listenerTasks stat state path config listeners
          set_listenerTasks set_listenerTimeout set_listeners xc1];
     split_and!; try done;
     [rewrite Hl; by apply withoutOnce_childListeners
     |simpl; rewrite !list_lookup_alter_ne by done; exact Hp1
     |intros ev H; by apply (callerOnly_withoutOnce ev _ xp)]).
Qed.

(** X22: when the timer of a directory fires whose batch was opened for the
    method [watch], and its child is still listed, the batch forwards the
    detection to the child: the child receives a notification whose
    callback is the task of a new group, which holds the callbacks of the
    batch; only [log] events are emitted and nothing is answered yet. *)
Theorem directory_batch_forwards env n (s : World) p xp c xc rel full b lp sp sc :
  (forall a d, toISOString env a = toISOString env d -> a = d) ->
  nodes s !! p = Some xp -> nodes s !! c = Some xc -> c <> p ->
  is_Some (listenerTimeout xp) ->
  listenerTasks xp = Some b ->
  b_previousStat b = RObj lp ->
  b_method b = Some "watch" ->
  stats s !! lp = Some (statsObject sp) ->
  fs_exists env (pathString xp) = true ->
  (if followLinks (config xp) then fs_stat env else fs_lstat env) (pathString xp)
    = inr (statsObject sc) ->
  st_birthtime sp = st_birthtime sc ->
  ~ sameButAccess sp sc ->
  st_kind sc = KDirectory ->
  fs_readdir env (pathString xp) = inr [rel] ->
  children xp = [(rel, Child c)] ->
  listeners xc = childListeners p rel full -> path xc = Some full ->
  callerOnly "log" xp ->
  exists s' xp' xc',
    exec env (S (S (S (S n)))) (CFireTimeout p) s = Ok tt s' /\
    nodes s' !! p = Some xp' /\ children xp' = children xp /\ state xp' = state xp /\
    stat xp' = RObj (length (stats s)) /\
    listenerTimeout xp' = None /\ listenerTasks xp' = None /\
    nodes s' !! c = Some xc' /\
    listenerTimeout xc' = Some (catchupDelay (config xc)) /\
    listenerTasks xc' =
      Some (batchAfter c xc None (Some (DoneForward (length (groups s))))) /\
    stat xc' = stat xc /\ state xc' = state xc /\
    groups s' = (groups s ++ [{| g_pending := 1; g_finished := false;
                                 g_done := b_done b |}])%list /\
    trace s' = (trace s ++
      [(p, ELog "debug" ("watch evaluating on: " ++ pathString xp));
       (p, ELog "debug" ("Forwarding extensive change detection to child: " ++ rel
                         ++ " via: " ++ pathString xp));
       (c, ELog "debug" ("watch fired on: " ++ full));
       (p, ELog "debug" ("watch fired on: " ++ full))])%list.
Proof.
  intros Hinj Hp Hc Hne [d Ht] Hb Hprev Hmeth Hlp Hex Hst Hbirth Hdiff Hkind Hdir
         Hch Hl Hpath Hlog.
  assert (Hne' : p <> c) by done.
  change (exec env (S (S (S (S n)))) (CFireTimeout p))
    with (fireTimeout env (@exec env (S (S (S n)))) p).
  unfold fireTimeout. rewrite (bind_Ok _ _ _ _ _ (getW_Ok _ _ _ Hp)), Ht, Hb.
  erewrite (bind_Ok (updW _ _)); [|reflexivity].
  erewrite (bind_Ok (updW _ _)); [|reflexivity].
  set (x0 := set_listenerTimeout None (set_listenerTasks None xp)).
  set (s0 := set_nodes (alter (set_listenerTimeout None) _ _) _).
  assert (Hp0 : nodes s0 !! p = Some x0).
  { unfold s0. simpl. by rewrite !list_lookup_alter_eq, Hp. }
  unfold runBatch. rewrite (bind_Ok _ _ _ _ _ (getW_Ok _ _ _ Hp0)).
  change (pathString x0) with (pathString xp).
  rewrite (bind_Ok _ _ _ _ _ (log_exact env _ s0 p x0 _ _ Hp0 Hlog)).
  rewrite Hex. cbn [negb].
  set (e1 := ELog "debug" ("watch evaluating on: " ++ pathString xp)).
  set (s1 := emitted p e1 s0).
  set (x1 := set_listeners (withoutOnce (eventName e1) (listeners x0)) x0).
  assert (Hp1 : nodes s1 !! p = Some x1) by (by apply emitted_lookup).
  rewrite (bind_Ok _ _ _ _ _ (getStat_reset_Ok env s1 p x1 _ Hp1 Hst)).
  change (stats s1) with (stats s).
  set (l := length (stats s)).
  set (s2 := set_nodes _ _).
  set (x2 := set_stat (RObj l) x1).
  assert (Hp2 : nodes s2 !! p = Some x2).
  { change (alter (set_stat (RObj l)) p (nodes s1) !! p = Some x2).
    by rewrite list_lookup_alter_eq, Hp1. }
  rewrite (bind_Ok _ _ _ _ _ (getW_Ok _ _ _ Hp2)). cbn [stat set_stat x2].
  assert (Hl2 : stats s2 !! l = Some (statsObject sc)).
  { unfold s2, l. simpl. by rewrite lookup_app_r, Nat.sub_diag by lia. }
  assert (Hlp2 : stats s2 !! lp = Some (statsObject sp)).
  { unfold s2. simpl. by apply lookup_app_l_Some. }
  rewrite (bind_Ok _ _ _ _ _ (birthtimeString_Ok env s2 l sc Hl2)).
  rewrite Hprev.
  rewrite (bind_Ok _ _ _ _ _ (birthtimeString_Ok env s2 lp sp Hlp2)).
  rewrite Hbirth, stringNe_refl.
  change (bind (ret None) ?k s2) with (k None s2). cbv beta iota.
  rewrite (bind_Ok _ _ _ _ _
             (onStats_Ok _ _ _ _ (statChanged_objects env (stats s2) lp l _ _ Hlp2 Hl2))).
  assert (String.eqb (stringify env (comparedObject env (statsObject sp)))
                     (stringify env (comparedObject env (statsObject sc))) = false) as ->.
  { apply String.eqb_neq. by rewrite (compared_same env sp sc Hinj). }
  cbn [negb].
  set (s3 := set_stats _ s2).
  assert (Hp3 : nodes s3 !! p = Some x2) by exact Hp2.
  assert (Hc3 : nodes s3 !! c = Some xc).
  { change (alter (set_stat (RObj l)) p (nodes s1) !! c = Some xc).
    rewrite list_lookup_alter_ne by done. unfold s1.
    rewrite emitted_lookup_ne by done. unfold s0. simpl.
    by rewrite !list_lookup_alter_ne by done. }
  assert (Hl3 : stats s3 !! l = Some (statsObject sc)).
  { unfold s3. simpl stats. by apply lookup_app_l_Some. }
  assert (Hg3 : groups s3 = groups s) by reflexivity.
  assert (Htr3 : trace s3 = (trace s ++ [(p, e1)])%list) by reflexivity.
  clearbody s3. clear s2 Hp2 Hl2 Hlp2 s1 Hp1 s0 Hp0.
  unfold checkWhatHasChanged.
  rewrite (bind_Ok _ _ _ _ _ (isDirectory_Ok s3 p x2 l sc Hp3 eq_refl Hl3)).
  rewrite (bind_Ok _ _ _ _ _ (getW_Ok _ _ _ Hp3)).
  rewrite Hkind. cbn [negb]. change (pathString x2) with (pathString xp).
  rewrite Hdir. change (children x2) with (children xp). rewrite Hch, Hmeth.
  assert (Hinc : includes [rel] rel = true).
  { unfold includes. simpl. by rewrite String.eqb_refl. }
  cbn [String.eqb Ascii.eqb Bool.eqb forwardTargets flat_map fst snd].
  rewrite Hinc. cbn [app].
  unfold deletionScan. rewrite ?bind_assoc.
  rewrite (bind_Ok _ _ _ _ _ (getW_Ok _ _ _ Hp3)).
  change (children x2) with (children xp). rewrite Hch. cbn [forEach fst].
  rewrite ?bind_assoc.
  rewrite (bind_Ok _ _ _ _ _ (getW_Ok _ _ _ Hp3)).
  change (children x2) with (children xp). rewrite Hch.
  cbn [lookupChild]. rewrite String.eqb_refl, Hinc.
  repeat (first [rewrite bind_assoc
                |erewrite (bind_Ok (ret _)); [|reflexivity]
                |progress cbv beta iota]).
  cbn [creationScan]. rewrite ?bind_assoc.
  rewrite (bind_Ok _ _ _ _ _ (getW_Ok _ _ _ Hp3)).
  change (children x2) with (children xp). rewrite Hch.
  cbn [lookupChild]. rewrite String.eqb_refl.
  repeat (first [rewrite bind_assoc
                |erewrite (bind_Ok (ret _)); [|reflexivity]
                |progress cbv beta iota]).
  unfold newGroup. rewrite ?bind_assoc.
  change (bind get ?k s3) with (k s3 s3). cbv beta.
  rewrite ?bind_assoc.
  erewrite (bind_Ok (modify _)); [|reflexivity].
  erewrite (bind_Ok (ret _)); [|reflexivity].
  cbn [forEach fst snd length Nat.add]. rewrite ?bind_assoc.
  set (s4 := set_groups _ s3).
  assert (Hp4 : nodes s4 !! p = Some x2) by exact Hp3.
  assert (Hc4 : nodes s4 !! c = Some xc) by exact Hc3.
  assert (Hlog2 : callerOnly "log" x2) by (by apply (callerOnly_withoutOnce "log" _ x0)).
  rewrite (bind_Ok _ _ _ _ _ (log_exact env _ s4 p x2 _ _ Hp4 Hlog2)).
  set (e2 := ELog "debug" _).
  set (s5 := emitted p e2 s4).
  set (x5 := set_listeners (withoutOnce (eventName e2) (listeners x2)) x2).
  assert (Hp5 : nodes s5 !! p = Some x5) by (by apply emitted_lookup).
  assert (Hc5 : nodes s5 !! c = Some xc) by (unfold s5; by rewrite emitted_lookup_ne).
  assert (Hlog5 : callerOnly "log" x5) by (by apply (callerOnly_withoutOnce "log" _ x2)).
  assert (Hg5 : groups s5 = (groups s ++ [{| g_pending := 1; g_finished := false;
                                             g_done := b_done b |}])%list).
  { unfold s5, s4. simpl. by rewrite Hg3. }
  assert (Htr5 : trace s5 = (trace s ++ [(p, e1); (p, e2)])%list).
  { unfold s5, s4, emitted. simpl. by rewrite Htr3, <- app_assoc. }
  assert (Hst5 : stats s5 !! l = Some (statsObject sc)) by exact Hl3.
  clearbody s5. clear s4 Hp4 Hc4.
  destruct (listener_child env n s5 p x5 c xc rel full (Some (DoneForward (length (groups s3))))
              Hp5 Hc5 Hne Hl Hpath Hlog5)
    as (s6 & xc6 & xp6 & Hrun & Hc6 & Hto6 & Hta6 & Hstat6 & Hstate6 & _ & _ & _ & Hp6 & Hcore6
        & Hch6 & _ & _ & Hg6 & _ & _ & _ & Htr6).
  rewrite (bind_Ok _ _ _ _ _ Hrun).
  erewrite (bind_Ok (ret _)); [|reflexivity].
  exists s6, xp6, xc6. split; [reflexivity|].
  unfold core in Hcore6. injection Hcore6 as _ E2 _ E4 _ E6 E7 _.
  rewrite Hg3 in Hta6.
  split_and!; try done.
  - rewrite Hch6. exact Hch.
  - by rewrite Hg6.
  - rewrite Htr6, Htr5, <- !app_assoc. done.
Qed.

(** X21: when the timer of a watched file in a watched directory fires and the
    new stat differs from the previous one in a field other than [atime]
    and [ctime], with the same birth time, the file emits [change] with
    [update], its path and both stats, and the directory emits the same
    event after it; every [log] event of the file is emitted by the
    directory as well. *)
Theorem child_update_bubbles env n (s : World) p xp c xc rel full b lp sp sc :
  (forall a d, toISOString env a = toISOString env d -> a = d) ->
  nodes s !! p = Some xp -> nodes s !! c = Some xc -> c <> p ->
  listeners xc = childListeners p rel full -> path xc = Some full ->
  is_Some (listenerTimeout xc) ->
  listenerTasks xc = Some b ->
  b_previousStat b = RObj lp ->
  defaultCallbacks (b_done b) ->
  stats s !! lp = Some (statsObject sp) ->
  fs_exists env full = true ->
  (if followLinks (config xc) then fs_stat env else fs_lstat env) full
    = inr (statsObject sc) ->
  st_birthtime sp = st_birthtime sc ->
  ~ sameButAccess sp sc ->
  st_kind sc <> KDirectory ->
  callerOnly "log" xp -> callerOnly "change" xp ->
  exists s' xc' xp',
    exec env (S (S (S n))) (CFireTimeout c) s = Ok tt s' /\
    nodes s' !! c = Some xc' /\
    stat xc' = RObj (length (stats s)) /\
    stats s' !! length (stats s) = Some (statsObject sc) /\
    listenerTimeout xc' = None /\ listenerTasks xc' = None /\ state xc' = state xc /\
    nodes s' !! p = Some xp' /\ core xp' = core xp /\ children xp' = children xp /\
    trace s' = (trace s ++
      [(c, ELog "debug" ("watch evaluating on: " ++ full));
       (p, ELog "debug" ("watch evaluating on: " ++ full));
       (c, ELog "debug" ("watch determined update: " ++ full));
       (p, ELog "debug" ("watch determined update: " ++ full));
       (c, EChange "update" full (RObj (length (stats s))) (RObj lp));
       (p, EChange "update" full (RObj (length (stats s))) (RObj lp))])%list.
Proof.
  intros Hinj Hp Hc Hne Hl Hpath Ht Hb Hprev Hdone Hlp Hex Hst Hbirth Hdiff Hkind Hlog Hchange.
  destruct (child_batch_changed env n s p xp c xc rel full b lp sp sc Hinj Hp Hc Hne Hl Hpath
              Ht Hb Hprev Hlp Hex Hst Hbirth Hdiff Hkind Hlog Hchange)
    as (s' & xc' & xp' & Hrun & Hc' & Hstat' & Hstats' & Hto' & Hta' & Hstate' & _ & Hp'
        & Hcore' & Hch' & _ & _ & _ & _ & _ & Htr').
  exists s', xc', xp'. rewrite Hrun, (finish_none env _ _ _ Hdone). done.
Qed.

(** X23: when the timer of a file fires to which its directory forwarded the
    detection, and the stat fetched for the file, whatever its properties,
    has the JSON text of the previous one once [atime] and [ctime] are
    deleted from both, and a birth time that prints the same, the file
    answers the task of the directory: the group counts the task as
    completed, and is finished when it was the last.  Only [log] events are
    emitted.  (On the [Stats] of Node 8.1 and later the text holds
    [atimeMs] and [ctimeMs], so there the file must not have been accessed
    either.) *)
Theorem forwarded_child_unchanged env n (s : World) p xp c xc rel full b g G lp op oc tp tc :
  nodes s !! p = Some xp -> nodes s !! c = Some xc -> c <> p ->
  listeners xc = childListeners p rel full -> path xc = Some full ->
  is_Some (listenerTimeout xc) ->
  listenerTasks xc = Some b ->
  b_previousStat b = RObj lp ->
  b_done b = [DoneForward g] ->
  groups s !! g = Some G -> g_finished G = false -> defaultCallbacks (g_done G) ->
  stats s !! lp = Some op ->
  fs_exists env full = true ->
  (if followLinks (config xc) then fs_stat env else fs_lstat env) full = inr oc ->
  getProp op "birthtime" = Some (VDate (Some tp)) ->
  getProp oc "birthtime" = Some (VDate (Some tc)) ->
  dateToString env tc = dateToString env tp ->
  stringify env (comparedObject env op) = stringify env (comparedObject env oc) ->
  callerOnly "log" xp ->
  exists s' xc',
    exec env (S (S (S n))) (CFireTimeout c) s = Ok tt s' /\
    groups s' = taskCounted g G (groups s) /\
    nodes s' !! c = Some xc' /\
    stat xc' = RObj (length (stats s)) /\
    stats s' !! length (stats s) = Some oc /\
    listenerTimeout xc' = None /\ listenerTasks xc' = None /\ state xc' = state xc /\
    trace s' = (trace s ++
      [(c, ELog "debug" ("watch evaluating on: " ++ full));
       (p, ELog "debug" ("watch evaluating on: " ++ full));
       (c, ELog "debug" ("watch determined same: " ++ full));
       (p, ELog "debug" ("watch determined same: " ++ full))])%list.
Proof.
  intros Hp Hc Hne Hl Hpath Ht Hb Hprev Hdone Hg Hf Hgd Hlp Hex Hst Hbp Hbc Hbirth Hsame
         Hlog.
  destruct (child_batch_same env n s p xp c xc rel full b lp op oc tp tc Hp Hc Hne Hl Hpath
              Ht Hb Hprev Hlp Hex Hst Hbp Hbc Hbirth Hsame Hlog)
    as (s' & xc' & xp' & Hrun & Hc' & Hstat' & Hstats' & Hto' & Hta' & Hstate' & _ & Hp'
        & Hcore' & Hch' & _ & Hg' & _ & _ & _ & Htr').
  rewrite Hdone in Hrun. rewrite <- Hg' in Hg.
  rewrite (forward_completes env n s' g G Hg Hf Hgd) in Hrun.
  eexists _, xc'. split; [exact Hrun|]. unfold taskCounted. simpl. rewrite Hg'. done.
Qed.

(** X24: when the timer of a file fires to which its directory forwarded the
    detection, and the file has changed, the file and the directory emit
    [change] with [update], and the file then answers the task of the
    directory. *)
Theorem forwarded_child_reports_update env n (s : World)
    p xp c xc rel full b g G lp sp sc :
  (forall a d, toISOString env a = toISOString env d -> a = d) ->
  nodes s !! p = Some xp -> nodes s !! c = Some xc -> c <> p ->
  listeners xc = childListeners p rel full -> path xc = Some full ->
  is_Some (listenerTimeout xc) ->
  listenerTasks xc = Some b ->
  b_previousStat b = RObj lp ->
  b_done b = [DoneForward g] ->
  groups s !! g = Some G -> g_finished G = false -> defaultCallbacks (g_done G) ->
  stats s !! lp = Some (statsObject sp) ->
  fs_exists env full = true ->
  (if followLinks (config xc) then fs_stat env else fs_lstat env) full
    = inr (statsObject sc) ->
  st_birthtime sp = st_birthtime sc ->
  ~ sameButAccess sp sc ->
  st_kind sc <> KDirectory ->
  callerOnly "log" xp -> callerOnly "change" xp ->
  exists s' xc',
    exec env (S (S (S n))) (CFireTimeout c) s = Ok tt s' /\
    groups s' = taskCounted g G (groups s) /\
    nodes s' !! c = Some xc' /\
    stat xc' = RObj (length (stats s)) /\
    listenerTimeout xc' = None /\ listenerTasks xc' = None /\ state xc' = state xc /\
    trace s' = (trace s ++
      [(c, ELog "debug" ("watch evaluating on: " ++ full));
       (p, ELog "debug" ("watch evaluating on: " ++ full));
       (c, ELog "debug" ("watch determined update: " ++ full));
       (p, ELog "debug" ("watch determined update: " ++ full));
       (c, EChange "update" full (RObj (length (stats s))) (RObj lp));
       (p, EChange "update" full (RObj (length (stats s))) (RObj lp))])%list.
Proof.
  intros Hinj Hp Hc Hne Hl Hpath Ht Hb Hprev Hdone Hg Hf Hgd Hlp Hex Hst Hbirth Hdiff Hkind
         Hlog Hchange.
  destruct (child_batch_changed env n s p xp c xc rel full b lp sp sc Hinj Hp Hc Hne Hl Hpath
              Ht Hb Hprev Hlp Hex Hst Hbirth Hdiff Hkind Hlog Hchange)
    as (s' & xc' & xp' & Hrun & Hc' & Hstat' & Hstats' & Hto' & Hta' & Hstate' & _ & Hp'
        & Hcore' & Hch' & _ & Hg' & _ & _ & _ & Htr').
  rewrite Hdone in Hrun. rewrite <- Hg' in Hg.
  rewrite (forward_completes env n s' g G Hg Hf Hgd) in Hrun.
  eexists _, xc'. split; [exact Hrun|]. unfold taskCounted. simpl. rewrite Hg'. done.
Qed.

Lemma finish_error_frame env n (done : list completion) err (s : World) w x :
  nodes s !! w = Some x -> callerOnly "error" x -> listensTo "error" x ->
  Forall (fun d => d = DoneEmitError w) done ->
  exists s' x', finish (@exec env (S (S n))) done (Some err) s = Ok tt s' /\
    trace s' = (trace s ++ map (fun _ => (w, EError err)) done)%list /\
    nodes s' !! w = Some x' /\ core x' = core x /\ children x' = children x /\
    (forall ev, callerOnly ev x -> callerOnly ev x') /\
    (forall w', w' <> w -> nodes s' !! w' = nodes s !! w') /\
    length (nodes s') = length (nodes s) /\
    stats s' = stats s /\ groups s' = groups s /\ watchers s' = watchers s /\
    handles s' = handles s /\ polls s' = polls s.
Proof.
  intros Hw Hc Hl Hd. revert s x Hw Hc Hl. unfold finish.
  induction Hd as [|d ds -> _ IH]; intros s x Hw Hc Hl.
  - exists s, x. by rewrite app_nil_r.
  - simpl forEach.
    assert (exec env (S (S n)) (CComplete (DoneEmitError w) (Some err)) s
            = Ok tt (emitted w (EError err) s)) as E.
    { change (exec env (S (S n)) (CComplete (DoneEmitError w) (Some err)))
        with (exec env (S n) (CEmit w (EError err))).
      apply (emit_exact env n s w x); [done..|]. by apply listensTo_unhandled. }
    rewrite (bind_Ok _ _ _ _ _ E).
    destruct (IH (emitted w (EError err) s) _ (emitted_lookup s w x _ Hw)
                 (callerOnly_withoutOnce "error" _ x Hc)
                 (listensTo_withoutOnce "error" _ x Hl))
      as (s' & x' & R & T & N & C & Ch & F & O & L & St & G & Wa & H & P).
    exists s', x'. split; [exact R|].
    split; [rewrite T; simpl; by rewrite <- app_assoc|].
    split_and!; try done.
    + intros ev Hev. apply F. by apply callerOnly_withoutOnce.
    + intros w' Hne. rewrite O by done. by apply emitted_lookup_ne.
    + rewrite L. unfold emitted. simpl. by rewrite length_alter.
Qed.

(** X25: when the timer of a directory fires, its stat has changed and the
    directory cannot be listed, and the caller listens to [error] on the
    directory with [on], the batch reports the error of [readdir] once per
    notification that joined it, as an [error] event of the directory; no
    child is closed, reserved or created, and the directory holds the new
    stat.  (Without a listener the [EventEmitter] throws the first of these
    events.) *)
Theorem unlistable_directory_reports_error env n (s : World) p xp b lp sp sc err :
  (forall a d, toISOString env a = toISOString env d -> a = d) ->
  nodes s !! p = Some xp ->
  is_Some (listenerTimeout xp) ->
  listenerTasks xp = Some b ->
  b_previousStat b = RObj lp ->
  Forall (fun d => d = DoneEmitError p) (b_done b) ->
  stats s !! lp = Some (statsObject sp) ->
  fs_exists env (pathString xp) = true ->
  (if followLinks (config xp) then fs_stat env else fs_lstat env) (pathString xp)
    = inr (statsObject sc) ->
  st_birthtime sp = st_birthtime sc ->
  ~ sameButAccess sp sc ->
  st_kind sc = KDirectory ->
  fs_readdir env (pathString xp) = inl err ->
  callerOnly "log" xp -> callerOnly "error" xp -> listensTo "error" xp ->
  exists s' xp',
    exec env (S (S (S n))) (CFireTimeout p) s = Ok tt s' /\
    nodes s' !! p = Some xp' /\ children xp' = children xp /\ state xp' = state xp /\
    stat xp' = RObj (length (stats s)) /\
    listenerTimeout xp' = None /\ listenerTasks xp' = None /\
    (forall w', w' <> p -> nodes s' !! w' = nodes s !! w') /\
    length (nodes s') = length (nodes s) /\
    watchers s' = watchers s /\ handles s' = handles s /\ polls s' = polls s /\
    trace s' = (trace s ++
      (p, ELog "debug" ("watch evaluating on: " ++ pathString xp))
      :: map (fun _ => (p, EError err)) (b_done b))%list.
Proof.
  intros Hinj Hp [d Ht] Hb Hprev Hdone Hlp Hex Hst Hbirth Hdiff Hkind Hdir Hlog Herr Hon.
  change (exec env (S (S (S n))) (CFireTimeout p))
    with (fireTimeout env (@exec env (S (S n))) p).
  unfold fireTimeout. rewrite (bind_Ok _ _ _ _ _ (getW_Ok _ _ _ Hp)), Ht, Hb.
  erewrite (bind_Ok (updW _ _)); [|reflexivity].
  erewrite (bind_Ok (updW _ _)); [|reflexivity].
  set (x0 := set_listenerTimeout None (set_listenerTasks None xp)).
  set (s0 := set_nodes (alter (set_listenerTimeout None) _ _) _).
  assert (Hp0 : nodes s0 !! p = Some x0).
  { unfold s0. simpl. by rewrite !list_lookup_alter_eq, Hp. }
  unfold runBatch. rewrite (bind_Ok _ _ _ _ _ (getW_Ok _ _ _ Hp0)).
  change (pathString x0) with (pathString xp).
  rewrite (bind_Ok _ _ _ _ _ (log_exact env _ s0 p x0 _ _ Hp0 Hlog)).
  rewrite Hex. cbn [negb].
  set (e1 := ELog "debug" ("watch evaluating on: " ++ pathString xp)).
  set (s1 := emitted p e1 s0).
  set (x1 := set_listeners (withoutOnce (eventName e1) (listeners x0)) x0).
  assert (Hp1 : nodes s1 !! p = Some x1) by (by apply emitted_lookup).
  rewrite (bind_Ok _ _ _ _ _ (getStat_reset_Ok env s1 p x1 _ Hp1 Hst)).
  change (stats s1) with (stats s).
  set (l := length (stats s)).
  set (s2 := set_nodes _ _).
  set (x2 := set_stat (RObj l) x1).
  assert (Hp2 : nodes s2 !! p = Some x2).
  { change (alter (set_stat (RObj l)) p (nodes s1) !! p = Some x2).
    by rewrite list_lookup_alter_eq, Hp1. }
  rewrite (bind_Ok _ _ _ _ _ (getW_Ok _ _ _ Hp2)). cbn [stat set_stat x2].
  assert (Hl2 : stats s2 !! l = Some (statsObject sc)).
  { unfold s2, l. simpl. by rewrite lookup_app_r, Nat.sub_diag by lia. }
  assert (Hlp2 : stats s2 !! lp = Some (statsObject sp)).
  { unfold s2. simpl. by apply lookup_app_l_Some. }
  rewrite (bind_Ok _ _ _ _ _ (birthtimeString_Ok env s2 l sc Hl2)).
  rewrite Hprev.
  rewrite (bind_Ok _ _ _ _ _ (birthtimeString_Ok env s2 lp sp Hlp2)).
  rewrite Hbirth, stringNe_refl.
  change (bind (ret None) ?k s2) with (k None s2). cbv beta iota.
  rewrite (bind_Ok _ _ _ _ _
             (onStats_Ok _ _ _ _ (statChanged_objects env (stats s2) lp l _ _ Hlp2 Hl2))).
  assert (String.eqb (stringify env (comparedObject env (statsObject sp)))
                     (stringify env (comparedObject env (statsObject sc))) = false) as ->.
  { apply String.eqb_neq. by rewrite (compared_same env sp sc Hinj). }
  cbn [negb].
  set (s3 := set_stats _ s2).
  assert (Hp3 : nodes s3 !! p = Some x2) by exact Hp2.
  assert (Hl3 : stats s3 !! l = Some (statsObject sc)).
  { unfold s3. simpl stats. by apply lookup_app_l_Some. }
  assert (Hoth3 : forall w', w' <> p -> nodes s3 !! w' = nodes s !! w').
  { intros w' Hne. change (alter (set_stat (RObj l)) p (nodes s1) !! w' = nodes s !! w').
    rewrite list_lookup_alter_ne by done. unfold s1.
    rewrite emitted_lookup_ne by done. unfold s0. simpl.
    by rewrite !list_lookup_alter_ne by done. }
  assert (Hlen3 : length (nodes s3) = length (nodes s)).
  { unfold s3, s2, s1, s0, emitted. simpl. by rewrite !length_alter. }
  assert (Hwa3 : watchers s3 = watchers s) by reflexivity.
  assert (Hh3 : handles s3 = handles s) by reflexivity.
  assert (Hpo3 : polls s3 = polls s) by reflexivity.
  assert (Htr3 : trace s3 = (trace s ++ [(p, e1)])%list) by reflexivity.
  clearbody s3. clear s2 Hp2 Hl2 Hlp2 s1 Hp1 s0 Hp0.
  unfold checkWhatHasChanged.
  rewrite (bind_Ok _ _ _ _ _ (isDirectory_Ok s3 p x2 l sc Hp3 eq_refl Hl3)).
  rewrite (bind_Ok _ _ _ _ _ (getW_Ok _ _ _ Hp3)).
  rewrite Hkind. cbn [negb]. change (pathString x2) with (pathString xp).
  rewrite Hdir.
  assert (Herr2 : callerOnly "error" x2) by (by apply (callerOnly_withoutOnce "error" _ x0)).
  assert (Hon2 : listensTo "error" x2) by (by apply (listensTo_withoutOnce "error" _ x0)).
  destruct (finish_error_frame env n (b_done b) err s3 p x2 Hp3 Herr2 Hon2 Hdone)
    as (s' & x' & R & T & N & C & Ch & _ & O & L & _ & _ & Wa & H & P).
  exists s', x'. split; [exact R|]. split; [exact N|].
  unfold core in C. injection C as _ E2 _ E4 _ E6 E7 _.
  rewrite E2, E4, E6, E7, Ch.
  split_and!; try done; try congruence.
  - intros w' Hne. rewrite O by done. by apply Hoth3.
  - rewrite T, Htr3, <- app_assoc. done.
Qed.




(** X27: [close] on an active watcher closes none of its children: whatever
    the reason, when no child is named [[object Object]] or [false], the
    watcher is closed or deleted, releases its own binding and clears its
    registry entry, and every other watcher, and its own children map,
    stay as they were. *)
Theorem close_leaves_children env n (s : World) w x reason p :
  nodes s !! w = Some x -> state x = active -> plainNames (children x) ->
  callerOnly "log" x -> callerOnly "change" x -> registeredAs p x ->
  exists s' x',
    exec env (S (S n)) (CClose w reason) s = Ok tt s' /\
    nodes s' !! w = Some x' /\
    state x' = (if reasonIs reason "deleted" then deleted else closed) /\
    fswatcher x' = None /\ children x' = children x /\
    (forall w', w' <> w -> nodes s' !! w' = nodes s !! w') /\
    watchers s' = <[p := None]> (watchers s) /\
    handles s' = releasedHandles x s /\
    polls s' = releasedPolls x s /\
    trace s' = (trace s ++ closeEvents w x reason)%list.
Proof.
  intros Hw Ha Hch Hlog Hchange Hreg.
  destruct (close_frame env n s w x reason p Hw Ha Hch Hlog Hchange Hreg)
    as (s' & x' & Hrun & Hw' & Hst & Hf & _ & _ & _ & Hc & _ & _ & _ & _ & Ho & _ & _ & _
        & Hr & Hh & Hp & Ht).
  exists s', x'. done.
Qed.


(** X29: when the timer of a directory fires after its only child has gone, and
    the path of the child is ignored, the batch skips the child: it is not
    closed and stays in the children map; no other watcher, binding or
    registry entry changes, and only [log] events are emitted. *)
Theorem ignored_deletion_keeps_child env n (s : World) p xp c rel b lp sp sc :
  (forall a d, toISOString env a = toISOString env d -> a = d) ->
  nodes s !! p = Some xp ->
  is_Some (listenerTimeout xp) ->
  listenerTasks xp = Some b ->
  b_previousStat b = RObj lp ->
  defaultCallbacks (b_done b) ->
  stats s !! lp = Some (statsObject sp) ->
  fs_exists env (pathString xp) = true ->
  (if followLinks (config xp) then fs_stat env else fs_lstat env) (pathString xp)
    = inr (statsObject sc) ->
  st_birthtime sp = st_birthtime sc ->
  ~ sameButAccess sp sc ->
  st_kind sc = KDirectory ->
  fs_readdir env (pathString xp) = inr [] ->
  ignorefs_isIgnoredPath env (path_join env (pathString xp) rel) (getIgnoredOptions xp)
    = true ->
  children xp = [(rel, Child c)] ->
  callerOnly "log" xp ->
  exists s' xp',
    exec env (S (S (S n))) (CFireTimeout p) s = Ok tt s' /\
    nodes s' !! p = Some xp' /\ children xp' = [(rel, Child c)] /\ state xp' = state xp /\
    stat xp' = RObj (length (stats s)) /\
    (forall w', w' <> p -> nodes s' !! w' = nodes s !! w') /\
    watchers s' = watchers s /\ handles s' = handles s /\ polls s' = polls s /\
    groups s' = groups s /\
    trace s' = (trace s ++
      [(p, ELog "debug" ("watch evaluating on: " ++ pathString xp));
       (p, ELog "debug" ("ignore: " ++ path_join env (pathString xp) rel ++ " yes"));
       (p, ELog "debug" ("watch ignored delete: " ++ path_join env (pathString xp) rel
                         ++ " via: " ++ pathString xp))])%list.
Proof.
  intros Hinj Hp [d Ht] Hb Hprev Hdone Hlp Hex Hst Hbirth Hdiff Hkind Hdir Hig Hch Hlog.
  change (exec env (S (S (S n))) (CFireTimeout p))
    with (fireTimeout env (@exec env (S (S n))) p).
  unfold fireTimeout. rewrite (bind_Ok _ _ _ _ _ (getW_Ok _ _ _ Hp)), Ht, Hb.
  erewrite (bind_Ok (updW _ _)); [|reflexivity].
  erewrite (bind_Ok (updW _ _)); [|reflexivity].
  set (x0 := set_listenerTimeout None (set_listenerTasks None xp)).
  set (s0 := set_nodes (alter (set_listenerTimeout None) _ _) _).
  assert (Hp0 : nodes s0 !! p = Some x0).
  { unfold s0. simpl. by rewrite !list_lookup_alter_eq, Hp. }
  unfold runBatch. rewrite (bind_Ok _ _ _ _ _ (getW_Ok _ _ _ Hp0)).
  change (pathString x0) with (pathString xp).
  rewrite (bind_Ok _ _ _ _ _ (log_exact env _ s0 p x0 _ _ Hp0 Hlog)).
  rewrite Hex. cbn [negb].
  set (e1 := ELog "debug" ("watch evaluating on: " ++ pathString xp)).
  set (s1 := emitted p e1 s0).
  set (x1 := set_listeners (withoutOnce (eventName e1) (listeners x0)) x0).
  assert (Hp1 : nodes s1 !! p = Some x1) by (by apply emitted_lookup).
  rewrite (bind_Ok _ _ _ _ _ (getStat_reset_Ok env s1 p x1 _ Hp1 Hst)).
  change (stats s1) with (stats s).
  set (l := length (stats s)).
  set (s2 := set_nodes _ _).
  set (x2 := set_stat (RObj l) x1).
  assert (Hp2 : nodes s2 !! p = Some x2).
  { change (alter (set_stat (RObj l)) p (nodes s1) !! p = Some x2).
    by rewrite list_lookup_alter_eq, Hp1. }
  rewrite (bind_Ok _ _ _ _ _ (getW_Ok _ _ _ Hp2)). cbn [stat set_stat x2].
  assert (Hl2 : stats s2 !! l = Some (statsObject sc)).
  { unfold s2, l. simpl. by rewrite lookup_app_r, Nat.sub_diag by lia. }
  assert (Hlp2 : stats s2 !! lp = Some (statsObject sp)).
  { unfold s2. simpl. by apply lookup_app_l_Some. }
  rewrite (bind_Ok _ _ _ _ _ (birthtimeString_Ok env s2 l sc Hl2)).
  rewrite Hprev.
  rewrite (bind_Ok _ _ _ _ _ (birthtimeString_Ok env s2 lp sp Hlp2)).
  rewrite Hbirth, stringNe_refl.
  change (bind (ret None) ?k s2) with (k None s2). cbv beta iota.
  rewrite (bind_Ok _ _ _ _ _
             (onStats_Ok _ _ _ _ (statChanged_objects env (stats s2) lp l _ _ Hlp2 Hl2))).
  assert (String.eqb (stringify env (comparedObject env (statsObject sp)))
                     (stringify env (comparedObject env (statsObject sc))) = false) as ->.
  { apply String.eqb_neq. by rewrite (compared_same env sp sc Hinj). }
  cbn [negb].
  set (s3 := set_stats _ s2).
  assert (Hp3 : nodes s3 !! p = Some x2) by exact Hp2.
  assert (Hl3 : stats s3 !! l = Some (statsObject sc)).
  { unfold s3. simpl stats. by apply lookup_app_l_Some. }
  assert (Hoth3 : forall w', w' <> p -> nodes s3 !! w' = nodes s !! w').
  { intros w' Hne. change (alter (set_stat (RObj l)) p (nodes s1) !! w' = nodes s !! w').
    rewrite list_lookup_alter_ne by done. unfold s1.
    rewrite emitted_lookup_ne by done. unfold s0. simpl.
    by rewrite !list_lookup_alter_ne by done. }
  assert (Hwa3 : watchers s3 = watchers s) by reflexivity.
  assert (Hh3 : handles s3 = handles s) by reflexivity.
  assert (Hpo3 : polls s3 = polls s) by reflexivity.
  assert (Hg3 : groups s3 = groups s) by reflexivity.
  assert (Htr3 : trace s3 = (trace s ++ [(p, e1)])%list) by reflexivity.
  clearbody s3. clear s2 Hp2 Hl2 Hlp2 s1 Hp1 s0 Hp0.
  unfold checkWhatHasChanged.
  rewrite (bind_Ok _ _ _ _ _ (isDirectory_Ok s3 p x2 l sc Hp3 eq_refl Hl3)).
  rewrite (bind_Ok _ _ _ _ _ (getW_Ok _ _ _ Hp3)).
  rewrite Hkind. cbn [negb]. change (pathString x2) with (pathString xp).
  rewrite Hdir. change (children x2) with (children xp). rewrite Hch.
  assert ((if match b_method b with Some m => String.eqb m "watch" | None => false end
           then forwardTargets [(rel, Child c)] [] else []) = []) as ->
    by (by destruct (match b_method b with Some m => String.eqb m "watch" | None => false end)).
  unfold deletionScan. rewrite ?bind_assoc.
  rewrite (bind_Ok _ _ _ _ _ (getW_Ok _ _ _ Hp3)).
  change (children x2) with (children xp). rewrite Hch. cbn [forEach fst].
  rewrite ?bind_assoc.
  rewrite (bind_Ok _ _ _ _ _ (getW_Ok _ _ _ Hp3)).
  change (children x2) with (children xp). rewrite Hch.
  cbn [lookupChild]. rewrite String.eqb_refl. cbn [includes existsb].
  change (pathString x2) with (pathString xp).
  unfold isIgnoredPath. rewrite ?bind_assoc.
  rewrite (bind_Ok _ _ _ _ _ (getW_Ok _ _ _ Hp3)).
  change (getIgnoredOptions x2) with (getIgnoredOptions xp). rewrite Hig.
  set (joined := path_join env (pathString xp) rel).
  rewrite ?bind_assoc.
  assert (Hlog2 : callerOnly "log" x2) by (by apply (callerOnly_withoutOnce "log" _ x0)).
  rewrite (bind_Ok _ _ _ _ _ (log_exact env _ s3 p x2 _ _ Hp3 Hlog2)).
  set (e2 := ELog "debug" ("ignore: " ++ joined ++ " " ++ "yes")).
  set (s4 := emitted p e2 s3).
  set (x4 := set_listeners (withoutOnce (eventName e2) (listeners x2)) x2).
  assert (Hp4 : nodes s4 !! p = Some x4) by (by apply emitted_lookup).
  assert (Hlog4 : callerOnly "log" x4) by (by apply (callerOnly_withoutOnce "log" _ x2)).
  change (bind (ret true) ?k s4) with (k true s4). cbv beta iota.
  rewrite ?bind_assoc.
  rewrite (bind_Ok _ _ _ _ _ (log_exact env _ s4 p x4 _ _ Hp4 Hlog4)).
  set (e3 := ELog "debug" ("watch ignored delete: " ++ joined ++ " via: " ++ pathString xp)).
  set (s5 := emitted p e3 s4).
  assert (Hp5 := emitted_lookup s4 p x4 e3 Hp4). fold s5 in Hp5.
  repeat (first [rewrite bind_assoc
                |erewrite (bind_Ok (ret _)); [|reflexivity]
                |progress cbv beta iota]).
  cbn [creationScan].
  repeat (first [rewrite bind_assoc
                |erewrite (bind_Ok (ret _)); [|reflexivity]
                |progress cbv beta iota]).
  rewrite (finish_none env _ _ _ Hdone).
  eexists _, _. split; [reflexivity|]. split; [exact Hp5|].
  cbn [children state stat set_listeners x4 x2 x1 x0 set_stat set_listenerTimeout
       set_listenerTasks].
  split_and!; try done.
  - intros w' Hne. unfold s5, s4. rewrite !emitted_lookup_ne by done. by apply Hoth3.
  - unfold s5, s4, emitted. simpl. rewrite Htr3, <- !app_assoc. reflexivity.
Qed.









Lemma replaced_file_rebinds_witness :
  exists s', exec (envFile otherFileStats) fuel0 (CFireTimeout 0%nat) worldFileNotified
             = Ok tt s' /\
             stateOf s' 0 = Some active /\
             watchers s' = <["/f" := None]> (watchers worldFileNotified) /\
             handles s' = [("/f", false); ("/f", true)] /\
             last (trace s') = Some (0%nat, EChange "update" "/f" (RObj 1) (RObj 0)).
Proof.
  edestruct replaced_file_rebinds
    with (env := envFile otherFileStats) (n := 16%nat) (s := worldFileNotified)
         (w := 0%nat) (lp := 0%nat) (sp := fileStats 1 1 1 10) (sc := otherFileStats)
         (failed := @nil string) (m := "watch") (rest := ["watchFile"]) (p := "/f")
    as (s' & x' & Hrun & Hw & Hs & _ & _ & _ & _ & _ & _ & Hreg & Hh & _ & Ht).
  - exact numberToString_inj.
  - vm_compute. reflexivity.
  - vm_compute. eauto.
  - vm_compute. reflexivity.
  - vm_compute. reflexivity.
  - constructor; [eexists; reflexivity|constructor].
  - vm_compute. reflexivity.
  - vm_compute. reflexivity.
  - vm_compute. reflexivity.
  - vm_compute. discriminate.
  - vm_compute. discriminate.
  - vm_compute. reflexivity.
  - vm_compute. reflexivity.
  - vm_compute. reflexivity.
  - constructor.
  - vm_compute. reflexivity.
  - root_listeners.
  - root_listeners.
  - root_listeners.
  - root_registered.
  - exists s'. split; [exact Hrun|].
    split; [unfold stateOf; rewrite Hw; cbn [fmap option_fmap option_map]; by rewrite Hs|].
    split; [exact Hreg|]. split; [rewrite Hh; vm_compute; reflexivity|].
    rewrite Ht. rewrite last_app. reflexivity.
Defined.

Lemma child_update_bubbles_witness :
  exists s', exec envChildTouched fuel0 (CFireTimeout 1%nat) worldChildNotified = Ok tt s' /\
             trace s' = (trace worldChildNotified ++
               [(1%nat, ELog "debug" "watch evaluating on: /d/a");
                (0%nat, ELog "debug" "watch evaluating on: /d/a");
                (1%nat, ELog "debug" "watch determined update: /d/a");
                (0%nat, ELog "debug" "watch determined update: /d/a");
                (1%nat, EChange "update" "/d/a" (RObj 2) (RObj 1));
                (0%nat, EChange "update" "/d/a" (RObj 2) (RObj 1))])%list.
Proof.
  edestruct child_update_bubbles
    with (env := envChildTouched) (n := 17%nat) (s := worldChildNotified) (p := 0%nat)
         (c := 1%nat) (rel := "a") (full := "/d/a") (lp := 1%nat)
         (sp := fileStats 1 1 1 10) (sc := fileStats 9 9 2 20)
    as (s' & xc' & xp' & Hrun & _ & _ & _ & _ & _ & _ & _ & _ & _ & Ht).
  - exact numberToString_inj.
  - vm_compute. reflexivity.
  - vm_compute. reflexivity.
  - lia.
  - vm_compute. reflexivity.
  - vm_compute. reflexivity.
  - vm_compute. eauto.
  - vm_compute. reflexivity.
  - vm_compute. reflexivity.
  - constructor; [eexists; reflexivity|constructor].
  - vm_compute. reflexivity.
  - vm_compute. reflexivity.
  - vm_compute. reflexivity.
  - vm_compute. reflexivity.
  - unfold sameButAccess. simpl. lia.
  - vm_compute. discriminate.
  - root_listeners.
  - root_listeners.
  - exists s'. split; [exact Hrun|exact Ht].
Defined.

Lemma directory_batch_forwards_witness :
  exists s' xc',
    exec envDirTouched fuel0 (CFireTimeout 0%nat) worldDirNotified = Ok tt s' /\
    nodes s' !! 1%nat = Some xc' /\
    listenerTimeout xc' = Some 2000%Z /\
    listenerTasks xc' = Some {| b_previousStat := RObj 1; b_method := Some "watch";
                                b_done := [DoneForward 0] |} /\
    groups s' = [{| g_pending := 1; g_finished := false; g_done := [DoneEmitError 0] |}].
Proof.
  edestruct directory_batch_forwards
    with (env := envDirTouched) (n := 16%nat) (s := worldDirNotified) (p := 0%nat)
         (c := 1%nat) (rel := "a") (full := "/d/a") (lp := 0%nat)
         (sp := dirStats 1) (sc := dirStats 2)
    as (s' & xp' & xc' & Hrun & _ & _ & _ & _ & _ & _ & Hc & Hto & Hta & _ & _ & Hg & _).
  - exact numberToString_inj.
  - vm_compute. reflexivity.
  - vm_compute. reflexivity.
  - lia.
  - vm_compute. eauto.
  - vm_compute. reflexivity.
  - vm_compute. reflexivity.
  - vm_compute. reflexivity.
  - vm_compute. reflexivity.
  - vm_compute. reflexivity.
  - vm_compute. reflexivity.
  - vm_compute. reflexivity.
  - unfold sameButAccess. simpl. lia.
  - vm_compute. reflexivity.
  - vm_compute. reflexivity.
  - vm_compute. reflexivity.
  - vm_compute. reflexivity.
  - vm_compute. reflexivity.
  - root_listeners.
  - exists s', xc'. split; [exact Hrun|]. split; [exact Hc|]. split; [exact Hto|].
    split; [exact Hta|exact Hg].
Defined.

Lemma forwarded_child_unchanged_witness :
  exists s', exec (envDirMs 2) fuel0 (CFireTimeout 1%nat) worldForwardedMs = Ok tt s' /\
             groups s' = [{| g_pending := 0; g_finished := true;
                             g_done := [DoneEmitError 0] |}] /\
             trace s' = (trace worldForwardedMs ++
               [(1%nat, ELog "debug" "watch evaluating on: /d/a");
                (0%nat, ELog "debug" "watch evaluating on: /d/a");
                (1%nat, ELog "debug" "watch determined same: /d/a");
                (0%nat, ELog "debug" "watch determined same: /d/a")])%list.
Proof.
  edestruct forwarded_child_unchanged
    with (env := envDirMs 2) (n := 17%nat) (s := worldForwardedMs) (p := 0%nat)
         (c := 1%nat) (rel := "a") (full := "/d/a") (lp := 1%nat) (g := 0%nat)
         (G := {| g_pending := 1; g_finished := false; g_done := [DoneEmitError 0] |})
         (op := statsObjectMs (fileStats 1 1 1 10))
         (oc := statsObjectMs (fileStats 1 1 1 10)) (tp := 5) (tc := 5)
    as (s' & xc' & Hrun & Hg & _ & _ & _ & _ & _ & _ & Ht).
  - vm_compute. reflexivity.
  - vm_compute. reflexivity.
  - lia.
  - vm_compute. reflexivity.
  - vm_compute. reflexivity.
  - vm_compute. eauto.
  - vm_compute. reflexivity.
  - vm_compute. reflexivity.
  - vm_compute. reflexivity.
  - vm_compute. reflexivity.
  - vm_compute. reflexivity.
  - constructor; [eexists; reflexivity|constructor].
  - vm_compute. reflexivity.
  - vm_compute. reflexivity.
  - vm_compute. reflexivity.
  - vm_compute. reflexivity.
  - vm_compute. reflexivity.
  - vm_compute. reflexivity.
  - vm_compute. reflexivity.
  - root_listeners.
  - exists s'. split; [exact Hrun|]. split; [rewrite Hg; vm_compute; reflexivity|exact Ht].
Defined.

Lemma forwarded_child_reports_update_witness :
  exists s', exec envChildTouched fuel0 (CFireTimeout 1%nat) worldForwarded = Ok tt s' /\
             groups s' = [{| g_pending := 0; g_finished := true;
                             g_done := [DoneEmitError 0] |}] /\
             last (trace s') = Some (0%nat, EChange "update" "/d/a" (RObj 5) (RObj 1)).
Proof.
  edestruct forwarded_child_reports_update
    with (env := envChildTouched) (n := 17%nat) (s := worldForwarded) (p := 0%nat)
         (c := 1%nat) (rel := "a") (full := "/d/a") (lp := 1%nat) (g := 0%nat)
         (G := {| g_pending := 1; g_finished := false; g_done := [DoneEmitError 0] |})
         (sp := fileStats 1 1 1 10) (sc := fileStats 9 9 2 20)
    as (s' & xc' & Hrun & Hg & _ & _ & _ & _ & _ & Ht).
  - exact numberToString_inj.
  - vm_compute. reflexivity.
  - vm_compute. reflexivity.
  - lia.
  - vm_compute. reflexivity.
  - vm_compute. reflexivity.
  - vm_compute. eauto.
  - vm_compute. reflexivity.
  - vm_compute. reflexivity.
  - vm_compute. reflexivity.
  - vm_compute. reflexivity.
  - vm_compute. reflexivity.
  - constructor; [eexists; reflexivity|constructor].
  - vm_compute. reflexivity.
  - vm_compute. reflexivity.
  - vm_compute. reflexivity.
  - vm_compute. reflexivity.
  - unfold sameButAccess. simpl. lia.
  - vm_compute. discriminate.
  - root_listeners.
  - root_listeners.
  - exists s'. split; [exact Hrun|]. split; [rewrite Hg; vm_compute; reflexivity|].
    rewrite Ht, last_app. vm_compute. reflexivity.
Defined.

Lemma unlistable_directory_reports_error_witness :
  exists s' xp',
    exec envUnlistable fuel0 (CFireTimeout 0%nat) worldDirHeard = Ok tt s' /\
    nodes s' !! 0%nat = Some xp' /\ children xp' = [("a", Child 1)] /\
    nodes s' !! 1%nat = nodes worldDirHeard !! 1%nat /\
    trace s' = (trace worldDirHeard ++
      [(0%nat, ELog "debug" "watch evaluating on: /d");
       (0%nat, EError (Error "EACCES"))])%list.
Proof.
  edestruct unlistable_directory_reports_error
    with (env := envUnlistable) (n := 17%nat) (s := worldDirHeard) (p := 0%nat)
         (lp := 0%nat) (sp := dirStats 1) (sc := dirStats 2) (err := Error "EACCES")
    as (s' & xp' & Hrun & Hp & Hch & _ & _ & _ & _ & Ho & _ & _ & _ & _ & Ht).
  - exact numberToString_inj.
  - vm_compute. reflexivity.
  - vm_compute. eauto.
  - vm_compute. reflexivity.
  - vm_compute. reflexivity.
  - constructor; [reflexivity|constructor].
  - vm_compute. reflexivity.
  - vm_compute. reflexivity.
  - vm_compute. reflexivity.
  - vm_compute. reflexivity.
  - unfold sameButAccess. simpl. lia.
  - vm_compute. reflexivity.
  - vm_compute. reflexivity.
  - heard_listeners.
  - heard_listeners.
  - vm_compute. reflexivity.
  - exists s', xp'. split; [exact Hrun|]. split; [exact Hp|].
    split; [rewrite Hch; vm_compute; reflexivity|].
    split; [apply Ho; lia|exact Ht].
Defined.


Lemma close_leaves_children_witness :
  exists s' x',
    exec envDir fuel0 (CClose 0%nat None) worldDir = Ok tt s' /\
    nodes s' !! 0%nat = Some x' /\ state x' = closed /\
    children x' = [("a", Child 1)] /\
    nodes s' !! 1%nat = nodes worldDir !! 1%nat /\
    stateOf worldDir 1 = Some active /\
    handles s' = [("/d", false); ("/d/a", true)].
Proof.
  edestruct close_leaves_children
    with (env := envDir) (n := 18%nat) (s := worldDir) (w := 0%nat)
         (reason := @None string) (p := "/d")
    as (s' & x' & Hrun & Hw & Hs & _ & Hc & Ho & _ & Hh & _).
  - vm_compute. reflexivity.
  - vm_compute. reflexivity.
  - split; vm_compute; reflexivity.
  - root_listeners.
  - root_listeners.
  - root_registered.
  - exists s', x'. split; [exact Hrun|]. split; [exact Hw|]. split; [exact Hs|].
    split; [rewrite Hc; vm_compute; reflexivity|].
    split; [apply Ho; lia|]. split; [vm_compute; reflexivity|].
    rewrite Hh. vm_compute. reflexivity.
Defined.


Lemma ignored_deletion_keeps_child_witness :
  exists s' xp',
    exec envIgnoredGone fuel0 (CFireTimeout 0%nat) worldDirNotified = Ok tt s' /\
    nodes s' !! 0%nat = Some xp' /\ children xp' = [("a", Child 1)] /\
    nodes s' !! 1%nat = nodes worldDirNotified !! 1%nat /\
    stateOf worldDirNotified 1 = Some active /\
    handles s' = handles worldDirNotified.
Proof.
  edestruct ignored_deletion_keeps_child
    with (env := envIgnoredGone) (n := 17%nat) (s := worldDirNotified) (p := 0%nat)
         (c := 1%nat) (rel := "a") (lp := 0%nat) (sp := dirStats 1) (sc := dirStats 3)
    as (s' & xp' & Hrun & Hp & Hch & _ & _ & Ho & _ & Hh & _).
  - exact numberToString_inj.
  - vm_compute. reflexivity.
  - vm_compute. eauto.
  - vm_compute. reflexivity.
  - vm_compute. reflexivity.
  - constructor; [eexists; reflexivity|constructor].
  - vm_compute. reflexivity.
  - vm_compute. reflexivity.
  - vm_compute. reflexivity.
  - vm_compute. reflexivity.
  - unfold sameButAccess. simpl. lia.
  - vm_compute. reflexivity.
  - vm_compute. reflexivity.
  - vm_compute. reflexivity.
  - vm_compute. reflexivity.
  - root_listeners.
  - exists s', xp'. split; [exact Hrun|]. split; [exact Hp|]. split; [exact Hch|].
    split; [apply Ho; lia|]. split; [vm_compute; reflexivity|exact Hh].
Defined.

